(** * SceneManager: texture and material registries, shader-state setters

    A shallow embedding of [SceneManager.cpp] (CS-330 scene layer on top of
    OpenGL, GLM and stb_image) and the properties of its registries,
    transform composer and shader setters.

    Conventions
    - C++ [int] is a [Z] in the range of 32 bits, [GLuint] a [Z] in
      [0, 2^32); the conversion between them is written out ([to_int]).
    - C++ [float] is idealised as a real number ([R]); rounding is not
      modelled.
    - A method is a state transformer that either returns or runs into
      undefined behaviour (null dereference, array index out of bounds).
    - The collaborators the file calls but does not define (OpenGL, stb_image,
      ShaderManager, ShapeMeshes, [std::cout]) are traces of the calls made
      on them; what they hand back (decoded images, texture names) is read
      from the environment part of the state. *)

From Stdlib Require Import ZArith String List Lia Reals Lra.
From stdpp Require Import base option list.

Local Open Scope string_scope.
Local Open Scope Z_scope.

(** Decimal literals of [R] stay as written under simplification. *)
#[local] Arguments Q2R : simpl never.

(** ** Machine integers *)

(** [int x = u;] for an unsigned 32-bit [u]: the value modulo 2^32 that lies
    in the range of [int]. *)
Definition to_int (u : Z) : Z := (u + 2 ^ 31) mod 2 ^ 32 - 2 ^ 31.

(** [std::string::compare]: zero exactly on equal strings, the sign of the
    lexicographic comparison otherwise. *)
Definition compare (a b : string) : Z :=
  match String.compare a b with
  | Eq => 0
  | Lt => -1
  | Gt => 1
  end.

(** ** GLM: vectors, 4x4 matrices (column major) and the transforms used *)

Module glm.

Local Open Scope R_scope.

Record vec2 := mk_vec2 { u : R; v : R }.
Record vec3 := mk_vec3 { x : R; y : R; z : R }.
Record vec4 := mk_vec4 { r : R; g : R; b : R; a : R }.

(** [mat4] is four columns; [m[i]] is column [i]. *)
Record mat4 := mk_mat4 { col0 : vec4; col1 : vec4; col2 : vec4; col3 : vec4 }.

Definition vec4_add (p q : vec4) : vec4 :=
  mk_vec4 (r p + r q) (g p + g q) (b p + b q) (a p + a q).

Definition vec4_scale (p : vec4) (k : R) : vec4 :=
  mk_vec4 (r p * k) (g p * k) (b p * k) (a p * k).

(** [mat4(1.0f)] *)
Definition identity : mat4 :=
  mk_mat4 (mk_vec4 1 0 0 0) (mk_vec4 0 1 0 0) (mk_vec4 0 0 1 0) (mk_vec4 0 0 0 1).

(** [m * v]: the linear combination of the columns of [m]. *)
Definition mul_vec (m : mat4) (p : vec4) : vec4 :=
  vec4_add (vec4_add (vec4_add (vec4_scale (col0 m) (r p)) (vec4_scale (col1 m) (g p)))
                     (vec4_scale (col2 m) (b p)))
           (vec4_scale (col3 m) (a p)).

(** [m1 * m2]: column [j] of the product is [m1] applied to column [j] of
    [m2]. *)
Definition mul (m1 m2 : mat4) : mat4 :=
  mk_mat4 (mul_vec m1 (col0 m2)) (mul_vec m1 (col1 m2))
          (mul_vec m1 (col2 m2)) (mul_vec m1 (col3 m2)).

(** [glm::radians] *)
Definition radians (degrees : R) : R := degrees * (PI / 180).

Definition length (p : vec3) : R := sqrt (x p * x p + y p * y p + z p * z p).

Definition normalize (p : vec3) : vec3 :=
  mk_vec3 (x p / length p) (y p / length p) (z p / length p).

(** [glm::scale(m, v)] *)
Definition scale_mat (m : mat4) (s : vec3) : mat4 :=
  mk_mat4 (vec4_scale (col0 m) (x s)) (vec4_scale (col1 m) (y s))
          (vec4_scale (col2 m) (z s)) (col3 m).

(** [glm::translate(m, v)] *)
Definition translate_mat (m : mat4) (t : vec3) : mat4 :=
  mk_mat4 (col0 m) (col1 m) (col2 m)
          (vec4_add (vec4_add (vec4_add (vec4_scale (col0 m) (x t))
                                        (vec4_scale (col1 m) (y t)))
                              (vec4_scale (col2 m) (z t)))
                    (col3 m)).

(** [glm::rotate(m, angle, v)]: rotation by [angle] radians about the
    normalised axis [v]. *)
Definition rotate_mat (m : mat4) (angle : R) (axis0 : vec3) : mat4 :=
  let c := cos angle in
  let s := sin angle in
  let axis := normalize axis0 in
  let temp := mk_vec3 ((1 - c) * x axis) ((1 - c) * y axis) ((1 - c) * z axis) in
  let r00 := c + x temp * x axis in
  let r01 := x temp * y axis + s * z axis in
  let r02 := x temp * z axis - s * y axis in
  let r10 := y temp * x axis - s * z axis in
  let r11 := c + y temp * y axis in
  let r12 := y temp * z axis + s * x axis in
  let r20 := z temp * x axis + s * y axis in
  let r21 := z temp * y axis - s * x axis in
  let r22 := c + z temp * z axis in
  mk_mat4
    (vec4_add (vec4_add (vec4_scale (col0 m) r00) (vec4_scale (col1 m) r01))
              (vec4_scale (col2 m) r02))
    (vec4_add (vec4_add (vec4_scale (col0 m) r10) (vec4_scale (col1 m) r11))
              (vec4_scale (col2 m) r12))
    (vec4_add (vec4_add (vec4_scale (col0 m) r20) (vec4_scale (col1 m) r21))
              (vec4_scale (col2 m) r22))
    (col3 m).

(** The one-argument forms of [glm/gtx/transform.hpp] start from the
    identity. *)
Definition scale (s : vec3) : mat4 := scale_mat identity s.
Definition translate (t : vec3) : mat4 := translate_mat identity t.
Definition rotate (angle : R) (axis : vec3) : mat4 := rotate_mat identity angle axis.

End glm.

(** ** Data of the scene manager *)

(** [TEXTURE_INFO]: [ID] is a [GLuint] ([glGenTextures] writes through its
    address). *)
Module TEXTURE_INFO.
Record t := mk { ID : Z; tag : string }.
End TEXTURE_INFO.

Module OBJECT_MATERIAL.
Record t := mk {
  diffuseColor : glm.vec3;
  specularColor : glm.vec3;
  shininess : R;
  tag : string
}.
End OBJECT_MATERIAL.

(** The capacity of [m_textureIDs]. *)
Definition MAX_TEXTURES : Z := 16.

(** *** ShaderManager: the uniform writes it received, newest first *)

Inductive Uniform :=
| UBool (b : bool)
| UInt (i : Z)
| UFloat (f : R)
| UVec2 (p : glm.vec2)
| UVec3 (p : glm.vec3)
| UVec4 (p : glm.vec4)
| UMat4 (m : glm.mat4)
| USampler2D (slot : Z).

Definition ShaderManager := list (string * Uniform).

(** *** ShapeMeshes: the calls it received, newest first *)

Inductive Shape := Plane | Box | Cylinder | Cone | TaperedCylinder | Sphere | Torus.

Inductive MeshCall := LoadMesh (s : Shape) | DrawMesh (s : Shape).

(** *** OpenGL *)

Inductive TexParam :=
  GL_TEXTURE_WRAP_S | GL_TEXTURE_WRAP_T | GL_TEXTURE_MIN_FILTER | GL_TEXTURE_MAG_FILTER.

Inductive TexParamValue := GL_REPEAT | GL_LINEAR.

Inductive InternalFormat := GL_RGB8 | GL_RGBA8.

Inductive PixelFormat := GL_RGB | GL_RGBA.

(** The texture calls of the API (target [GL_TEXTURE_2D] throughout).
    [glGenTextures] carries the name the driver handed out;
    [glActiveTexture i] stands for [glActiveTexture(GL_TEXTURE0 + i)]. *)
Inductive GLCall :=
| glGenTextures (name : Z)
| glDeleteTextures (name : Z)
| glBindTexture (name : Z)
| glTexParameteri (pname : TexParam) (param : TexParamValue)
| glTexImage2D (internal : InternalFormat) (width height : Z) (format : PixelFormat)
| glGenerateMipmap
| glActiveTexture (unit : Z).

(** The texture names in use after a trace of calls (newest first): those
    generated and not deleted since. *)
Fixpoint allocated (calls : list GLCall) : list Z :=
  match calls with
  | [] => []
  | glGenTextures n :: rest => n :: allocated rest
  | glDeleteTextures n :: rest => filter (λ m, negb (m =? n)) (allocated rest)
  | _ :: rest => allocated rest
  end.

(** *** stb_image and the console *)

Record Image := mk_Image { width : Z; height : Z; colorChannels : Z }.

Inductive StbCall := stbi_set_flip_vertically_on_load (flag : bool) | stbi_image_free.

Inductive Message :=
| SuccessfullyLoaded (filename : string) (width height channels : Z)
| NotImplementedChannels (channels : Z)
| CouldNotLoad (filename : string).

(** ** The state the methods run in *)

Record State := mk_State {
  (* members of SceneManager *)
  m_pShaderManager : option ShaderManager;   (* [None] is NULL *)
  m_basicMeshes : list MeshCall;
  m_textureIDs : list TEXTURE_INFO.t;        (* TEXTURE_INFO m_textureIDs[16] *)
  m_loadedTextures : Z;
  m_objectMaterials : list OBJECT_MATERIAL.t;
  (* collaborators *)
  gl : list GLCall;
  stb : list StbCall;
  cout : list Message;
  (* environment: what decoding a file gives, the texture names the driver
     hands out (by number of names handed out before), and the content an
     uninitialised local OBJECT_MATERIAL is found with *)
  files : string → option Image;
  driver : nat → Z;
  indeterminate : OBJECT_MATERIAL.t
}.

Definition set_shader (f : option ShaderManager → option ShaderManager) (s : State) : State :=
  mk_State (f (m_pShaderManager s)) (m_basicMeshes s) (m_textureIDs s) (m_loadedTextures s)
           (m_objectMaterials s) (gl s) (stb s) (cout s) (files s) (driver s) (indeterminate s).

Definition set_meshes (f : list MeshCall → list MeshCall) (s : State) : State :=
  mk_State (m_pShaderManager s) (f (m_basicMeshes s)) (m_textureIDs s) (m_loadedTextures s)
           (m_objectMaterials s) (gl s) (stb s) (cout s) (files s) (driver s) (indeterminate s).

Definition set_textureIDs (f : list TEXTURE_INFO.t → list TEXTURE_INFO.t) (s : State) : State :=
  mk_State (m_pShaderManager s) (m_basicMeshes s) (f (m_textureIDs s)) (m_loadedTextures s)
           (m_objectMaterials s) (gl s) (stb s) (cout s) (files s) (driver s) (indeterminate s).

Definition set_loadedTextures (f : Z → Z) (s : State) : State :=
  mk_State (m_pShaderManager s) (m_basicMeshes s) (m_textureIDs s) (f (m_loadedTextures s))
           (m_objectMaterials s) (gl s) (stb s) (cout s) (files s) (driver s) (indeterminate s).

Definition set_objectMaterials (f : list OBJECT_MATERIAL.t → list OBJECT_MATERIAL.t)
    (s : State) : State :=
  mk_State (m_pShaderManager s) (m_basicMeshes s) (m_textureIDs s) (m_loadedTextures s)
           (f (m_objectMaterials s)) (gl s) (stb s) (cout s) (files s) (driver s) (indeterminate s).

Definition set_gl (f : list GLCall → list GLCall) (s : State) : State :=
  mk_State (m_pShaderManager s) (m_basicMeshes s) (m_textureIDs s) (m_loadedTextures s)
           (m_objectMaterials s) (f (gl s)) (stb s) (cout s) (files s) (driver s) (indeterminate s).

Definition set_stb (f : list StbCall → list StbCall) (s : State) : State :=
  mk_State (m_pShaderManager s) (m_basicMeshes s) (m_textureIDs s) (m_loadedTextures s)
           (m_objectMaterials s) (gl s) (f (stb s)) (cout s) (files s) (driver s) (indeterminate s).

Definition set_cout (f : list Message → list Message) (s : State) : State :=
  mk_State (m_pShaderManager s) (m_basicMeshes s) (m_textureIDs s) (m_loadedTextures s)
           (m_objectMaterials s) (gl s) (stb s) (f (cout s)) (files s) (driver s) (indeterminate s).

(** ** Outcomes and the method monad *)

Inductive Fault :=
| NullDereference
| IndexOutOfBounds (index : Z)
| OutOfFuel.

Inductive outcome (A : Type) :=
| Returned (a : A)
| Undefined (f : Fault).
Arguments Returned {A} a.
Arguments Undefined {A} f.

#[global] Instance outcome_ret : MRet outcome := λ A a, Returned a.
#[global] Instance outcome_bind : MBind outcome := λ A B k c,
  match c with
  | Returned a => k a
  | Undefined f => Undefined f
  end.

Definition M (A : Type) : Type := State → outcome (A * State).

#[global] Instance M_ret : MRet M := λ A a s, Returned (a, s).
#[global] Instance M_bind : MBind M := λ A B k c s,
  match c s with
  | Returned (a, s') => k a s'
  | Undefined f => Undefined f
  end.

Definition get : M State := λ s, Returned (s, s).
Definition modify (f : State → State) : M unit := λ s, Returned (tt, f s).
Definition lift {A} (o : outcome A) : M A := λ s,
  match o with
  | Returned a => Returned (a, s)
  | Undefined f => Undefined f
  end.


(** [while (cond) body] over the locals [L] of a method; a run that needs
    more than [fuel] iterations ends in [OutOfFuel]. *)
Fixpoint while {L : Type} (fuel : nat) (cond : L → bool) (body : L → outcome L)
    (l : L) : outcome L :=
  if cond l then
    match fuel with
    | O => Undefined OutOfFuel
    | S fuel' => body l ≫= while fuel' cond body
    end
  else Returned l.

(** [for (int i = i0; i < m_loadedTextures; i++) body(i)] *)
Fixpoint for_loaded (fuel : nat) (i : Z) (body : Z → M unit) : M unit := λ s,
  if i <? m_loadedTextures s then
    match fuel with
    | O => Undefined OutOfFuel
    | S fuel' => (body i;; for_loaded fuel' (i + 1) body) s
    end
  else Returned (tt, s).

(** [a[i]] on a C array: defined on the indices of the array only. *)
Definition array_read {A} (a : list A) (i : Z) : outcome A :=
  if 0 <=? i then
    match a !! Z.to_nat i with
    | Some e => Returned e
    | None => Undefined (IndexOutOfBounds i)
    end
  else Undefined (IndexOutOfBounds i).

(** [a[i] = f(a[i])] on a C array. *)
Definition array_update {A} (a : list A) (i : Z) (f : A → A) : outcome (list A) :=
  e ← array_read a i; Returned (<[Z.to_nat i := f e]> a).

(** [NULL == p] *)
Definition is_null {A} (p : option A) : bool :=
  match p with
  | None => true
  | Some _ => false
  end.

(** ** Calls on the collaborators *)

(** [m_pShaderManager->set...Value(name, value)] *)
Definition shader_set (name : string) (value : Uniform) : M unit := λ s,
  match m_pShaderManager s with
  | Some writes => Returned (tt, set_shader (λ _, Some ((name, value) :: writes)) s)
  | None => Undefined NullDereference
  end.

Definition mesh_call (c : MeshCall) : M unit := modify (set_meshes (cons c)).
Definition gl_call (c : GLCall) : M unit := modify (set_gl (cons c)).
Definition stb_call (c : StbCall) : M unit := modify (set_stb (cons c)).
Definition print (m : Message) : M unit := modify (set_cout (cons m)).

(** How many names the driver handed out along a trace. *)
Fixpoint generated (calls : list GLCall) : nat :=
  match calls with
  | [] => O
  | glGenTextures _ :: rest => S (generated rest)
  | _ :: rest => generated rest
  end.

(** [glGenTextures(1, &name)] *)
Definition gen_texture : M Z := λ s,
  let name := driver s (generated (gl s)) in
  Returned (name, set_gl (cons (glGenTextures name)) s).

(** [stbi_load(filename, &width, &height, &colorChannels, 0)] *)
Definition stbi_load (filename : string) : M (option Image) := λ s,
  Returned (files s filename, s).

(** ** Names of the uniforms *)

Definition g_ModelName := "model".
Definition g_ColorValueName := "objectColor".
Definition g_TextureValueName := "objectTexture".
Definition g_UseTextureName := "bUseTexture".
Definition g_UseLightingName := "bUseLighting".

(** ** The methods *)

(** [m_textureIDs[m_loadedTextures].ID = textureID;
     m_textureIDs[m_loadedTextures].tag = tag;
     m_loadedTextures++;] *)
Definition register_texture (textureID : Z) (tag : string) : M unit :=
  s ← get;
  a ← lift (array_update (m_textureIDs s) (m_loadedTextures s)
              (λ e, TEXTURE_INFO.mk textureID (TEXTURE_INFO.tag e)));
  a ← lift (array_update a (m_loadedTextures s)
              (λ e, TEXTURE_INFO.mk (TEXTURE_INFO.ID e) tag));
  modify (set_textureIDs (λ _, a));;
  modify (set_loadedTextures (λ n, n + 1)).

Definition CreateGLTexture (filename : string) (tag : string) : M bool :=
  stb_call (stbi_set_flip_vertically_on_load true);;
  image ← stbi_load filename;
  match image with
  | Some img =>
      print (SuccessfullyLoaded filename (width img) (height img) (colorChannels img));;
      textureID ← gen_texture;
      gl_call (glBindTexture textureID);;
      gl_call (glTexParameteri GL_TEXTURE_WRAP_S GL_REPEAT);;
      gl_call (glTexParameteri GL_TEXTURE_WRAP_T GL_REPEAT);;
      gl_call (glTexParameteri GL_TEXTURE_MIN_FILTER GL_LINEAR);;
      gl_call (glTexParameteri GL_TEXTURE_MAG_FILTER GL_LINEAR);;
      let rest : M bool :=
        gl_call glGenerateMipmap;;
        stb_call stbi_image_free;;
        gl_call (glBindTexture 0);;
        register_texture textureID tag;;
        mret true in
      if colorChannels img =? 3 then
        gl_call (glTexImage2D GL_RGB8 (width img) (height img) GL_RGB);; rest
      else if colorChannels img =? 4 then
        gl_call (glTexImage2D GL_RGBA8 (width img) (height img) GL_RGBA);; rest
      else
        print (NotImplementedChannels (colorChannels img));;
        mret false
  | None =>
      print (CouldNotLoad filename);;
      mret false
  end.

Definition BindGLTextures : M unit :=
  s ← get;
  for_loaded (Z.to_nat (m_loadedTextures s)) 0 (λ i,
    gl_call (glActiveTexture i);;
    s ← get;
    e ← lift (array_read (m_textureIDs s) i);
    gl_call (glBindTexture (TEXTURE_INFO.ID e))).

Definition DestroyGLTextures : M unit :=
  s ← get;
  for_loaded (Z.to_nat (m_loadedTextures s)) 0 (λ i,
    name ← gen_texture;
    s ← get;
    a ← lift (array_update (m_textureIDs s) i
                (λ e, TEXTURE_INFO.mk name (TEXTURE_INFO.tag e)));
    modify (set_textureIDs (λ _, a))).

(** The locals of [FindTextureID] and [FindTextureSlot]: the result so far,
    [index] and [bFound]. *)
Definition FindTextureID (tag : string) : M Z := λ s,
  '(textureID, _, _) ←
    while (Z.to_nat (m_loadedTextures s))
      (λ '(textureID, index, bFound),
         (index <? m_loadedTextures s) && Bool.eqb bFound false)
      (λ '(textureID, index, bFound),
         e ← array_read (m_textureIDs s) index;
         if compare (TEXTURE_INFO.tag e) tag =? 0
         then Returned (to_int (TEXTURE_INFO.ID e), index, true)
         else Returned (textureID, index + 1, bFound))
      (-1, 0, false);
  Returned (textureID, s).

Definition FindTextureSlot (tag : string) : M Z := λ s,
  '(textureSlot, _, _) ←
    while (Z.to_nat (m_loadedTextures s))
      (λ '(textureSlot, index, bFound),
         (index <? m_loadedTextures s) && Bool.eqb bFound false)
      (λ '(textureSlot, index, bFound),
         e ← array_read (m_textureIDs s) index;
         if compare (TEXTURE_INFO.tag e) tag =? 0
         then Returned (index, index, true)
         else Returned (textureSlot, index + 1, bFound))
      (-1, 0, false);
  Returned (textureSlot, s).

(** [FindMaterial(tag, material)]: [material] is passed by reference; the
    method hands back its new content next to the result. *)
Definition FindMaterial (tag : string) (material : OBJECT_MATERIAL.t)
    : M (bool * OBJECT_MATERIAL.t) := λ s,
  if Z.of_nat (length (m_objectMaterials s)) =? 0 then Returned ((false, material), s)
  else
    '(material', _, _) ←
      while (length (m_objectMaterials s))
        (λ '(material, index, bFound),
           (index <? Z.of_nat (length (m_objectMaterials s))) && Bool.eqb bFound false)
        (λ '(material, index, bFound),
           e ← array_read (m_objectMaterials s) index;
           if compare (OBJECT_MATERIAL.tag e) tag =? 0
           then Returned
                  (OBJECT_MATERIAL.mk (OBJECT_MATERIAL.diffuseColor e)
                     (OBJECT_MATERIAL.specularColor e) (OBJECT_MATERIAL.shininess e)
                     (OBJECT_MATERIAL.tag material),
                   index, true)
           else Returned (material, index + 1, bFound))
        (material, 0, false);
    Returned ((true, material'), s).

Definition SetTransformations (scaleXYZ : glm.vec3)
    (XrotationDegrees YrotationDegrees ZrotationDegrees : R)
    (positionXYZ : glm.vec3) : M unit :=
  let scale := glm.scale scaleXYZ in
  let rotationX := glm.rotate (glm.radians XrotationDegrees) (glm.mk_vec3 1 0 0) in
  let rotationY := glm.rotate (glm.radians YrotationDegrees) (glm.mk_vec3 0 1 0) in
  let rotationZ := glm.rotate (glm.radians ZrotationDegrees) (glm.mk_vec3 0 0 1) in
  let translation := glm.translate positionXYZ in
  let modelView :=
    glm.mul (glm.mul (glm.mul (glm.mul translation rotationZ) rotationY) rotationX) scale in
  s ← get;
  if negb (is_null (m_pShaderManager s))
  then shader_set g_ModelName (UMat4 modelView)
  else mret tt.

Definition SetShaderColor (redColorValue greenColorValue blueColorValue alphaValue : R)
    : M unit :=
  let currentColor := glm.mk_vec4 redColorValue greenColorValue blueColorValue alphaValue in
  s ← get;
  if negb (is_null (m_pShaderManager s))
  then
    shader_set g_UseTextureName (UInt 0);;
    shader_set g_ColorValueName (UVec4 currentColor)
  else mret tt.

Definition SetShaderTexture (textureTag : string) : M unit :=
  s ← get;
  if negb (is_null (m_pShaderManager s))
  then
    shader_set g_UseTextureName (UInt 1);;
    textureID ← FindTextureSlot textureTag;
    shader_set g_TextureValueName (USampler2D textureID)
  else mret tt.

Definition SetTextureUVScale (u v : R) : M unit :=
  s ← get;
  if negb (is_null (m_pShaderManager s))
  then shader_set "UVscale" (UVec2 (glm.mk_vec2 u v))
  else mret tt.

(** The local [material] is declared without an initialiser: it starts as
    whatever [indeterminate] holds. *)
Definition SetShaderMaterial (materialTag : string) : M unit :=
  s ← get;
  if 0 <? Z.of_nat (length (m_objectMaterials s)) then
    '(bReturn, material) ← FindMaterial materialTag (indeterminate s);
    if Bool.eqb bReturn true then
      shader_set "material.diffuseColor" (UVec3 (OBJECT_MATERIAL.diffuseColor material));;
      shader_set "material.specularColor" (UVec3 (OBJECT_MATERIAL.specularColor material));;
      shader_set "material.shininess" (UFloat (OBJECT_MATERIAL.shininess material))
    else mret tt
  else mret tt.

(** *** The scene *)

Definition DefineObjectMaterials : M unit :=
  let push_back (m : OBJECT_MATERIAL.t) : M unit :=
    modify (set_objectMaterials (λ l, (l ++ [m])%list)) in
  let glossyMaterial :=
    OBJECT_MATERIAL.mk (glm.mk_vec3 1.0 1.0 1.0) (glm.mk_vec3 1.0 1.0 1.0) 128.0 "glossy" in
  push_back glossyMaterial;;
  let metalMaterial :=
    OBJECT_MATERIAL.mk (glm.mk_vec3 0.7 0.7 0.7) (glm.mk_vec3 0.9 0.9 0.9) 64.0 "metal" in
  push_back metalMaterial;;
  let woodMaterial :=
    OBJECT_MATERIAL.mk (glm.mk_vec3 0.6 0.4 0.3) (glm.mk_vec3 0.3 0.3 0.3) 32.0 "wood" in
  push_back woodMaterial;;
  let mattePlasticMaterial :=
    OBJECT_MATERIAL.mk (glm.mk_vec3 0.5 0.5 0.5) (glm.mk_vec3 0.2 0.2 0.2) 16.0 "matte" in
  push_back mattePlasticMaterial;;
  let ceramicMaterial :=
    OBJECT_MATERIAL.mk (glm.mk_vec3 0.9 0.9 0.9) (glm.mk_vec3 0.5 0.5 0.5) 48.0 "ceramic" in
  push_back ceramicMaterial;;
  let defaultMaterial :=
    OBJECT_MATERIAL.mk (glm.mk_vec3 1.0 1.0 1.0) (glm.mk_vec3 0.5 0.5 0.5) 32.0 "default" in
  push_back defaultMaterial.

(** [setVec3Value(name, x, y, z)] takes the three components. *)
Definition vec3_value (x y z : R) : Uniform := UVec3 (glm.mk_vec3 x y z).

Definition SetupSceneLights : M unit :=
  shader_set g_UseLightingName (UBool true);;
  shader_set "directionalLight.direction" (vec3_value 0.2 (-1.0) (-0.3));;
  shader_set "directionalLight.ambient" (vec3_value 0.25 0.25 0.25);;
  shader_set "directionalLight.diffuse" (vec3_value 0.6 0.6 0.6);;
  shader_set "directionalLight.specular" (vec3_value 0.4 0.4 0.4);;
  shader_set "directionalLight.bActive" (UBool true);;
  shader_set "pointLights[0].position" (vec3_value 6.0 6.0 3.0);;
  shader_set "pointLights[0].ambient" (vec3_value 0.1 0.1 0.15);;
  shader_set "pointLights[0].diffuse" (vec3_value 0.4 0.4 0.5);;
  shader_set "pointLights[0].specular" (vec3_value 0.5 0.5 0.6);;
  shader_set "pointLights[0].bActive" (UBool true);;
  shader_set "pointLights[1].position" (vec3_value (-5.2) 2.6 0.8);;
  shader_set "pointLights[1].ambient" (vec3_value 0.25 0.05 0.05);;
  shader_set "pointLights[1].diffuse" (vec3_value 0.8 0.1 0.1);;
  shader_set "pointLights[1].specular" (vec3_value 0.6 0.2 0.2);;
  shader_set "pointLights[1].bActive" (UBool true);;
  shader_set "pointLights[2].bActive" (UBool false);;
  shader_set "pointLights[3].bActive" (UBool false);;
  shader_set "pointLights[4].bActive" (UBool false);;
  shader_set "spotLight.bActive" (UBool false).

Definition PrepareScene : M unit :=
  mesh_call (LoadMesh Plane);;
  mesh_call (LoadMesh Box);;
  mesh_call (LoadMesh Cylinder);;
  mesh_call (LoadMesh Cone);;
  mesh_call (LoadMesh TaperedCylinder);;
  mesh_call (LoadMesh Sphere);;
  mesh_call (LoadMesh Torus);;
  CreateGLTexture "textures/monitor.jpg" "monitor";;
  CreateGLTexture "textures/screen.jpg" "screen";;
  CreateGLTexture "textures/dark-metal-texture.jpg" "metal";;
  CreateGLTexture "textures/texture-wooden-boards.jpg" "desk";;
  BindGLTextures;;
  DefineObjectMaterials;;
  SetupSceneLights.

(** The statements of [RenderScene], in program order. *)
Inductive Statement :=
| Call_SetTransformations (scaleXYZ : glm.vec3)
    (XrotationDegrees YrotationDegrees ZrotationDegrees : R) (positionXYZ : glm.vec3)
| Call_SetShaderColor (red green blue alpha : R)
| Call_SetShaderTexture (textureTag : string)
| Call_SetShaderMaterial (materialTag : string)
| Call_SetTextureUVScale (u v : R)
| Call_Draw (s : Shape).

Definition execute (c : Statement) : M unit :=
  match c with
  | Call_SetTransformations s rx ry rz p => SetTransformations s rx ry rz p
  | Call_SetShaderColor r g b a => SetShaderColor r g b a
  | Call_SetShaderTexture t => SetShaderTexture t
  | Call_SetShaderMaterial t => SetShaderMaterial t
  | Call_SetTextureUVScale u v => SetTextureUVScale u v
  | Call_Draw s => mesh_call (DrawMesh s)
  end.

Fixpoint sequence (l : list Statement) : M unit :=
  match l with
  | [] => mret tt
  | c :: rest => execute c;; sequence rest
  end.

Definition RenderScene_statements : list Statement :=
  [ (* desk *)
    Call_SetTransformations (glm.mk_vec3 15.0 0.5 10.0) 0.0 0.0 0.0 (glm.mk_vec3 0.0 (-0.25) 0.0);
    Call_SetShaderColor 0.91 0.85 0.85 1;
    Call_SetShaderTexture "desk";
    Call_SetShaderMaterial "wood";
    Call_SetTextureUVScale 1.5 1.0;
    Call_Draw Box;
    (* monitor box *)
    Call_SetTransformations (glm.mk_vec3 10.0 0.15 4.5) 90.0 0.0 0.0 (glm.mk_vec3 0.0 5.0 0.0);
    Call_SetShaderColor 0.2 0.2 0.2 1.0;
    Call_SetShaderTexture "monitor";
    Call_SetShaderMaterial "matte";
    Call_SetTextureUVScale 1.0 1.0;
    Call_Draw Box;
    (* cylinder plate under the monitor *)
    Call_SetTransformations (glm.mk_vec3 0.5 0.5 2.5) 0.0 90.0 0.0 (glm.mk_vec3 0.0 0.0 0.0);
    Call_SetShaderColor 0.1 0.1 0.1 1.0;
    Call_SetShaderMaterial "metal";
    Call_Draw Cylinder;
    (* monitor stand *)
    Call_SetTransformations (glm.mk_vec3 0.2 5.0 1.0) 0.0 90.0 0.0 (glm.mk_vec3 0.0 0.0 0.0);
    Call_SetShaderColor 0.1 0.1 0.1 1.0;
    Call_SetShaderTexture "metal";
    Call_SetShaderMaterial "metal";
    Call_SetTextureUVScale 1.0 2.0;
    Call_Draw TaperedCylinder;
    (* monitor screen *)
    Call_SetTransformations (glm.mk_vec3 4.0 1.0 2.0) 90.0 0.0 0.0 (glm.mk_vec3 (-0.25) 5.0 0.5);
    Call_SetShaderColor 1.0 1.0 1.0 1.0;
    Call_SetShaderTexture "screen";
    Call_SetShaderMaterial "glossy";
    Call_SetTextureUVScale 1.0 1.0;
    Call_Draw Plane;
    (* keyboard *)
    Call_SetTransformations (glm.mk_vec3 5.0 0.15 1.0) 0.0 0.0 0.0 (glm.mk_vec3 0.0 0.075 3.0);
    Call_SetShaderColor 0.1 0.1 0.1 1.0;
    Call_SetShaderMaterial "matte";
    Call_Draw Box;
    (* lamp base *)
    Call_SetTransformations (glm.mk_vec3 0.5 0.3 0.3) 0.0 0.0 0.0 (glm.mk_vec3 (-5.5) 0.10 2.0);
    Call_SetShaderColor 0.2 0.2 0.2 1.0;
    Call_SetShaderMaterial "metal";
    Call_Draw Cylinder;
    (* lamp pole *)
    Call_SetTransformations (glm.mk_vec3 0.12 0.12 2.8) 90.0 0.0 0.0 (glm.mk_vec3 (-5.5) 0.3 2.0);
    Call_SetShaderColor 0.15 0.15 0.15 1.0;
    Call_SetShaderMaterial "metal";
    Call_Draw Cylinder;
    (* lamp shade *)
    Call_SetTransformations (glm.mk_vec3 0.7 0.9 0.7) 180.0 0.0 0.0 (glm.mk_vec3 (-5.5) 3.1 2.0);
    Call_SetShaderColor 0.9 0.85 0.7 1.0;
    Call_SetShaderMaterial "matte";
    Call_Draw Cone;
    (* lamp bulb *)
    Call_SetTransformations (glm.mk_vec3 0.3 0.3 0.3) 0.0 0.0 0.0 (glm.mk_vec3 (-5.5) 2.7 2.0);
    Call_SetShaderColor 1.0 0.95 0.8 1.0;
    Call_SetShaderMaterial "glossy";
    Call_Draw Sphere;
    (* mug body *)
    Call_SetTransformations (glm.mk_vec3 0.45 0.45 0.65) 0.0 0.0 0.0 (glm.mk_vec3 5.0 0.325 2.5);
    Call_SetShaderColor 0.85 0.25 0.15 1.0;
    Call_SetShaderMaterial "ceramic";
    Call_Draw Cylinder;
    (* mug handle *)
    Call_SetTransformations (glm.mk_vec3 0.28 0.38 0.1) 0.0 90.0 0.0 (glm.mk_vec3 5.5 0.325 2.5);
    Call_SetShaderColor 0.85 0.25 0.15 1.0;
    Call_SetShaderMaterial "ceramic";
    Call_Draw Torus ].

Definition RenderScene : M unit := sequence RenderScene_statements.

(** The tags [RenderScene] passes to [SetShaderTexture] and to
    [SetShaderMaterial]. *)
Definition texture_tags (l : list Statement) : list string :=
  omap (λ c, match c with Call_SetShaderTexture t => Some t | _ => None end) l.

Definition material_tags (l : list Statement) : list string :=
  omap (λ c, match c with Call_SetShaderMaterial t => Some t | _ => None end) l.

(** ** The maps on points the factors of the model matrix stand for

    A local-space vertex is the homogeneous vector with last component 1.
    Angles are in degrees; the rotations are the right-handed ones about
    the coordinate axes. *)

Module geometry.

Local Open Scope R_scope.

Definition point (p : glm.vec3) : glm.vec4 :=
  glm.mk_vec4 (glm.x p) (glm.y p) (glm.z p) 1.

Definition scale_point (s p : glm.vec3) : glm.vec3 :=
  glm.mk_vec3 (glm.x s * glm.x p) (glm.y s * glm.y p) (glm.z s * glm.z p).

Definition rotate_x_point (degrees : R) (p : glm.vec3) : glm.vec3 :=
  let t := glm.radians degrees in
  glm.mk_vec3 (glm.x p)
              (cos t * glm.y p - sin t * glm.z p)
              (sin t * glm.y p + cos t * glm.z p).

Definition rotate_y_point (degrees : R) (p : glm.vec3) : glm.vec3 :=
  let t := glm.radians degrees in
  glm.mk_vec3 (cos t * glm.x p + sin t * glm.z p)
              (glm.y p)
              (cos t * glm.z p - sin t * glm.x p).

Definition rotate_z_point (degrees : R) (p : glm.vec3) : glm.vec3 :=
  let t := glm.radians degrees in
  glm.mk_vec3 (cos t * glm.x p - sin t * glm.y p)
              (sin t * glm.x p + cos t * glm.y p)
              (glm.z p).

Definition translate_point (t p : glm.vec3) : glm.vec3 :=
  glm.mk_vec3 (glm.x p + glm.x t) (glm.y p + glm.y t) (glm.z p + glm.z t).

End geometry.

(** ** Views and sample states *)

(** The registered textures: the first [m_loadedTextures] entries of the
    array, in load order. *)
Definition registry (s : State) : list TEXTURE_INFO.t :=
  take (Z.to_nat (m_loadedTextures s)) (m_textureIDs s).

(** The array has its 16 entries and the count stays within it. *)
Definition registry_wf (s : State) : Prop :=
  Z.of_nat (length (m_textureIDs s)) = MAX_TEXTURES ∧
  0 <= m_loadedTextures s <= MAX_TEXTURES.

Definition sample_material : OBJECT_MATERIAL.t :=
  OBJECT_MATERIAL.mk (glm.mk_vec3 0.25 0.5 0.75) (glm.mk_vec3 0.1 0.2 0.3) 7.0 "".

(** Every file decodes to a 64x64 image; the extension tells the channels. *)
Definition sample_files (filename : string) : option Image :=
  if String.eqb filename "grey.png" then Some (mk_Image 64 64 1)
  else if String.eqb filename "missing.png" then None
  else if String.eqb filename "rgba.png" then Some (mk_Image 64 64 4)
  else Some (mk_Image 64 64 3).

(** A freshly constructed scene manager on a shader manager without writes;
    the driver hands out 1, 2, 3, ... *)
Definition fresh : State :=
  mk_State (Some []) [] (replicate 16 (TEXTURE_INFO.mk 0 "")) 0 []
           [] [] [] sample_files (λ n, Z.of_nat n + 1) sample_material.

(** The same without a shader manager. *)
Definition fresh_null : State := set_shader (λ _, None) fresh.

(** A registry of three textures. *)
Definition three_textures : State :=
  set_loadedTextures (λ _, 3)
    (set_textureIDs (λ a, <[2%nat := TEXTURE_INFO.mk 9 "metal"]>
                            (<[1%nat := TEXTURE_INFO.mk 7 "screen"]>
                               (<[0%nat := TEXTURE_INFO.mk 5 "monitor"]> a)))
       fresh).

(** A registry whose only texture has the largest name a [GLuint] holds. *)
Definition large_name : State :=
  set_loadedTextures (λ _, 1)
    (set_textureIDs (λ a, <[0%nat := TEXTURE_INFO.mk 4294967295 "sky"]> a) fresh).

(** A registry with all 16 slots taken. *)
Definition full : State :=
  set_loadedTextures (λ _, 16)
    (set_textureIDs (λ _, replicate 16 (TEXTURE_INFO.mk 1 "t")) fresh).

(** One material defined, and the same without a shader manager. *)
Definition one_material : State :=
  set_objectMaterials
    (λ _, [OBJECT_MATERIAL.mk (glm.mk_vec3 1.0 1.0 1.0) (glm.mk_vec3 1.0 1.0 1.0)
             128.0 "glossy"])
    fresh.

Definition one_material_null : State := set_shader (λ _, None) one_material.

(** One texture loaded through [glGenTextures]. *)
Definition one_texture : State :=
  set_gl (λ _, [glGenTextures 1])
    (set_loadedTextures (λ _, 1)
       (set_textureIDs (λ a, <[0%nat := TEXTURE_INFO.mk 1 "desk"]> a) fresh)).

(** A file [CreateGLTexture] can load: it decodes, with 3 or 4 channels. *)
Definition loadable (s : State) (filename : string) : Prop :=
  ∃ img, files s filename = Some img ∧ (colorChannels img = 3 ∨ colorChannels img = 4).

(** The two registries of a state. *)
Definition registries (s : State) : list TEXTURE_INFO.t * Z * list OBJECT_MATERIAL.t :=
  (m_textureIDs s, m_loadedTextures s, m_objectMaterials s).

(** [s'] is a state [RenderScene] passes through when started in [s]. *)
Definition during_RenderScene (s s' : State) : Prop :=
  ∃ done todo,
    RenderScene_statements = (done ++ todo)%list ∧ sequence done s = Returned (tt, s').

(** The scan the three lookups share: [index] runs over the first [n]
    entries of [a] until [hit] holds; [found] computes the result at the
    hit. *)
Definition scan_cond {R : Type} (n : Z) : R * Z * bool → bool :=
  λ '(_, index, bFound), (index <? n) && Bool.eqb bFound false.

Definition scan_body {A R : Type} (a : list A) (hit : A → bool) (found : A → Z → R → R)
    : R * Z * bool → outcome (R * Z * bool) :=
  λ '(r, index, bFound),
    e ← array_read a index;
    if hit e then Returned (found e index r, index, true)
    else Returned (r, index + 1, bFound).

(** [FindMaterial]'s assignment to the fields of its reference parameter. *)
Definition copy_fields (e material : OBJECT_MATERIAL.t) : OBJECT_MATERIAL.t :=
  OBJECT_MATERIAL.mk (OBJECT_MATERIAL.diffuseColor e) (OBJECT_MATERIAL.specularColor e)
    (OBJECT_MATERIAL.shininess e) (OBJECT_MATERIAL.tag material).

(** The value a uniform holds after a trace of writes: that of the newest
    write under its name. *)
Fixpoint uniform (name : string) (writes : ShaderManager) : option Uniform :=
  match writes with
  | [] => None
  | (n, v) :: rest => if String.eqb n name then Some v else uniform name rest
  end.

(** The calls [BindGLTextures] makes for the entries from unit [i] on, oldest
    first. *)
Fixpoint bind_calls (i : Z) (entries : list TEXTURE_INFO.t) : list GLCall :=
  match entries with
  | [] => []
  | e :: rest =>
      glActiveTexture i :: glBindTexture (TEXTURE_INFO.ID e) :: bind_calls (i + 1) rest
  end.

(** The draw calls of a list of statements, put in front of the calls made
    before (newest first). *)
Fixpoint draws (l : list Statement) (before : list MeshCall) : list MeshCall :=
  match l with
  | [] => before
  | Call_Draw shape :: rest => draws rest (DrawMesh shape :: before)
  | _ :: rest => draws rest before
  end.

(** A state on a disk without files. *)
Definition set_files_none (s : State) : State :=
  mk_State (m_pShaderManager s) (m_basicMeshes s) (m_textureIDs s) (m_loadedTextures s)
           (m_objectMaterials s) (gl s) (stb s) (cout s) (λ _, None) (driver s)
           (indeterminate s).

(** * Properties *)

(** ** Strings and machine integers *)

Lemma string_compare_refl (a : string) : String.compare a a = Eq.
Proof.
  pose proof (String.compare_antisym a a) as H.
  destruct (String.compare a a); simpl in H; congruence.
Qed.

Lemma compare_eq (a b : string) : (compare a b =? 0) = true ↔ a = b.
Proof.
  unfold compare. split.
  - intros H. apply String.compare_eq_iff.
    destruct (String.compare a b); [reflexivity|discriminate|discriminate].
  - intros ->. rewrite string_compare_refl. reflexivity.
Qed.

Lemma compare_neq (a b : string) : (compare a b =? 0) = false ↔ a ≠ b.
Proof.
  rewrite <- compare_eq. destruct (compare a b =? 0); split; congruence.
Qed.

Lemma to_int_small (u : Z) : 0 <= u < 2 ^ 31 → to_int u = u.
Proof.
  intros H. unfold to_int. rewrite Z.mod_small; lia.
Qed.

Lemma to_int_large (u : Z) : 2 ^ 31 <= u < 2 ^ 32 → to_int u = u - 2 ^ 32.
Proof.
  intros H. unfold to_int.
  replace (u + 2 ^ 31) with ((u - 2 ^ 31) + 1 * 2 ^ 32) by lia.
  rewrite Z.mod_add by lia. rewrite Z.mod_small; lia.
Qed.

(** ** Arrays *)

Lemma array_read_Some {A} (a : list A) (i : nat) (e : A) :
  a !! i = Some e → array_read a (Z.of_nat i) = Returned e.
Proof.
  intros H. unfold array_read.
  destruct (Z.leb_spec 0 (Z.of_nat i)); [|lia].
  rewrite Nat2Z.id, H. reflexivity.
Qed.

Lemma array_read_out {A} (a : list A) (i : Z) :
  i < 0 ∨ Z.of_nat (length a) <= i → array_read a i = Undefined (IndexOutOfBounds i).
Proof.
  intros H. unfold array_read.
  destruct (Z.leb_spec 0 i); [|reflexivity].
  rewrite lookup_ge_None_2; [reflexivity|lia].
Qed.

(** ** The scan *)

Section Scan.
Context {A R : Type}.
Variables (a : list A) (n : Z) (hit : A → bool) (found : A → Z → R → R).

Lemma while_done (fuel : nat) (r : R) (index : Z) :
  while fuel (scan_cond n) (scan_body a hit found) (r, index, true)
  = Returned (r, index, true).
Proof.
  destruct fuel; simpl; rewrite andb_false_r; reflexivity.
Qed.

(** The scan stops at the first hit. *)
Lemma while_hit (k : nat) (e : A) (r : R) :
  Z.of_nat k < n → a !! k = Some e → hit e = true →
  ∀ (i fuel : nat),
    (i ≤ k)%nat → (k - i < fuel)%nat →
    (∀ j e', (i ≤ j < k)%nat → a !! j = Some e' → hit e' = false) →
    while fuel (scan_cond n) (scan_body a hit found) (r, Z.of_nat i, false)
    = Returned (found e (Z.of_nat k) r, Z.of_nat k, true).
Proof.
  intros Hk He Hhit i fuel. revert i.
  induction fuel as [|fuel IH]; intros i Hik Hfuel Hmiss; [lia|].
  simpl. destruct (Z.ltb_spec (Z.of_nat i) n); [|lia]. simpl.
  destruct (decide (i = k)) as [->|Hne].
  - rewrite (array_read_Some _ _ _ He). simpl. rewrite Hhit. apply while_done.
  - assert (Hi : is_Some (a !! i)).
    { apply lookup_lt_is_Some. apply lookup_lt_Some in He. lia. }
    destruct Hi as [e' He'].
    rewrite (array_read_Some _ _ _ He'). simpl.
    rewrite (Hmiss i e') by (auto; lia).
    replace (Z.of_nat i + 1) with (Z.of_nat (S i)) by lia.
    apply IH; [lia|lia|].
    intros j e'' Hj. apply Hmiss. lia.
Qed.

(** Without a hit the scan runs to the end of the range. *)
Lemma while_miss (r : R) :
  n <= Z.of_nat (length a) →
  ∀ (fuel i : nat),
    Z.of_nat i <= n → (Z.to_nat n - i ≤ fuel)%nat →
    (∀ j e', (i ≤ j)%nat → Z.of_nat j < n → a !! j = Some e' → hit e' = false) →
    while fuel (scan_cond n) (scan_body a hit found) (r, Z.of_nat i, false)
    = Returned (r, n, false).
Proof.
  intros Hn fuel.
  induction fuel as [|fuel IH]; intros i Hi Hfuel Hmiss.
  - simpl. destruct (Z.ltb_spec (Z.of_nat i) n); [lia|].
    simpl. repeat f_equal. lia.
  - simpl. destruct (Z.ltb_spec (Z.of_nat i) n); simpl.
    + assert (Hl : is_Some (a !! i)) by (apply lookup_lt_is_Some; lia).
      destruct Hl as [e' He'].
      rewrite (array_read_Some _ _ _ He'). simpl.
      rewrite (Hmiss i e') by (auto; lia).
      replace (Z.of_nat i + 1) with (Z.of_nat (S i)) by lia.
      apply IH; [lia|lia|].
      intros j e'' Hj. apply Hmiss. lia.
    + repeat f_equal. lia.
Qed.

(** Whatever the array holds, enough fuel was given: the scan never ends
    in [OutOfFuel]. *)
Lemma while_fuel (r : R) :
  ∀ (fuel i : nat),
    (Z.to_nat n - i ≤ fuel)%nat →
    while fuel (scan_cond n) (scan_body a hit found) (r, Z.of_nat i, false)
    ≠ Undefined OutOfFuel.
Proof.
  induction fuel as [|fuel IH]; intros i Hfuel.
  - simpl. destruct (Z.ltb_spec (Z.of_nat i) n); [lia|]. simpl. discriminate.
  - simpl. destruct (Z.ltb_spec (Z.of_nat i) n); simpl; [|discriminate].
    destruct (array_read a (Z.of_nat i)) as [e|f] eqn:Er; simpl.
    + destruct (hit e); simpl.
      * rewrite while_done. discriminate.
      * replace (Z.of_nat i + 1) with (Z.of_nat (S i)) by lia.
        apply IH. lia.
    + unfold array_read in Er.
      destruct (0 <=? Z.of_nat i); [destruct (a !! Z.to_nat (Z.of_nat i))|];
        inversion Er; discriminate.
Qed.

End Scan.

(** ** The three lookups are scans *)

Lemma FindTextureSlot_scan (tag : string) (s : State) :
  FindTextureSlot tag s =
  ('(textureSlot, _, _) ←
     while (Z.to_nat (m_loadedTextures s)) (scan_cond (m_loadedTextures s))
       (scan_body (m_textureIDs s) (λ e, compare (TEXTURE_INFO.tag e) tag =? 0)
          (λ _ index _, index))
       (-1, 0, false);
   Returned (textureSlot, s)).
Proof. reflexivity. Qed.

Lemma FindTextureID_scan (tag : string) (s : State) :
  FindTextureID tag s =
  ('(textureID, _, _) ←
     while (Z.to_nat (m_loadedTextures s)) (scan_cond (m_loadedTextures s))
       (scan_body (m_textureIDs s) (λ e, compare (TEXTURE_INFO.tag e) tag =? 0)
          (λ e _ _, to_int (TEXTURE_INFO.ID e)))
       (-1, 0, false);
   Returned (textureID, s)).
Proof. reflexivity. Qed.

Lemma FindMaterial_scan (tag : string) (material : OBJECT_MATERIAL.t) (s : State) :
  m_objectMaterials s ≠ [] →
  FindMaterial tag material s =
  ('(material', _, _) ←
     while (length (m_objectMaterials s))
       (scan_cond (Z.of_nat (length (m_objectMaterials s))))
       (scan_body (m_objectMaterials s) (λ e, compare (OBJECT_MATERIAL.tag e) tag =? 0)
          (λ e _ material, copy_fields e material))
       (material, 0, false);
   Returned ((true, material'), s)).
Proof.
  intros H. unfold FindMaterial.
  destruct (m_objectMaterials s) as [|m l] eqn:E; [congruence|].
  reflexivity.
Qed.

Section TextureLookup.
Variables (s : State) (tag : string).

(** The first registered entry with the tag decides both lookups. *)
Lemma FindTexture_first (i : nat) (e : TEXTURE_INFO.t) :
  Z.of_nat i < m_loadedTextures s →
  m_textureIDs s !! i = Some e →
  TEXTURE_INFO.tag e = tag →
  (∀ j e', (j < i)%nat → m_textureIDs s !! j = Some e' → TEXTURE_INFO.tag e' ≠ tag) →
  FindTextureSlot tag s = Returned (Z.of_nat i, s) ∧
  FindTextureID tag s = Returned (to_int (TEXTURE_INFO.ID e), s).
Proof.
  intros Hi He Htag Hfirst.
  rewrite FindTextureSlot_scan, FindTextureID_scan.
  split.
  - rewrite (while_hit _ _ _ (λ _ index _, index) i e (-1) Hi He) with (i := 0%nat);
      [reflexivity| |lia|lia|].
    + apply compare_eq, Htag.
    + intros j e' Hj He'. apply compare_neq. apply (Hfirst j e'); [lia|done].
  - rewrite (while_hit _ _ _ (λ e _ _, to_int (TEXTURE_INFO.ID e)) i e (-1) Hi He)
      with (i := 0%nat); [reflexivity| |lia|lia|].
    + apply compare_eq, Htag.
    + intros j e' Hj He'. apply compare_neq. apply (Hfirst j e'); [lia|done].
Qed.

(** Without a registered entry of the tag both lookups give -1. *)
Lemma FindTexture_none :
  0 <= m_loadedTextures s <= Z.of_nat (length (m_textureIDs s)) →
  (∀ i e, Z.of_nat i < m_loadedTextures s → m_textureIDs s !! i = Some e →
          TEXTURE_INFO.tag e ≠ tag) →
  FindTextureSlot tag s = Returned (-1, s) ∧ FindTextureID tag s = Returned (-1, s).
Proof.
  intros Hn Hnone.
  rewrite FindTextureSlot_scan, FindTextureID_scan.
  split.
  - rewrite (while_miss _ _ _ (λ _ index _, index) (-1)) with (i := 0%nat);
      [reflexivity|lia|lia|lia|].
    intros j e' _ Hj He'. apply compare_neq. eauto.
  - rewrite (while_miss _ _ _ (λ e _ _, to_int (TEXTURE_INFO.ID e)) (-1)) with (i := 0%nat);
      [reflexivity|lia|lia|lia|].
    intros j e' _ Hj He'. apply compare_neq. eauto.
Qed.

End TextureLookup.

(** A lookup returns the state it ran in. *)
Lemma FindTextureSlot_pure (tag : string) (s : State) (slot : Z) (s' : State) :
  FindTextureSlot tag s = Returned (slot, s') → s' = s.
Proof.
  unfold FindTextureSlot. intros H.
  destruct (while _ _ _ _) as [[[? ?] ?]|]; simpl in H; congruence.
Qed.

(** Among the entries of a list, one with a decidable property has a first
    position. *)
Lemma first_position {A} (P : A → bool) (l : list A) (k : nat) (e : A) :
  l !! k = Some e → P e = true →
  ∃ i e', (i ≤ k)%nat ∧ l !! i = Some e' ∧ P e' = true ∧
          ∀ j e'', (j < i)%nat → l !! j = Some e'' → P e'' = false.
Proof.
  revert k. induction l as [|x l IH]; intros k Hk HP; [done|].
  destruct (P x) eqn:Px.
  - exists 0%nat, x. split_and!; [lia|done|done|]. intros j e'' Hj. lia.
  - destruct k as [|k]; [simpl in Hk; congruence|].
    destruct (IH k Hk HP) as (i & e' & Hik & Hi & Pe' & Hfirst).
    exists (S i), e'. split_and!; [lia|done|done|].
    intros [|j] e'' Hj Hl; [simpl in Hl; congruence|].
    apply (Hfirst j); [lia|done].
Qed.

(** A tag that is registered somewhere resolves to a slot that is not
    negative. *)
Lemma FindTextureSlot_registered (s : State) (tag : string) (k : nat) (e : TEXTURE_INFO.t) :
  Z.of_nat k < m_loadedTextures s →
  m_textureIDs s !! k = Some e →
  TEXTURE_INFO.tag e = tag →
  ∃ slot, FindTextureSlot tag s = Returned (slot, s) ∧ 0 <= slot <= Z.of_nat k.
Proof.
  intros Hk He Htag.
  destruct (first_position (λ e, compare (TEXTURE_INFO.tag e) tag =? 0) _ k e He)
    as (i & e' & Hik & Hi & Pe' & Hfirst).
  { apply compare_eq, Htag. }
  exists (Z.of_nat i). split; [|lia].
  apply (FindTexture_first s tag i e'); [lia|done|by apply compare_eq|].
  intros j e'' Hj Hl. apply compare_neq. eauto.
Qed.

Section MaterialLookup.
Variables (s : State) (tag : string) (material : OBJECT_MATERIAL.t).

Let hit : OBJECT_MATERIAL.t → bool := λ e, compare (OBJECT_MATERIAL.tag e) tag =? 0.

Lemma FindMaterial_empty :
  m_objectMaterials s = [] → FindMaterial tag material s = Returned ((false, material), s).
Proof. intros H. unfold FindMaterial. rewrite H. reflexivity. Qed.

Lemma FindMaterial_first (i : nat) (e : OBJECT_MATERIAL.t) :
  m_objectMaterials s !! i = Some e →
  OBJECT_MATERIAL.tag e = tag →
  (∀ j e', (j < i)%nat → m_objectMaterials s !! j = Some e' →
           OBJECT_MATERIAL.tag e' ≠ tag) →
  FindMaterial tag material s = Returned ((true, copy_fields e material), s).
Proof.
  intros He Htag Hfirst.
  rewrite FindMaterial_scan by (intros E; rewrite E in He; done).
  pose proof (lookup_lt_Some _ _ _ He) as Hlt.
  rewrite (while_hit _ _ _ (λ e _ material, copy_fields e material) i e material)
    with (i := 0%nat); [reflexivity|lia|done| |lia|lia|].
  - apply compare_eq, Htag.
  - intros j e' Hj He'. apply compare_neq. apply (Hfirst j e'); [lia|done].
Qed.

Lemma FindMaterial_none :
  m_objectMaterials s ≠ [] →
  (∀ e, e ∈ m_objectMaterials s → OBJECT_MATERIAL.tag e ≠ tag) →
  FindMaterial tag material s = Returned ((true, material), s).
Proof.
  intros Hne Hnone.
  rewrite FindMaterial_scan by done.
  rewrite (while_miss _ _ _ (λ e _ material, copy_fields e material) material)
    with (i := 0%nat); [reflexivity|lia|lia|lia|].
  intros j e' _ _ He'. apply compare_neq, Hnone.
  apply list_elem_of_lookup. eauto.
Qed.

(** Either some record has the tag, and then there is a first one, or none
    has. *)
Lemma first_or_none :
  (∃ i e, m_objectMaterials s !! i = Some e ∧ OBJECT_MATERIAL.tag e = tag ∧
          ∀ j e', (j < i)%nat → m_objectMaterials s !! j = Some e' →
                  OBJECT_MATERIAL.tag e' ≠ tag) ∨
  (∀ e, e ∈ m_objectMaterials s → OBJECT_MATERIAL.tag e ≠ tag).
Proof.
  destruct (existsb hit (m_objectMaterials s)) eqn:E.
  - left. apply existsb_exists in E as (e & Hin & He).
    apply list_elem_of_In, list_elem_of_lookup in Hin as [k Hk].
    destruct (first_position hit _ k e Hk He) as (i & e' & _ & Hi & He' & Hfirst).
    exists i, e'. split_and!; [done|by apply compare_eq|].
    intros j e'' Hj Hl. apply compare_neq. eauto.
  - right. intros e Hin Htag.
    assert (existsb hit (m_objectMaterials s) = true); [|congruence].
    apply existsb_exists. exists e. split; [by apply list_elem_of_In|].
    by apply compare_eq.
Qed.

End MaterialLookup.

(** [FindMaterial] returns, in the state it was called in, and with true
    on every registry that is not empty. *)
Lemma FindMaterial_returns (s : State) (tag : string) (out : OBJECT_MATERIAL.t) :
  ∃ (b : bool) (out' : OBJECT_MATERIAL.t),
    FindMaterial tag out s = Returned ((b, out'), s) ∧
    (m_objectMaterials s ≠ [] → b = true).
Proof.
  destruct (m_objectMaterials s) as [|m l] eqn:E.
  - exists false, out. rewrite FindMaterial_empty by done. done.
  - assert (Hne : m_objectMaterials s ≠ []) by (rewrite E; done).
    destruct (first_or_none s tag) as [(i & e & He & Htag & Hfirst)|Hnone].
    + exists true, (copy_fields e out).
      rewrite (FindMaterial_first s tag out i e) by done. done.
    + exists true, out. rewrite FindMaterial_none by done. done.
Qed.

(** C2. [FindMaterial(tag, out)] returns false exactly on the empty registry
    and true on every other one, whether or not a record has the tag; when a
    record has it, [out] receives the diffuse colour, specular colour and
    shininess of the first such record in definition order (and is left as
    it was when none has); the method returns in the state it was called
    in, so the registry is unchanged. *)
Theorem FindMaterial_result (s : State) (tag : string) (out : OBJECT_MATERIAL.t) :
  ∃ (b : bool) (out' : OBJECT_MATERIAL.t),
    FindMaterial tag out s = Returned ((b, out'), s) ∧
    (b = false ↔ m_objectMaterials s = []) ∧
    (m_objectMaterials s ≠ [] → b = true) ∧
    (∀ i e,
       m_objectMaterials s !! i = Some e →
       OBJECT_MATERIAL.tag e = tag →
       (∀ j e', (j < i)%nat → m_objectMaterials s !! j = Some e' →
                OBJECT_MATERIAL.tag e' ≠ tag) →
       OBJECT_MATERIAL.diffuseColor out' = OBJECT_MATERIAL.diffuseColor e ∧
       OBJECT_MATERIAL.specularColor out' = OBJECT_MATERIAL.specularColor e ∧
       OBJECT_MATERIAL.shininess out' = OBJECT_MATERIAL.shininess e ∧
       OBJECT_MATERIAL.tag out' = OBJECT_MATERIAL.tag out) ∧
    ((∀ e, e ∈ m_objectMaterials s → OBJECT_MATERIAL.tag e ≠ tag) → out' = out).
Proof.
  destruct (m_objectMaterials s) as [|m l] eqn:E.
  - exists false, out. rewrite FindMaterial_empty by done.
    split_and!; [done|done|done| |done].
    intros i e He. done.
  - assert (Hne : m_objectMaterials s ≠ []) by (rewrite E; done).
    rewrite <- E.
    destruct (first_or_none s tag) as [(i & e & He & Htag & Hfirst)|Hnone].
    + exists true, (copy_fields e out).
      rewrite (FindMaterial_first s tag out i e) by done.
      split_and!; [done|split; [done|congruence]|done| |].
      * intros i' e' He' Htag' Hfirst'.
        assert (i' = i) as ->.
        { destruct (Nat.lt_trichotomy i' i) as [Hlt|[Heq|Hgt]]; [|done|].
          - exfalso. apply (Hfirst i' e'); done.
          - exfalso. apply (Hfirst' i e); done. }
        assert (e' = e) as -> by congruence. done.
      * intros Hnone. exfalso. apply (Hnone e); [|done].
        apply list_elem_of_lookup. eauto.
    + exists true, out.
      rewrite FindMaterial_none by done.
      split_and!; [done|split; [done|congruence]|done| |done].
      intros i e He Htag _. exfalso. apply (Hnone e); [|done].
      apply list_elem_of_lookup. eauto.
Qed.

(** C4, as the code has it.  In a registry whose array holds its 16 entries
    with a count within it: when the entry at position [i] is registered and
    is the first with the queried tag, [FindTextureSlot] returns [i] and
    [FindTextureID] returns the handle stored there converted to [int]: the
    handle itself when it is below 2^31, the handle less 2^32 from there
    on; when no registered entry has the tag, both return -1. *)
Theorem FindTexture_lookup (s : State) (tag : string) :
  registry_wf s →
  (∀ (i : nat) (e : TEXTURE_INFO.t),
     Z.of_nat i < m_loadedTextures s →
     m_textureIDs s !! i = Some e →
     TEXTURE_INFO.tag e = tag →
     (∀ j e', (j < i)%nat → m_textureIDs s !! j = Some e' → TEXTURE_INFO.tag e' ≠ tag) →
     FindTextureSlot tag s = Returned (Z.of_nat i, s) ∧
     FindTextureID tag s = Returned (to_int (TEXTURE_INFO.ID e), s) ∧
     (0 <= TEXTURE_INFO.ID e < 2 ^ 31 →
      FindTextureID tag s = Returned (TEXTURE_INFO.ID e, s)) ∧
     (2 ^ 31 <= TEXTURE_INFO.ID e < 2 ^ 32 →
      FindTextureID tag s = Returned (TEXTURE_INFO.ID e - 2 ^ 32, s))) ∧
  ((∀ (i : nat) (e : TEXTURE_INFO.t),
      Z.of_nat i < m_loadedTextures s → m_textureIDs s !! i = Some e →
      TEXTURE_INFO.tag e ≠ tag) →
   FindTextureSlot tag s = Returned (-1, s) ∧ FindTextureID tag s = Returned (-1, s)).
Proof.
  intros [Hlen Hcount]. split.
  - intros i e Hi He Htag Hfirst.
    destruct (FindTexture_first s tag i e Hi He Htag Hfirst) as [Hslot Hid].
    split_and!; [done|done| |].
    + intros Hsmall. rewrite Hid, to_int_small by done. done.
    + intros Hlarge. rewrite Hid, to_int_large by done. done.
  - intros Hnone. apply FindTexture_none; [|done].
    unfold MAX_TEXTURES in *. lia.
Qed.

Lemma FindTexture_lookup_witness :
  registry_wf three_textures ∧
  FindTextureSlot "metal" three_textures = Returned (2, three_textures) ∧
  FindTextureID "metal" three_textures = Returned (9, three_textures) ∧
  FindTextureSlot "desk" three_textures = Returned (-1, three_textures) ∧
  FindTextureID "desk" three_textures = Returned (-1, three_textures).
Proof.
  assert (Hwf : registry_wf three_textures) by (split; vm_compute; [done|split; discriminate]).
  split; [exact Hwf|].
  destruct (FindTexture_lookup three_textures "metal" Hwf) as [Hhit _].
  destruct (FindTexture_lookup three_textures "desk" Hwf) as [_ Hmiss].
  destruct (Hhit 2%nat (TEXTURE_INFO.mk 9 "metal")) as (H1 & _ & H2 & _).
  - reflexivity.
  - reflexivity.
  - reflexivity.
  - intros [|[|j]] e' Hj He'; [| |lia]; inversion He'; simpl; discriminate.
  - destruct Hmiss as [H3 H4].
    + intros [|[|[|j]]] e Hj He; [| | |simpl in Hj; lia]; inversion He; simpl; discriminate.
    + split_and!; [exact H1|apply H2; simpl; lia|exact H3|exact H4].
Defined.

(** C4 as stated fails on a handle that does not fit [int]: the texture
    registered under the name 4294967295 is found, and what comes back is
    -1. *)
Lemma FindTextureID_large_name :
  ¬ (∀ (s : State) (tag : string) (i : nat) (e : TEXTURE_INFO.t),
       registry_wf s →
       Z.of_nat i < m_loadedTextures s →
       m_textureIDs s !! i = Some e →
       TEXTURE_INFO.tag e = tag →
       (∀ j e', (j < i)%nat → m_textureIDs s !! j = Some e' → TEXTURE_INFO.tag e' ≠ tag) →
       FindTextureSlot tag s = Returned (Z.of_nat i, s) ∧
       FindTextureID tag s = Returned (TEXTURE_INFO.ID e, s)).
Proof.
  intros H.
  destruct (H large_name "sky" 0%nat (TEXTURE_INFO.mk 4294967295 "sky")) as [_ Hid].
  - split; vm_compute; [done|split; discriminate].
  - reflexivity.
  - reflexivity.
  - reflexivity.
  - intros j e' Hj. lia.
  - assert (Hrun : FindTextureID "sky" large_name = Returned (-1, large_name))
      by reflexivity.
    rewrite Hrun in Hid. discriminate.
Qed.

(** ** Loading a texture *)

(** Unfold the plumbing of the method monad. *)
Ltac run :=
  cbv [mbind mret M_bind M_ret outcome_bind outcome_ret get modify lift
       gl_call stb_call mesh_call print stbi_load gen_texture];
  simpl.

Lemma register_texture_in (textureID : Z) (tag : string) (s : State) :
  0 <= m_loadedTextures s < Z.of_nat (length (m_textureIDs s)) →
  register_texture textureID tag s =
  Returned (tt, set_loadedTextures (λ n, n + 1)
                  (set_textureIDs
                     (λ a, <[Z.to_nat (m_loadedTextures s) := TEXTURE_INFO.mk textureID tag]> a)
                     s)).
Proof.
  intros H.
  assert (Hl : is_Some (m_textureIDs s !! Z.to_nat (m_loadedTextures s)))
    by (apply lookup_lt_is_Some; lia).
  destruct Hl as [e He].
  unfold register_texture, array_update, array_read. run.
  destruct (Z.leb_spec 0 (m_loadedTextures s)); [|lia].
  rewrite He.
  rewrite list_lookup_insert_eq by (apply lookup_lt_Some in He; done).
  unfold set_loadedTextures, set_textureIDs. simpl.
  rewrite list_insert_insert_eq. reflexivity.
Qed.

Lemma register_texture_out (textureID : Z) (tag : string) (s : State) :
  m_loadedTextures s < 0 ∨ Z.of_nat (length (m_textureIDs s)) <= m_loadedTextures s →
  register_texture textureID tag s = Undefined (IndexOutOfBounds (m_loadedTextures s)).
Proof.
  intros H. unfold register_texture, array_update. run.
  rewrite array_read_out by done. reflexivity.
Qed.

(** What a successful decode with 3 or 4 channels leads to: the texture is
    created under the next name of the driver and handed to the
    registration. *)
Lemma CreateGLTexture_decoded (filename tag : string) (s : State) (img : Image) :
  files s filename = Some img →
  colorChannels img = 3 ∨ colorChannels img = 4 →
  ∃ s1,
    CreateGLTexture filename tag s =
      (register_texture (driver s (generated (gl s))) tag;; mret true) s1 ∧
    m_textureIDs s1 = m_textureIDs s ∧
    m_loadedTextures s1 = m_loadedTextures s ∧
    m_pShaderManager s1 = m_pShaderManager s ∧
    m_objectMaterials s1 = m_objectMaterials s ∧
    m_basicMeshes s1 = m_basicMeshes s ∧
    files s1 = files s ∧
    driver s1 = driver s ∧
    indeterminate s1 = indeterminate s ∧
    generated (gl s1) = S (generated (gl s)).
Proof.
  intros Hfile Hc.
  unfold CreateGLTexture. run. rewrite Hfile.
  destruct Hc as [-> | ->]; simpl; (eexists; split; [reflexivity|]); simpl; done.
Qed.

(** With room in the array the load registers the texture. *)
Lemma CreateGLTexture_loaded (filename tag : string) (s : State) (img : Image) :
  files s filename = Some img →
  colorChannels img = 3 ∨ colorChannels img = 4 →
  0 <= m_loadedTextures s < Z.of_nat (length (m_textureIDs s)) →
  ∃ s',
    CreateGLTexture filename tag s = Returned (true, s') ∧
    m_textureIDs s' =
      <[Z.to_nat (m_loadedTextures s) :=
          TEXTURE_INFO.mk (driver s (generated (gl s))) tag]> (m_textureIDs s) ∧
    m_loadedTextures s' = m_loadedTextures s + 1 ∧
    m_pShaderManager s' = m_pShaderManager s ∧
    m_objectMaterials s' = m_objectMaterials s ∧
    files s' = files s.
Proof.
  intros Hfile Hc Hroom.
  destruct (CreateGLTexture_decoded filename tag s img Hfile Hc)
    as (s1 & -> & Ha & Hn & Hsh & Hm & _ & Hf & _).
  cbv [mbind M_bind mret M_ret].
  rewrite register_texture_in by (rewrite Ha, Hn; done).
  eexists. split; [reflexivity|]. simpl.
  rewrite Ha, Hn. done.
Qed.

(** Without room the write to the array is out of bounds. *)
Lemma CreateGLTexture_overflow (filename tag : string) (s : State) (img : Image) :
  files s filename = Some img →
  colorChannels img = 3 ∨ colorChannels img = 4 →
  m_loadedTextures s < 0 ∨ Z.of_nat (length (m_textureIDs s)) <= m_loadedTextures s →
  CreateGLTexture filename tag s = Undefined (IndexOutOfBounds (m_loadedTextures s)).
Proof.
  intros Hfile Hc Hfull.
  destruct (CreateGLTexture_decoded filename tag s img Hfile Hc)
    as (s1 & -> & Ha & Hn & _).
  cbv [mbind M_bind mret M_ret].
  rewrite register_texture_out by (rewrite Ha, Hn; done).
  rewrite Hn. reflexivity.
Qed.

(** C5. When the image decodes with a channel count other than 3 and 4,
    [CreateGLTexture] returns false and the texture registry is as before:
    the array, the count, and so the registered entries. *)
Theorem CreateGLTexture_unsupported_channels
    (filename tag : string) (s : State) (img : Image) :
  files s filename = Some img →
  colorChannels img ≠ 3 →
  colorChannels img ≠ 4 →
  ∃ s',
    CreateGLTexture filename tag s = Returned (false, s') ∧
    m_textureIDs s' = m_textureIDs s ∧
    m_loadedTextures s' = m_loadedTextures s ∧
    registry s' = registry s.
Proof.
  intros Hfile H3 H4.
  unfold CreateGLTexture. run. rewrite Hfile.
  destruct (Z.eqb_spec (colorChannels img) 3) as [|_]; [done|].
  destruct (Z.eqb_spec (colorChannels img) 4) as [|_]; [done|].
  eexists. split; [reflexivity|]. done.
Qed.

Lemma CreateGLTexture_unsupported_channels_witness :
  ∃ s',
    CreateGLTexture "grey.png" "grey" three_textures = Returned (false, s') ∧
    m_textureIDs s' = m_textureIDs three_textures ∧
    m_loadedTextures s' = m_loadedTextures three_textures ∧
    registry s' = registry three_textures.
Proof.
  apply (CreateGLTexture_unsupported_channels "grey.png" "grey" three_textures
           (mk_Image 64 64 1)).
  - reflexivity.
  - simpl. lia.
  - simpl. lia.
Defined.

(** C6, as the code has it.  When the image decodes with 3 or with 4
    channels and fewer than 16 textures are registered, [CreateGLTexture]
    returns true, the registered entries are the previous ones followed by
    one new entry that carries the tag, and the count has grown by one. *)
Theorem CreateGLTexture_registers (filename tag : string) (s : State) (img : Image) :
  files s filename = Some img →
  colorChannels img = 3 ∨ colorChannels img = 4 →
  registry_wf s →
  m_loadedTextures s < MAX_TEXTURES →
  ∃ s' e,
    CreateGLTexture filename tag s = Returned (true, s') ∧
    TEXTURE_INFO.tag e = tag ∧
    registry s' = (registry s ++ [e])%list ∧
    m_loadedTextures s' = m_loadedTextures s + 1 ∧
    registry_wf s'.
Proof.
  intros Hfile Hc [Hlen Hcount] Hroom. unfold MAX_TEXTURES in *.
  destruct (CreateGLTexture_loaded filename tag s img Hfile Hc)
    as (s' & Hrun & Ha & Hn & _); [lia|].
  exists s', (TEXTURE_INFO.mk (driver s (generated (gl s))) tag).
  split_and!; [done|done| |done|].
  - unfold registry. rewrite Ha, Hn.
    replace (Z.to_nat (m_loadedTextures s + 1)) with (S (Z.to_nat (m_loadedTextures s)))
      by lia.
    rewrite (take_S_r _ _ (TEXTURE_INFO.mk (driver s (generated (gl s))) tag)).
    + rewrite take_insert_ge by lia. done.
    + apply list_lookup_insert_eq. lia.
  - split; unfold MAX_TEXTURES.
    + rewrite Ha, length_insert. done.
    + lia.
Qed.

Lemma CreateGLTexture_registers_witness :
  ∃ s' e,
    CreateGLTexture "rgba.png" "glass" three_textures = Returned (true, s') ∧
    TEXTURE_INFO.tag e = "glass" ∧
    registry s' = (registry three_textures ++ [e])%list ∧
    m_loadedTextures s' = m_loadedTextures three_textures + 1 ∧
    registry_wf s'.
Proof.
  apply (CreateGLTexture_registers "rgba.png" "glass" three_textures (mk_Image 64 64 4)).
  - reflexivity.
  - right. reflexivity.
  - split; vm_compute; [done|split; discriminate].
  - reflexivity.
Defined.

(** C6 as stated fails on a full registry: the image decodes with 3
    channels and the call does not return. *)
Lemma CreateGLTexture_full_registry :
  ¬ (∀ (filename tag : string) (s : State) (img : Image),
       registry_wf s →
       files s filename = Some img →
       colorChannels img = 3 ∨ colorChannels img = 4 →
       ∃ s' e,
         CreateGLTexture filename tag s = Returned (true, s') ∧
         TEXTURE_INFO.tag e = tag ∧
         registry s' = (registry s ++ [e])%list ∧
         m_loadedTextures s' = m_loadedTextures s + 1).
Proof.
  intros H.
  destruct (H "wall.jpg" "wall" full (mk_Image 64 64 3)) as (s' & e & Hrun & _).
  - split; vm_compute; [done|split; discriminate].
  - reflexivity.
  - left. reflexivity.
  - assert (Hfull : CreateGLTexture "wall.jpg" "wall" full
                    = Undefined (IndexOutOfBounds 16)) by reflexivity.
    rewrite Hfull in Hrun. discriminate.
Qed.

(** C8. [CreateGLTexture] has no capacity check.  Whatever the count is, a
    load that decodes with 3 or 4 channels goes on to write the entry at the
    index of the current count: with fewer than 16 registered the write is
    within the array, the entry there is the new texture under the tag and
    the count grows by one; with 16 or more registered the write is out of
    bounds at that index. *)
Theorem CreateGLTexture_no_capacity_check
    (filename tag : string) (s : State) (img : Image) :
  files s filename = Some img →
  colorChannels img = 3 ∨ colorChannels img = 4 →
  Z.of_nat (length (m_textureIDs s)) = MAX_TEXTURES →
  (0 <= m_loadedTextures s < MAX_TEXTURES →
   ∃ s',
     CreateGLTexture filename tag s = Returned (true, s') ∧
     m_textureIDs s' !! Z.to_nat (m_loadedTextures s)
       = Some (TEXTURE_INFO.mk (driver s (generated (gl s))) tag) ∧
     (∀ j, j ≠ Z.to_nat (m_loadedTextures s) → m_textureIDs s' !! j = m_textureIDs s !! j) ∧
     m_loadedTextures s' = m_loadedTextures s + 1) ∧
  (MAX_TEXTURES <= m_loadedTextures s →
   CreateGLTexture filename tag s = Undefined (IndexOutOfBounds (m_loadedTextures s))).
Proof.
  intros Hfile Hc Hlen. unfold MAX_TEXTURES in *. split.
  - intros Hroom.
    destruct (CreateGLTexture_loaded filename tag s img Hfile Hc)
      as (s' & Hrun & Ha & Hn & _); [lia|].
    exists s'. split_and!; [done| | |done].
    + rewrite Ha. apply list_lookup_insert_eq. lia.
    + intros j Hj. rewrite Ha. apply list_lookup_insert_ne. done.
  - intros Hfull.
    apply (CreateGLTexture_overflow filename tag s img Hfile Hc). lia.
Qed.

Lemma CreateGLTexture_no_capacity_check_witness :
  (∃ s',
     CreateGLTexture "wall.jpg" "wall" three_textures = Returned (true, s') ∧
     m_textureIDs s' !! 3%nat = Some (TEXTURE_INFO.mk 1 "wall") ∧
     m_loadedTextures s' = 4) ∧
  CreateGLTexture "wall.jpg" "wall" full = Undefined (IndexOutOfBounds 16).
Proof.
  split.
  - destruct (CreateGLTexture_no_capacity_check "wall.jpg" "wall" three_textures
                (mk_Image 64 64 3)) as [Hroom _].
    + reflexivity.
    + left. reflexivity.
    + reflexivity.
    + destruct Hroom as (s' & Hrun & Hentry & _ & Hcount).
      * simpl. unfold MAX_TEXTURES. lia.
      * exists s'. split_and!; [exact Hrun|exact Hentry|exact Hcount].
  - destruct (CreateGLTexture_no_capacity_check "wall.jpg" "wall" full
                (mk_Image 64 64 3)) as [_ Hfull].
    + reflexivity.
    + left. reflexivity.
    + reflexivity.
    + apply Hfull. simpl. unfold MAX_TEXTURES. lia.
Defined.

(** ** Destroying the textures *)

Lemma allocated_gen (names : list Z) (calls : list GLCall) :
  allocated (map glGenTextures names ++ calls) = (names ++ allocated calls)%list.
Proof.
  induction names as [|n names IH]; simpl; [done|]. by rewrite IH.
Qed.

(** The loop of [DestroyGLTextures] from [i] on: it returns, and all it
    does to OpenGL is to generate one more name per remaining entry. *)
Lemma DestroyGLTextures_loop (fuel : nat) :
  ∀ (i : nat) (s : State),
    m_loadedTextures s <= Z.of_nat (length (m_textureIDs s)) →
    (Z.to_nat (m_loadedTextures s) - i ≤ fuel)%nat →
    ∃ s' names,
      for_loaded fuel (Z.of_nat i)
        (λ i, name ← gen_texture;
              s ← get;
              a ← lift (array_update (m_textureIDs s) i
                          (λ e, TEXTURE_INFO.mk name (TEXTURE_INFO.tag e)));
              modify (set_textureIDs (λ _, a))) s
      = Returned (tt, s') ∧
      gl s' = (map glGenTextures names ++ gl s)%list ∧
      length names = (Z.to_nat (m_loadedTextures s) - i)%nat ∧
      m_loadedTextures s' = m_loadedTextures s.
Proof.
  induction fuel as [|fuel IH]; intros i s Hlen Hfuel.
  - exists s, []. simpl.
    destruct (Z.ltb_spec (Z.of_nat i) (m_loadedTextures s)); [lia|].
    split_and!; [done|done|simpl; lia|done].
  - simpl.
    destruct (Z.ltb_spec (Z.of_nat i) (m_loadedTextures s)) as [Hlt|Hge].
    + assert (Hl : is_Some (m_textureIDs s !! i)) by (apply lookup_lt_is_Some; lia).
      destruct Hl as [e He].
      unfold array_update. run.
      rewrite (array_read_Some _ _ _ He).
      replace (Z.of_nat i + 1) with (Z.of_nat (S i)) by lia.
      match goal with
      | |- context [for_loaded fuel _ _ ?s1] =>
          destruct (IH (S i) s1) as (s' & names & Hrun & Hgl & Hnames & Hcount)
      end.
      * simpl. rewrite length_insert. lia.
      * simpl. lia.
      * exists s', (names ++ [driver s (generated (gl s))])%list.
        split_and!.
        -- exact Hrun.
        -- rewrite Hgl. simpl. rewrite map_app, <- app_assoc. done.
        -- rewrite length_app, Hnames. simpl. lia.
        -- rewrite Hcount. done.
    + exists s, []. split_and!; [done|done|simpl; lia|done].
Qed.

(** What [DestroyGLTextures] does to OpenGL: it returns after generating
    one new name per registered texture, and every name that was allocated
    before still is. *)
Lemma DestroyGLTextures_generates (s : State) :
  registry_wf s →
  ∃ s' names,
    DestroyGLTextures s = Returned (tt, s') ∧
    gl s' = (map glGenTextures names ++ gl s)%list ∧
    length names = Z.to_nat (m_loadedTextures s) ∧
    allocated (gl s') = (names ++ allocated (gl s))%list.
Proof.
  intros [Hlen Hcount]. unfold MAX_TEXTURES in *.
  destruct (DestroyGLTextures_loop (Z.to_nat (m_loadedTextures s)) 0 s)
    as (s' & names & Hrun & Hgl & Hnames & _); [lia|lia|].
  exists s', names. split_and!; [exact Hrun|done|lia|].
  rewrite Hgl. apply allocated_gen.
Qed.

(** C9 fails on the code.  With one texture registered under the name 1,
    [DestroyGLTextures] returns after asking the driver for one more name:
    no [glDeleteTextures] is issued, the name 1 is still allocated, and the
    registry slot now holds the new name 2. *)
Theorem DestroyGLTextures_frees_nothing :
  ∃ s',
    DestroyGLTextures one_texture = Returned (tt, s') ∧
    allocated (gl one_texture) = [1] ∧
    gl s' = [glGenTextures 2; glGenTextures 1] ∧
    allocated (gl s') = [2; 1] ∧
    (∀ name, glDeleteTextures name ∉ gl s') ∧
    m_textureIDs s' !! 0%nat = Some (TEXTURE_INFO.mk 2 "desk") ∧
    m_loadedTextures s' = 1.
Proof.
  eexists. split; [reflexivity|]. simpl.
  split_and!; [done|done|done| |done|done].
  intros name Hin.
  apply list_elem_of_In in Hin. simpl in Hin.
  destruct Hin as [H|[H|[]]]; discriminate.
Qed.

(** ** The shader setters *)

Lemma shader_set_null (name : string) (value : Uniform) (s : State) :
  m_pShaderManager s = None → shader_set name value s = Undefined NullDereference.
Proof. intros H. unfold shader_set. rewrite H. reflexivity. Qed.

Lemma shader_set_some (name : string) (value : Uniform) (s : State) (w : ShaderManager) :
  m_pShaderManager s = Some w →
  shader_set name value s = Returned (tt, set_shader (λ _, Some ((name, value) :: w)) s).
Proof. intros H. unfold shader_set. rewrite H. reflexivity. Qed.

(** On a registry that is not empty [SetShaderMaterial] goes on to the three
    uploads with whatever [FindMaterial] left in the local. *)
Lemma SetShaderMaterial_nonempty (tag : string) (s : State) :
  m_objectMaterials s ≠ [] →
  ∃ material,
    FindMaterial tag (indeterminate s) s = Returned ((true, material), s) ∧
    SetShaderMaterial tag s =
      (shader_set "material.diffuseColor" (UVec3 (OBJECT_MATERIAL.diffuseColor material));;
       shader_set "material.specularColor" (UVec3 (OBJECT_MATERIAL.specularColor material));;
       shader_set "material.shininess" (UFloat (OBJECT_MATERIAL.shininess material))) s.
Proof.
  intros Hne.
  destruct (FindMaterial_returns s tag (indeterminate s)) as (b & material & Hrun & Hb).
  rewrite (Hb Hne) in Hrun.
  exists material. split; [exact Hrun|].
  unfold SetShaderMaterial.
  cbv [mbind M_bind get].
  destruct (m_objectMaterials s) as [|m l] eqn:E; [done|].
  destruct (Z.ltb_spec 0 (Z.of_nat (length (m :: l)))) as [_|Hle]; [|simpl in Hle; lia].
  rewrite Hrun. reflexivity.
Qed.

Lemma SetShaderMaterial_empty (tag : string) (s : State) :
  m_objectMaterials s = [] → SetShaderMaterial tag s = Returned (tt, s).
Proof.
  intros H. unfold SetShaderMaterial. cbv [mbind M_bind get]. rewrite H. reflexivity.
Qed.

(** A tag no record has: the three uniforms receive the content the local
    was found with. *)
Lemma SetShaderMaterial_unmatched (tag : string) (s : State) (w : ShaderManager) :
  m_objectMaterials s ≠ [] →
  (∀ e, e ∈ m_objectMaterials s → OBJECT_MATERIAL.tag e ≠ tag) →
  m_pShaderManager s = Some w →
  SetShaderMaterial tag s =
  Returned (tt, set_shader (λ _, Some
    ([("material.shininess", UFloat (OBJECT_MATERIAL.shininess (indeterminate s)));
      ("material.specularColor", UVec3 (OBJECT_MATERIAL.specularColor (indeterminate s)));
      ("material.diffuseColor", UVec3 (OBJECT_MATERIAL.diffuseColor (indeterminate s)))]
     ++ w)%list) s).
Proof.
  intros Hne Hnone Hw.
  destruct (SetShaderMaterial_nonempty tag s Hne) as (material & Hfind & ->).
  rewrite FindMaterial_none in Hfind by done.
  assert (material = indeterminate s) as -> by congruence.
  cbv [mbind M_bind].
  rewrite (shader_set_some _ _ _ _ Hw).
  erewrite shader_set_some by reflexivity.
  erewrite shader_set_some by reflexivity.
  reflexivity.
Qed.

(** C1 fails on the code.  With the one material "glossy" defined, a call
    with the tag "nope", which no record has, does upload: the three
    material uniforms are written with the content the uninitialised local
    happened to hold.  (On an empty registry the call does nothing, as the
    claim says.) *)
Theorem SetShaderMaterial_unmatched_uploads :
  m_objectMaterials one_material ≠ [] ∧
  (∀ e, e ∈ m_objectMaterials one_material → OBJECT_MATERIAL.tag e ≠ "nope") ∧
  m_pShaderManager one_material = Some [] ∧
  SetShaderMaterial "nope" one_material =
  Returned (tt, set_shader (λ _, Some
    [("material.shininess", UFloat (OBJECT_MATERIAL.shininess sample_material));
     ("material.specularColor", UVec3 (OBJECT_MATERIAL.specularColor sample_material));
     ("material.diffuseColor", UVec3 (OBJECT_MATERIAL.diffuseColor sample_material))])
    one_material) ∧
  SetShaderMaterial "nope" fresh = Returned (tt, fresh).
Proof.
  assert (Hnone : ∀ e, e ∈ m_objectMaterials one_material → OBJECT_MATERIAL.tag e ≠ "nope").
  { intros e He. apply list_elem_of_In in He. simpl in He.
    destruct He as [<-|[]]. simpl. discriminate. }
  split_and!; [done|exact Hnone|done| |].
  - rewrite (SetShaderMaterial_unmatched "nope" one_material []); [done|done|exact Hnone|done].
  - apply SetShaderMaterial_empty. done.
Qed.

(** C10. Without a shader manager [SetTransformations], [SetShaderColor],
    [SetShaderTexture] and [SetTextureUVScale] return at once in the state
    they were called in; [SetShaderMaterial] has no such test and, when a
    record of the registry has the tag, dereferences the null pointer. *)
Theorem null_shader_manager (s : State) :
  m_pShaderManager s = None →
  (∀ scaleXYZ rx ry rz positionXYZ,
     SetTransformations scaleXYZ rx ry rz positionXYZ s = Returned (tt, s)) ∧
  (∀ r g b a, SetShaderColor r g b a s = Returned (tt, s)) ∧
  (∀ tag, SetShaderTexture tag s = Returned (tt, s)) ∧
  (∀ u v, SetTextureUVScale u v s = Returned (tt, s)) ∧
  (∀ tag e, e ∈ m_objectMaterials s → OBJECT_MATERIAL.tag e = tag →
            SetShaderMaterial tag s = Undefined NullDereference).
Proof.
  intros Hnull. split_and!.
  - intros. unfold SetTransformations. cbv [mbind M_bind get]. rewrite Hnull. reflexivity.
  - intros. unfold SetShaderColor. cbv [mbind M_bind get]. rewrite Hnull. reflexivity.
  - intros. unfold SetShaderTexture. cbv [mbind M_bind get]. rewrite Hnull. reflexivity.
  - intros. unfold SetTextureUVScale. cbv [mbind M_bind get]. rewrite Hnull. reflexivity.
  - intros tag e He _.
    assert (Hne : m_objectMaterials s ≠ []).
    { intros E. rewrite E in He. by apply not_elem_of_nil in He. }
    destruct (SetShaderMaterial_nonempty tag s Hne) as (material & _ & ->).
    cbv [mbind M_bind]. rewrite shader_set_null by done. reflexivity.
Qed.

Lemma null_shader_manager_witness :
  SetTransformations (glm.mk_vec3 2 1 1) 0 90 0 (glm.mk_vec3 1 0 0) one_material_null
    = Returned (tt, one_material_null) ∧
  SetShaderColor 1 1 1 1 one_material_null = Returned (tt, one_material_null) ∧
  SetShaderTexture "desk" one_material_null = Returned (tt, one_material_null) ∧
  SetTextureUVScale 1 1 one_material_null = Returned (tt, one_material_null) ∧
  SetShaderMaterial "glossy" one_material_null = Undefined NullDereference.
Proof.
  destruct (null_shader_manager one_material_null) as (H1 & H2 & H3 & H4 & H5).
  - reflexivity.
  - split_and!; [apply H1|apply H2|apply H3|apply H4|].
    apply (H5 "glossy" (OBJECT_MATERIAL.mk (glm.mk_vec3 1.0 1.0 1.0)
                          (glm.mk_vec3 1.0 1.0 1.0) 128.0 "glossy")).
    + simpl. apply list_elem_of_here.
    + reflexivity.
Defined.

(** ** The model matrix, read over the reals

    The lemmas of this section are about the real-number reading of GLM's
    transforms; [SetTransformations] itself computes in binary32. *)

Section Transform.

Local Open Scope R_scope.
Import glm geometry.

(** Unfold the matrices and the maps on points down to the arithmetic. *)
Ltac glm_unfold :=
  cbv [mul mul_vec vec4_add vec4_scale scale scale_mat translate translate_mat
       rotate rotate_mat normalize identity point scale_point translate_point
       rotate_x_point rotate_y_point rotate_z_point
       x y z r g b a col0 col1 col2 col3].

Lemma mul_vec_mul (m1 m2 : mat4) (p : vec4) :
  mul_vec (mul m1 m2) p = mul_vec m1 (mul_vec m2 p).
Proof.
  destruct m1 as [[] [] [] []], m2 as [[] [] [] []], p.
  glm_unfold. f_equal; ring.
Qed.

Lemma length_unit_x : length (mk_vec3 1 0 0) = 1.
Proof.
  cbv [length x y z]. replace (1 * 1 + 0 * 0 + 0 * 0) with 1 by ring. apply sqrt_1.
Qed.

Lemma length_unit_y : length (mk_vec3 0 1 0) = 1.
Proof.
  cbv [length x y z]. replace (0 * 0 + 1 * 1 + 0 * 0) with 1 by ring. apply sqrt_1.
Qed.

Lemma length_unit_z : length (mk_vec3 0 0 1) = 1.
Proof.
  cbv [length x y z]. replace (0 * 0 + 0 * 0 + 1 * 1) with 1 by ring. apply sqrt_1.
Qed.

Lemma scale_point_spec (s p : vec3) :
  mul_vec (scale s) (point p) = point (scale_point s p).
Proof.
  destruct s, p. glm_unfold. f_equal; ring.
Qed.

Lemma translate_point_spec (t p : vec3) :
  mul_vec (translate t) (point p) = point (translate_point t p).
Proof.
  destruct t, p. glm_unfold. f_equal; ring.
Qed.

Lemma rotate_x_point_spec (degrees : R) (p : vec3) :
  mul_vec (rotate (radians degrees) (mk_vec3 1 0 0)) (point p)
  = point (rotate_x_point degrees p).
Proof.
  destruct p. glm_unfold. rewrite length_unit_x. f_equal; field.
Qed.

Lemma rotate_y_point_spec (degrees : R) (p : vec3) :
  mul_vec (rotate (radians degrees) (mk_vec3 0 1 0)) (point p)
  = point (rotate_y_point degrees p).
Proof.
  destruct p. glm_unfold. rewrite length_unit_y. f_equal; field.
Qed.

Lemma rotate_z_point_spec (degrees : R) (p : vec3) :
  mul_vec (rotate (radians degrees) (mk_vec3 0 0 1)) (point p)
  = point (rotate_z_point degrees p).
Proof.
  destruct p. glm_unfold. rewrite length_unit_z. f_equal; field.
Qed.

Lemma radians_0 : radians 0 = 0.
Proof. unfold radians. field. Qed.

End Transform.

(** ** Preparing the scene *)

Lemma M_bind_returned {A B} (c : M A) (k : A → M B) (s s' : State) (a : A) :
  c s = Returned (a, s') → (c ≫= k) s = k a s'.
Proof. intros H. cbv [mbind M_bind]. rewrite H. reflexivity. Qed.

(** The loop of [BindGLTextures] from [i] on returns and leaves the scene
    manager as it is. *)
Lemma BindGLTextures_loop (fuel : nat) :
  ∀ (i : nat) (s : State),
    m_loadedTextures s <= Z.of_nat (length (m_textureIDs s)) →
    (Z.to_nat (m_loadedTextures s) - i ≤ fuel)%nat →
    ∃ s',
      for_loaded fuel (Z.of_nat i)
        (λ i, gl_call (glActiveTexture i);;
              s ← get;
              e ← lift (array_read (m_textureIDs s) i);
              gl_call (glBindTexture (TEXTURE_INFO.ID e))) s
      = Returned (tt, s') ∧
      m_textureIDs s' = m_textureIDs s ∧
      m_loadedTextures s' = m_loadedTextures s ∧
      m_pShaderManager s' = m_pShaderManager s ∧
      m_objectMaterials s' = m_objectMaterials s.
Proof.
  induction fuel as [|fuel IH]; intros i s Hlen Hfuel.
  - exists s. simpl.
    destruct (Z.ltb_spec (Z.of_nat i) (m_loadedTextures s)); [lia|]. done.
  - simpl.
    destruct (Z.ltb_spec (Z.of_nat i) (m_loadedTextures s)) as [Hlt|Hge]; [|by exists s].
    assert (Hl : is_Some (m_textureIDs s !! i)) by (apply lookup_lt_is_Some; lia).
    destruct Hl as [e He].
    run. rewrite (array_read_Some _ _ _ He).
    replace (Z.of_nat i + 1) with (Z.of_nat (S i)) by lia.
    match goal with
    | |- context [for_loaded fuel _ _ ?s1] =>
        destruct (IH (S i) s1) as (s' & Hrun & Ha & Hn & Hsh & Hm)
    end.
    + simpl. lia.
    + simpl. lia.
    + exists s'. split; [exact Hrun|]. done.
Qed.

Lemma BindGLTextures_returns (s : State) :
  0 <= m_loadedTextures s <= Z.of_nat (length (m_textureIDs s)) →
  ∃ s',
    BindGLTextures s = Returned (tt, s') ∧
    m_textureIDs s' = m_textureIDs s ∧
    m_loadedTextures s' = m_loadedTextures s ∧
    m_pShaderManager s' = m_pShaderManager s ∧
    m_objectMaterials s' = m_objectMaterials s.
Proof.
  intros H.
  apply (BindGLTextures_loop (Z.to_nat (m_loadedTextures s)) 0 s); lia.
Qed.

(** The records [DefineObjectMaterials] appends: what it leaves in a
    registry that was empty. *)
Lemma DefineObjectMaterials_appends :
  ∃ defined,
    (map OBJECT_MATERIAL.tag defined
     = ["glossy"; "metal"; "wood"; "matte"; "ceramic"; "default"]) ∧
    ∀ s, ∃ s',
      DefineObjectMaterials s = Returned (tt, s') ∧
      m_objectMaterials s' = (m_objectMaterials s ++ defined)%list ∧
      m_textureIDs s' = m_textureIDs s ∧
      m_loadedTextures s' = m_loadedTextures s ∧
      m_pShaderManager s' = m_pShaderManager s.
Proof.
  eexists. split; cycle 1.
  - intros s. unfold DefineObjectMaterials. run.
    eexists. split; [reflexivity|].
    cbn [m_objectMaterials m_textureIDs m_loadedTextures m_pShaderManager
         set_objectMaterials].
    split; [|done].
    rewrite <- !app_assoc. cbn [app]. reflexivity.
  - reflexivity.
Qed.

Lemma SetupSceneLights_returns (s : State) (w : ShaderManager) :
  m_pShaderManager s = Some w →
  ∃ s',
    SetupSceneLights s = Returned (tt, s') ∧
    m_objectMaterials s' = m_objectMaterials s ∧
    m_textureIDs s' = m_textureIDs s ∧
    m_loadedTextures s' = m_loadedTextures s.
Proof.
  intros Hw. unfold SetupSceneLights.
  repeat (erewrite M_bind_returned;
          [|eapply shader_set_some; first [exact Hw|reflexivity]]).
  erewrite shader_set_some by reflexivity.
  eexists. split; [reflexivity|].
  split_and!; reflexivity.
Qed.

Lemma PrepareScene_returns (s : State) (w : ShaderManager) :
  m_pShaderManager s = Some w →
  Z.of_nat (length (m_textureIDs s)) = MAX_TEXTURES →
  0 <= m_loadedTextures s →
  m_loadedTextures s + 4 <= MAX_TEXTURES →
  loadable s "textures/monitor.jpg" →
  loadable s "textures/screen.jpg" →
  loadable s "textures/dark-metal-texture.jpg" →
  loadable s "textures/texture-wooden-boards.jpg" →
  ∃ s' defined,
    PrepareScene s = Returned (tt, s') ∧
    m_loadedTextures s' = m_loadedTextures s + 4 ∧
    (∀ k tag,
       (k, tag) ∈ [(0%nat, "monitor"); (1%nat, "screen"); (2%nat, "metal"); (3%nat, "desk")] →
       ∃ e, m_textureIDs s' !! (Z.to_nat (m_loadedTextures s) + k)%nat = Some e ∧
            TEXTURE_INFO.tag e = tag) ∧
    m_objectMaterials s' = (m_objectMaterials s ++ defined)%list ∧
    map OBJECT_MATERIAL.tag defined
      = ["glossy"; "metal"; "wood"; "matte"; "ceramic"; "default"] ∧
    (∀ s0, ∃ s1, DefineObjectMaterials s0 = Returned (tt, s1) ∧
                 m_objectMaterials s1 = (m_objectMaterials s0 ++ defined)%list).
Proof.
  intros Hw Hlen Hn0 Hroom (i1 & Hf1 & Hc1) (i2 & Hf2 & Hc2) (i3 & Hf3 & Hc3) (i4 & Hf4 & Hc4).
  unfold MAX_TEXTURES in *. unfold PrepareScene.
  do 7 (erewrite M_bind_returned; [|reflexivity]).
  match goal with |- context [mbind _ _ ?s0] => set (s0' := s0) end.
  destruct (CreateGLTexture_loaded "textures/monitor.jpg" "monitor" s0' i1)
    as (s1 & Hr1 & Ha1 & Hn1 & Hs1 & Hm1 & Hfs1); [done|done|simpl; lia|].
  rewrite (M_bind_returned _ _ _ _ _ Hr1).
  destruct (CreateGLTexture_loaded "textures/screen.jpg" "screen" s1 i2)
    as (s2 & Hr2 & Ha2 & Hn2 & Hs2 & Hm2 & Hfs2);
    [by rewrite Hfs1|done|rewrite Ha1, Hn1, length_insert; simpl; lia|].
  rewrite (M_bind_returned _ _ _ _ _ Hr2).
  destruct (CreateGLTexture_loaded "textures/dark-metal-texture.jpg" "metal" s2 i3)
    as (s3 & Hr3 & Ha3 & Hn3 & Hs3 & Hm3 & Hfs3);
    [by rewrite Hfs2, Hfs1|done
    |rewrite Ha2, Hn2, Ha1, Hn1, !length_insert; simpl; lia|].
  rewrite (M_bind_returned _ _ _ _ _ Hr3).
  destruct (CreateGLTexture_loaded "textures/texture-wooden-boards.jpg" "desk" s3 i4)
    as (s4 & Hr4 & Ha4 & Hn4 & Hs4 & Hm4 & Hfs4);
    [by rewrite Hfs3, Hfs2, Hfs1|done
    |rewrite Ha3, Hn3, Ha2, Hn2, Ha1, Hn1, !length_insert; simpl; lia|].
  rewrite (M_bind_returned _ _ _ _ _ Hr4).
  assert (Hlen4 : Z.of_nat (length (m_textureIDs s4)) = 16).
  { rewrite Ha4, Ha3, Ha2, Ha1, !length_insert. done. }
  assert (Hcount4 : m_loadedTextures s4 = m_loadedTextures s + 4).
  { rewrite Hn4, Hn3, Hn2, Hn1. simpl. lia. }
  destruct (BindGLTextures_returns s4) as (s5 & Hr5 & Ha5 & Hn5 & Hs5 & Hm5); [lia|].
  rewrite (M_bind_returned _ _ _ _ _ Hr5).
  destruct DefineObjectMaterials_appends as (defined & Htags & Hdef).
  destruct (Hdef s5) as (s6 & Hr6 & Hm6 & Ha6 & Hn6 & Hs6).
  rewrite (M_bind_returned _ _ _ _ _ Hr6).
  destruct (SetupSceneLights_returns s6 w) as (s7 & Hr7 & Hm7 & Ha7 & Hn7).
  { rewrite Hs6, Hs5, Hs4, Hs3, Hs2, Hs1. done. }
  exists s7, defined. split_and!.
  - exact Hr7.
  - rewrite Hn7, Hn6, Hn5. exact Hcount4.
  - intros k tag Hk.
    rewrite Ha7, Ha6, Ha5, Ha4, Ha3, Ha2, Ha1, Hn3, Hn2, Hn1.
    change (m_loadedTextures s0') with (m_loadedTextures s).
    change (m_textureIDs s0') with (m_textureIDs s).
    change (gl s0') with (gl s). change (driver s0') with (driver s).
    set (n := m_loadedTextures s) in *.
    replace (Z.to_nat (n + 1 + 1 + 1)) with (Z.to_nat n + 3)%nat by lia.
    replace (Z.to_nat (n + 1 + 1)) with (Z.to_nat n + 2)%nat by lia.
    replace (Z.to_nat (n + 1)) with (Z.to_nat n + 1)%nat by lia.
    apply list_elem_of_In in Hk. simpl in Hk.
    destruct Hk as [Hk|[Hk|[Hk|[Hk|[]]]]]; inversion Hk; subst k tag; eexists.
    + split.
      * rewrite !list_lookup_insert_ne by lia.
        replace (Z.to_nat n + 0)%nat with (Z.to_nat n) by lia.
        apply list_lookup_insert_eq. lia.
      * done.
    + split.
      * rewrite !list_lookup_insert_ne by lia.
        apply list_lookup_insert_eq. rewrite length_insert. lia.
      * done.
    + split.
      * rewrite list_lookup_insert_ne by lia.
        apply list_lookup_insert_eq. rewrite !length_insert. lia.
      * done.
    + split.
      * apply list_lookup_insert_eq. rewrite !length_insert. lia.
      * done.
  - rewrite Hm7, Hm6, Hm5, Hm4, Hm3, Hm2, Hm1. done.
  - exact Htags.
  - intros s0. destruct (Hdef s0) as (s1' & H1 & H2 & _). eauto.
Qed.

(** ** Rendering leaves the registries alone *)

Lemma FindTextureSlot_registries (tag : string) (s1 s2 : State) (slot : Z) :
  registries s1 = registries s2 →
  FindTextureSlot tag s1 = Returned (slot, s1) →
  FindTextureSlot tag s2 = Returned (slot, s2).
Proof.
  unfold registries, FindTextureSlot. intros E H. injection E as Ha Hn Hm.
  rewrite <- Ha, <- Hn.
  destruct (while _ _ _ _) as [[[r i] b]|f]; simpl in *; [|discriminate].
  congruence.
Qed.

Lemma M_bind_inv {A B} (c : M A) (k : A → M B) (s s' : State) (b : B) :
  (c ≫= k) s = Returned (b, s') →
  ∃ a s1, c s = Returned (a, s1) ∧ k a s1 = Returned (b, s').
Proof.
  cbv [mbind M_bind]. destruct (c s) as [[a s1]|f]; [|discriminate]. eauto.
Qed.

Lemma shader_set_registries (name : string) (value : Uniform) (s s' : State) (u : unit) :
  shader_set name value s = Returned (u, s') → registries s' = registries s.
Proof.
  unfold shader_set. destruct (m_pShaderManager s); [|discriminate].
  intros H. inversion H. reflexivity.
Qed.

(** The test [NULL != m_pShaderManager] around a body that keeps the
    registries. *)
Lemma guarded_registries (body : M unit) (s s' : State) :
  (∀ s1 s2 u, body s1 = Returned (u, s2) → registries s2 = registries s1) →
  (s0 ← get; if negb (is_null (m_pShaderManager s0)) then body else mret tt) s
    = Returned (tt, s') →
  registries s' = registries s.
Proof.
  intros Hbody. cbv [mbind M_bind get].
  destruct (m_pShaderManager s); cbn [is_null negb].
  - apply Hbody.
  - cbv [mret M_ret]. intros H. inversion H. reflexivity.
Qed.

Lemma FindMaterial_pure (tag : string) (out out' : OBJECT_MATERIAL.t) (b : bool)
    (s s' : State) :
  FindMaterial tag out s = Returned ((b, out'), s') → s' = s.
Proof.
  destruct (FindMaterial_returns s tag out) as (b0 & out0 & Hrun & _).
  rewrite Hrun. intros H. inversion H. reflexivity.
Qed.

Lemma SetShaderMaterial_registries (materialTag : string) (s s' : State) :
  SetShaderMaterial materialTag s = Returned (tt, s') → registries s' = registries s.
Proof.
  unfold SetShaderMaterial. cbv [mbind M_bind get].
  destruct (0 <? Z.of_nat (length (m_objectMaterials s)));
    [|cbv [mret M_ret]; intros H; inversion H; reflexivity].
  destruct (FindMaterial materialTag (indeterminate s) s) as [[[b out] s1]|f] eqn:F;
    [|discriminate].
  apply FindMaterial_pure in F. subst s1.
  destruct b; cbn [Bool.eqb];
    [|cbv [mret M_ret]; intros H; inversion H; reflexivity].
  destruct (shader_set "material.diffuseColor" _ s) as [[u1 s1]|f] eqn:E1; [|discriminate].
  destruct (shader_set "material.specularColor" _ s1) as [[u2 s2]|f] eqn:E2; [|discriminate].
  intros E3.
  apply shader_set_registries in E1, E2, E3. congruence.
Qed.

Lemma execute_registries (c : Statement) (s s' : State) :
  execute c s = Returned (tt, s') → registries s' = registries s.
Proof.
  destruct c as [scaleXYZ rx ry rz positionXYZ|red green blue alpha|textureTag
                |materialTag|u v|shape]; cbn [execute].
  - unfold SetTransformations. apply guarded_registries.
    intros s1 s2 u. apply shader_set_registries.
  - unfold SetShaderColor. apply guarded_registries.
    intros s1 s2 u H.
    apply M_bind_inv in H as (u1 & s3 & H1 & H2).
    apply shader_set_registries in H1, H2. congruence.
  - unfold SetShaderTexture. apply guarded_registries.
    intros s1 s2 u H.
    apply M_bind_inv in H as (u1 & s3 & H1 & H).
    apply M_bind_inv in H as (slot & s4 & H2 & H3).
    pose proof (FindTextureSlot_pure _ _ _ _ H2). subst s4.
    apply shader_set_registries in H1, H3. congruence.
  - apply SetShaderMaterial_registries.
  - unfold SetTextureUVScale. apply guarded_registries.
    intros s1 s2 u0. apply shader_set_registries.
  - cbv [mesh_call modify]. intros H. inversion H. reflexivity.
Qed.

Lemma sequence_registries (l : list Statement) :
  ∀ s s', sequence l s = Returned (tt, s') → registries s' = registries s.
Proof.
  induction l as [|c l IH]; intros s s' H.
  - inversion H. reflexivity.
  - simpl in H. cbv [mbind M_bind] in H.
    destruct (execute c s) as [[[] s1]|f] eqn:E; [|discriminate].
    rewrite (IH _ _ H). apply (execute_registries c). exact E.
Qed.

(** A tag that is registered somewhere resolves to the first entry that
    carries it. *)
Lemma FindTextureSlot_registered_entry (s : State) (tag : string) (k : nat)
    (e : TEXTURE_INFO.t) :
  Z.of_nat k < m_loadedTextures s →
  m_textureIDs s !! k = Some e →
  TEXTURE_INFO.tag e = tag →
  ∃ (i : nat) e',
    FindTextureSlot tag s = Returned (Z.of_nat i, s) ∧
    (i ≤ k)%nat ∧
    m_textureIDs s !! i = Some e' ∧
    TEXTURE_INFO.tag e' = tag.
Proof.
  intros Hk He Htag.
  destruct (first_position (λ e, compare (TEXTURE_INFO.tag e) tag =? 0) _ k e He)
    as (i & e' & Hik & Hi & Pe' & Hfirst).
  { apply compare_eq, Htag. }
  assert (Htag' : TEXTURE_INFO.tag e' = tag) by (by apply compare_eq).
  exists i, e'. split_and!; [|exact Hik|exact Hi|exact Htag'].
  apply (FindTexture_first s tag i e'); [lia|done|done|].
  intros j e'' Hj Hl. apply compare_neq. eauto.
Qed.

(** C7. Let the shader manager be present, the four files of
    [PrepareScene] decode with 3 or 4 channels and the array have room for
    four more textures, so that the four loads succeed.  Then
    [PrepareScene] returns, and in every state [RenderScene] passes through
    afterwards the count is four more than before [PrepareScene], each
    texture tag it hands to [SetShaderTexture] ("desk", "monitor", "metal",
    "screen") resolves to a slot of the registry, from 0 up to the count,
    whose entry carries the tag, no later than the entry [PrepareScene]
    registered under that tag, and each material tag it hands to
    [SetShaderMaterial] ("wood", "matte", "metal", "glossy", "ceramic") is
    the tag of a record in the registry that [DefineObjectMaterials]
    appended. *)
Theorem PrepareScene_registers_before_use (s : State) (w : ShaderManager) :
  m_pShaderManager s = Some w →
  Z.of_nat (length (m_textureIDs s)) = MAX_TEXTURES →
  0 <= m_loadedTextures s →
  m_loadedTextures s + 4 <= MAX_TEXTURES →
  loadable s "textures/monitor.jpg" →
  loadable s "textures/screen.jpg" →
  loadable s "textures/dark-metal-texture.jpg" →
  loadable s "textures/texture-wooden-boards.jpg" →
  ∃ s' defined,
    PrepareScene s = Returned (tt, s') ∧
    texture_tags RenderScene_statements = ["desk"; "monitor"; "metal"; "screen"] ∧
    (∀ t, t ∈ material_tags RenderScene_statements
          ↔ t ∈ ["wood"; "matte"; "metal"; "glossy"; "ceramic"]) ∧
    (∀ s0, ∃ s1, DefineObjectMaterials s0 = Returned (tt, s1) ∧
                 m_objectMaterials s1 = (m_objectMaterials s0 ++ defined)%list) ∧
    ∀ s'', during_RenderScene s' s'' →
      m_loadedTextures s'' = m_loadedTextures s + 4 ∧
      (∀ t, t ∈ texture_tags RenderScene_statements →
            ∃ slot e (k : nat) e',
              FindTextureSlot t s'' = Returned (slot, s'') ∧
              0 <= slot < m_loadedTextures s'' ∧
              m_textureIDs s'' !! Z.to_nat slot = Some e ∧
              TEXTURE_INFO.tag e = t ∧
              m_loadedTextures s <= Z.of_nat k < m_loadedTextures s'' ∧
              m_textureIDs s'' !! k = Some e' ∧
              TEXTURE_INFO.tag e' = t ∧
              slot <= Z.of_nat k) ∧
      (∀ t, t ∈ material_tags RenderScene_statements →
            ∃ m, m ∈ defined ∧ m ∈ m_objectMaterials s'' ∧ OBJECT_MATERIAL.tag m = t).
Proof.
  intros Hw Hlen Hn0 Hroom L1 L2 L3 L4.
  destruct (PrepareScene_returns s w Hw Hlen Hn0 Hroom L1 L2 L3 L4)
    as (s' & defined & Hrun & Hcount & Hentries & Hmats & Htags & Hdef).
  assert (Hmtags : ∀ t, t ∈ material_tags RenderScene_statements
                        ↔ t ∈ ["wood"; "matte"; "metal"; "glossy"; "ceramic"]).
  { intros t. rewrite !list_elem_of_In.
    change (material_tags RenderScene_statements)
      with ["wood"; "matte"; "metal"; "metal"; "glossy"; "matte"; "metal"; "metal";
            "matte"; "glossy"; "ceramic"; "ceramic"].
    simpl. tauto. }
  exists s', defined. split_and!; [exact Hrun|reflexivity|exact Hmtags|exact Hdef|].
  intros s'' (done_ & todo & _ & Hseq).
  pose proof (sequence_registries _ _ _ Hseq) as Hreg.
  assert (Ha'' : m_textureIDs s'' = m_textureIDs s') by (injection Hreg as Ha _ _; exact Ha).
  assert (Hn'' : m_loadedTextures s'' = m_loadedTextures s')
    by (injection Hreg as _ Hn _; exact Hn).
  split; [rewrite Hn''; exact Hcount|].
  split.
  - intros t Ht.
    change (texture_tags RenderScene_statements)
      with ["desk"; "monitor"; "metal"; "screen"] in Ht.
    assert (Hpos : ∃ k, (k, t) ∈ [(0%nat, "monitor"); (1%nat, "screen");
                                   (2%nat, "metal"); (3%nat, "desk")]).
    { apply list_elem_of_In in Ht. simpl in Ht.
      destruct Ht as [<-|[<-|[<-|[<-|[]]]]];
        [exists 3%nat|exists 0%nat|exists 2%nat|exists 1%nat];
        apply list_elem_of_In; simpl; tauto. }
    destruct Hpos as [k Hk].
    destruct (Hentries k t Hk) as (e & He & Htag).
    assert (Hklt : (k < 4)%nat).
    { apply list_elem_of_In in Hk. simpl in Hk.
      destruct Hk as [Hk|[Hk|[Hk|[Hk|[]]]]]; inversion Hk; lia. }
    destruct (FindTextureSlot_registered_entry s' t
                (Z.to_nat (m_loadedTextures s) + k)%nat e)
      as (i & e0 & Hslot & Hik & Hi & Htag0);
      [lia|exact He|exact Htag|].
    exists (Z.of_nat i), e0, (Z.to_nat (m_loadedTextures s) + k)%nat, e.
    rewrite Ha'', Hn'', Nat2Z.id.
    split; [apply (FindTextureSlot_registries t s' s''); [by rewrite Hreg|exact Hslot]|].
    split; [lia|]. split; [exact Hi|]. split; [exact Htag0|].
    split; [lia|]. split; [exact He|]. split; [exact Htag|]. lia.
  - intros t Ht.
    apply Hmtags in Ht.
    assert (Hin : t ∈ map OBJECT_MATERIAL.tag defined).
    { rewrite Htags. apply list_elem_of_In in Ht. apply list_elem_of_In.
      simpl in *. tauto. }
    apply list_elem_of_fmap in Hin as (m & -> & Hm).
    exists m. split_and!; [exact Hm| |reflexivity].
    unfold registries in Hreg. injection Hreg as _ _ Hm''.
    rewrite Hm'', Hmats. apply elem_of_app. right. exact Hm.
Qed.

Lemma PrepareScene_registers_before_use_witness :
  ∃ s' defined,
    PrepareScene fresh = Returned (tt, s') ∧
    texture_tags RenderScene_statements = ["desk"; "monitor"; "metal"; "screen"] ∧
    (∀ t, t ∈ material_tags RenderScene_statements
          ↔ t ∈ ["wood"; "matte"; "metal"; "glossy"; "ceramic"]) ∧
    (∀ s0, ∃ s1, DefineObjectMaterials s0 = Returned (tt, s1) ∧
                 m_objectMaterials s1 = (m_objectMaterials s0 ++ defined)%list) ∧
    ∀ s'', during_RenderScene s' s'' →
      m_loadedTextures s'' = m_loadedTextures fresh + 4 ∧
      (∀ t, t ∈ texture_tags RenderScene_statements →
            ∃ slot e (k : nat) e',
              FindTextureSlot t s'' = Returned (slot, s'') ∧
              0 <= slot < m_loadedTextures s'' ∧
              m_textureIDs s'' !! Z.to_nat slot = Some e ∧
              TEXTURE_INFO.tag e = t ∧
              m_loadedTextures fresh <= Z.of_nat k < m_loadedTextures s'' ∧
              m_textureIDs s'' !! k = Some e' ∧
              TEXTURE_INFO.tag e' = t ∧
              slot <= Z.of_nat k) ∧
      (∀ t, t ∈ material_tags RenderScene_statements →
            ∃ m, m ∈ defined ∧ m ∈ m_objectMaterials s'' ∧ OBJECT_MATERIAL.tag m = t).
Proof.
  apply (PrepareScene_registers_before_use fresh []).
  - reflexivity.
  - reflexivity.
  - simpl. lia.
  - simpl. unfold MAX_TEXTURES. lia.
  - exists (mk_Image 64 64 3). split; [reflexivity|left; reflexivity].
  - exists (mk_Image 64 64 3). split; [reflexivity|left; reflexivity].
  - exists (mk_Image 64 64 3). split; [reflexivity|left; reflexivity].
  - exists (mk_Image 64 64 3). split; [reflexivity|left; reflexivity].
Defined.


(** ** Rendering returns *)

Lemma hit_or_miss {A} (P : A → bool) (l : list A) (n : nat) :
  (∃ k e, (k < n)%nat ∧ l !! k = Some e ∧ P e = true) ∨
  (∀ k e, (k < n)%nat → l !! k = Some e → P e = false).
Proof.
  induction n as [|n [(k & e & Hk & He & HP)|IH]].
  - right. intros k e Hk. lia.
  - left. exists k, e. split_and!; [lia|done|done].
  - destruct (l !! n) as [e|] eqn:El.
    + destruct (P e) eqn:HP.
      * left. exists n, e. split_and!; [lia|done|done].
      * right. intros k e' Hk He'.
        destruct (decide (k = n)) as [->|Hne]; [congruence|].
        apply (IH k); [lia|done].
    + right. intros k e' Hk He'.
      destruct (decide (k = n)) as [->|Hne]; [congruence|].
      apply (IH k); [lia|done].
Qed.

(** On a registry within its array [FindTextureSlot] returns for every
    tag. *)
Lemma FindTextureSlot_total (tag : string) (s : State) :
  0 <= m_loadedTextures s <= Z.of_nat (length (m_textureIDs s)) →
  ∃ slot, FindTextureSlot tag s = Returned (slot, s).
Proof.
  intros Hwf.
  destruct (hit_or_miss (λ e, compare (TEXTURE_INFO.tag e) tag =? 0) (m_textureIDs s)
              (Z.to_nat (m_loadedTextures s))) as [(k & e & Hk & He & HP)|Hmiss].
  - destruct (FindTextureSlot_registered s tag k e) as (slot & Hslot & _);
      [lia|done|by apply compare_eq|]. eauto.
  - exists (-1). apply FindTexture_none; [done|].
    intros i e Hi He. apply compare_neq. apply (Hmiss i); [lia|done].
Qed.

Lemma shader_set_returns (name : string) (value : Uniform) (s : State) :
  m_pShaderManager s ≠ None →
  ∃ s', shader_set name value s = Returned (tt, s') ∧
        m_pShaderManager s' ≠ None ∧ registries s' = registries s.
Proof.
  intros H. unfold shader_set.
  destruct (m_pShaderManager s) as [w|] eqn:Hw; [|done].
  eexists. split; [reflexivity|]. done.
Qed.

(** Each statement of the scene returns when a shader manager is present
    and the texture registry is within its array. *)
Lemma execute_returns (c : Statement) (s : State) :
  m_pShaderManager s ≠ None →
  0 <= m_loadedTextures s <= Z.of_nat (length (m_textureIDs s)) →
  ∃ s', execute c s = Returned (tt, s') ∧ m_pShaderManager s' ≠ None.
Proof.
  intros Hsh Hwf.
  assert (Hguard : negb (is_null (m_pShaderManager s)) = true)
    by (destruct (m_pShaderManager s); done).
  destruct c as [scaleXYZ rx ry rz positionXYZ|red green blue alpha|textureTag
                |materialTag|u v|shape]; cbn [execute].
  - unfold SetTransformations. cbv [mbind M_bind get]. rewrite Hguard.
    destruct (shader_set_returns g_ModelName
                (UMat4 (glm.mul (glm.mul (glm.mul (glm.mul (glm.translate positionXYZ)
                   (glm.rotate (glm.radians rz) (glm.mk_vec3 0 0 1)))
                   (glm.rotate (glm.radians ry) (glm.mk_vec3 0 1 0)))
                   (glm.rotate (glm.radians rx) (glm.mk_vec3 1 0 0)))
                   (glm.scale scaleXYZ))) s Hsh) as (s' & H & Hs' & _).
    exists s'. split; [exact H|exact Hs'].
  - unfold SetShaderColor. cbv [mbind M_bind get]. rewrite Hguard.
    destruct (shader_set_returns g_UseTextureName (UInt 0) s Hsh) as (s1 & H1 & Hs1 & _).
    rewrite H1.
    destruct (shader_set_returns g_ColorValueName
                (UVec4 (glm.mk_vec4 red green blue alpha)) s1 Hs1) as (s2 & H2 & Hs2 & _).
    exists s2. split; [exact H2|exact Hs2].
  - unfold SetShaderTexture. cbv [mbind M_bind get]. rewrite Hguard.
    destruct (shader_set_returns g_UseTextureName (UInt 1) s Hsh) as (s1 & H1 & Hs1 & Hr1).
    rewrite H1.
    destruct (FindTextureSlot_total textureTag s1) as (slot & Hslot).
    { unfold registries in Hr1. injection Hr1 as -> -> _. exact Hwf. }
    rewrite Hslot.
    destruct (shader_set_returns g_TextureValueName (USampler2D slot) s1 Hs1)
      as (s2 & H2 & Hs2 & _).
    exists s2. split; [exact H2|exact Hs2].
  - destruct (m_objectMaterials s) as [|m l] eqn:E.
    + exists s. split; [by apply SetShaderMaterial_empty|exact Hsh].
    + destruct (SetShaderMaterial_nonempty materialTag s) as (material & _ & ->);
        [by rewrite E|].
      cbv [mbind M_bind].
      destruct (shader_set_returns "material.diffuseColor"
                  (UVec3 (OBJECT_MATERIAL.diffuseColor material)) s Hsh)
        as (s1 & H1 & Hs1 & _).
      rewrite H1.
      destruct (shader_set_returns "material.specularColor"
                  (UVec3 (OBJECT_MATERIAL.specularColor material)) s1 Hs1)
        as (s2 & H2 & Hs2 & _).
      rewrite H2.
      destruct (shader_set_returns "material.shininess"
                  (UFloat (OBJECT_MATERIAL.shininess material)) s2 Hs2)
        as (s3 & H3 & Hs3 & _).
      exists s3. split; [exact H3|exact Hs3].
  - unfold SetTextureUVScale. cbv [mbind M_bind get]. rewrite Hguard.
    destruct (shader_set_returns "UVscale" (UVec2 (glm.mk_vec2 u v)) s Hsh)
      as (s' & H & Hs' & _).
    exists s'. split; [exact H|exact Hs'].
  - eexists. split; [reflexivity|exact Hsh].
Qed.

Lemma sequence_returns (l : list Statement) :
  ∀ s,
    m_pShaderManager s ≠ None →
    0 <= m_loadedTextures s <= Z.of_nat (length (m_textureIDs s)) →
    ∃ s', sequence l s = Returned (tt, s').
Proof.
  induction l as [|c l IH]; intros s Hsh Hwf.
  - exists s. reflexivity.
  - destruct (execute_returns c s Hsh Hwf) as (s1 & H1 & Hs1).
    pose proof (execute_registries c s s1 H1) as Hreg.
    destruct (IH s1 Hs1) as (s' & H').
    { unfold registries in Hreg. injection Hreg as -> -> _. exact Hwf. }
    exists s'. cbn [sequence]. rewrite (M_bind_returned _ _ _ _ _ H1). exact H'.
Qed.

(** With a shader manager present and the texture registry within its
    array, [RenderScene] runs to its end. *)
Lemma RenderScene_returns (s : State) :
  m_pShaderManager s ≠ None →
  0 <= m_loadedTextures s <= Z.of_nat (length (m_textureIDs s)) →
  ∃ s', RenderScene s = Returned (tt, s').
Proof. apply sequence_returns. Qed.

(** * Further properties of the registries and setters *)

(** ** Texture lookups *)

(** X1. On a registry whose count lies within the array both lookups
    return, and they agree: either no registered entry has the tag and both
    give -1, or the slot is the position of the first registered entry with
    the tag, a number from 0 up to the count, and the ID is the handle
    stored in that slot converted to [int]. *)
Theorem FindTexture_agree (s : State) (tag : string) :
  0 <= m_loadedTextures s <= Z.of_nat (length (m_textureIDs s)) →
  ∃ slot id,
    FindTextureSlot tag s = Returned (slot, s) ∧
    FindTextureID tag s = Returned (id, s) ∧
    ((slot = -1 ∧ id = -1 ∧
      ∀ (i : nat) e, Z.of_nat i < m_loadedTextures s → m_textureIDs s !! i = Some e →
                     TEXTURE_INFO.tag e ≠ tag) ∨
     (0 <= slot < m_loadedTextures s ∧
      ∃ e, m_textureIDs s !! Z.to_nat slot = Some e ∧
           TEXTURE_INFO.tag e = tag ∧
           id = to_int (TEXTURE_INFO.ID e) ∧
           ∀ (j : nat) e', Z.of_nat j < slot → m_textureIDs s !! j = Some e' →
                           TEXTURE_INFO.tag e' ≠ tag)).
Proof.
  intros Hwf.
  destruct (hit_or_miss (λ e, compare (TEXTURE_INFO.tag e) tag =? 0) (m_textureIDs s)
              (Z.to_nat (m_loadedTextures s))) as [(k & e & Hk & He & HP)|Hmiss].
  - destruct (first_position (λ e, compare (TEXTURE_INFO.tag e) tag =? 0) _ k e He HP)
      as (i & e' & Hik & Hi & HP' & Hfirst).
    assert (Htag : TEXTURE_INFO.tag e' = tag) by (by apply compare_eq).
    assert (Hne : ∀ j e'', (j < i)%nat → m_textureIDs s !! j = Some e'' →
                           TEXTURE_INFO.tag e'' ≠ tag).
    { intros j e'' Hj Hl. apply compare_neq. eauto. }
    destruct (FindTexture_first s tag i e') as [Hslot Hid]; [lia|done|done|done|].
    exists (Z.of_nat i), (to_int (TEXTURE_INFO.ID e')).
    split_and!; [done|done|]. right. split; [lia|].
    exists e'. rewrite Nat2Z.id. split_and!; [done|done|done|].
    intros j e'' Hj. apply Hne. lia.
  - assert (Hne : ∀ (i : nat) e, Z.of_nat i < m_loadedTextures s →
                    m_textureIDs s !! i = Some e → TEXTURE_INFO.tag e ≠ tag).
    { intros i e Hi He. apply compare_neq. apply (Hmiss i); [lia|done]. }
    destruct (FindTexture_none s tag Hwf Hne) as [Hslot Hid].
    exists (-1), (-1). split_and!; [done|done|]. left. done.
Qed.

Lemma FindTexture_agree_witness :
  ∃ slot id,
    FindTextureSlot "screen" three_textures = Returned (slot, three_textures) ∧
    FindTextureID "screen" three_textures = Returned (id, three_textures) ∧
    ((slot = -1 ∧ id = -1 ∧
      ∀ (i : nat) e, Z.of_nat i < m_loadedTextures three_textures →
                     m_textureIDs three_textures !! i = Some e →
                     TEXTURE_INFO.tag e ≠ "screen") ∨
     (0 <= slot < m_loadedTextures three_textures ∧
      ∃ e, m_textureIDs three_textures !! Z.to_nat slot = Some e ∧
           TEXTURE_INFO.tag e = "screen" ∧
           id = to_int (TEXTURE_INFO.ID e) ∧
           ∀ (j : nat) e', Z.of_nat j < slot → m_textureIDs three_textures !! j = Some e' →
                           TEXTURE_INFO.tag e' ≠ "screen")).
Proof.
  apply (FindTexture_agree three_textures "screen").
  simpl. lia.
Defined.

(** What a lookup in the state after a load sees of the state before. *)
Lemma loaded_lookup (s s' : State) (name : Z) (tag : string) :
  0 <= m_loadedTextures s < Z.of_nat (length (m_textureIDs s)) →
  m_textureIDs s' =
    <[Z.to_nat (m_loadedTextures s) := TEXTURE_INFO.mk name tag]> (m_textureIDs s) →
  m_loadedTextures s' = m_loadedTextures s + 1 →
  (∀ (i : nat), Z.of_nat i < m_loadedTextures s →
                m_textureIDs s' !! i = m_textureIDs s !! i) ∧
  m_textureIDs s' !! Z.to_nat (m_loadedTextures s) = Some (TEXTURE_INFO.mk name tag) ∧
  0 <= m_loadedTextures s' <= Z.of_nat (length (m_textureIDs s')).
Proof.
  intros Hroom Ha Hn. split; [|split].
  - intros i Hi. rewrite Ha. apply list_lookup_insert_ne. lia.
  - rewrite Ha. apply list_lookup_insert_eq. lia.
  - rewrite Ha, Hn, length_insert. lia.
Qed.

(** X2. Load, then look up.  After a load that succeeds under a tag no
    registered entry had, [FindTextureSlot] of that tag is the count before
    the load and [FindTextureID] is the name the driver handed out,
    converted to [int]. *)
Theorem CreateGLTexture_then_find (filename tag : string) (s : State) (img : Image) :
  files s filename = Some img →
  colorChannels img = 3 ∨ colorChannels img = 4 →
  0 <= m_loadedTextures s < Z.of_nat (length (m_textureIDs s)) →
  (∀ (i : nat) e, Z.of_nat i < m_loadedTextures s → m_textureIDs s !! i = Some e →
                  TEXTURE_INFO.tag e ≠ tag) →
  ∃ s',
    CreateGLTexture filename tag s = Returned (true, s') ∧
    FindTextureSlot tag s' = Returned (m_loadedTextures s, s') ∧
    FindTextureID tag s' = Returned (to_int (driver s (generated (gl s))), s').
Proof.
  intros Hfile Hc Hroom Hnew.
  destruct (CreateGLTexture_loaded filename tag s img Hfile Hc Hroom)
    as (s' & Hrun & Ha & Hn & _).
  destruct (loaded_lookup s s' _ tag Hroom Ha Hn) as (Hold & Hentry & _).
  exists s'. split; [exact Hrun|].
  destruct (FindTexture_first s' tag (Z.to_nat (m_loadedTextures s))
              (TEXTURE_INFO.mk (driver s (generated (gl s))) tag)) as [Hslot Hid].
  - lia.
  - exact Hentry.
  - reflexivity.
  - intros j e' Hj He'. rewrite Hold in He' by lia. apply (Hnew j); [lia|done].
  - rewrite Z2Nat.id in Hslot by lia. split; [exact Hslot|exact Hid].
Qed.

Lemma CreateGLTexture_then_find_witness :
  ∃ s',
    CreateGLTexture "rgba.png" "glass" three_textures = Returned (true, s') ∧
    FindTextureSlot "glass" s' = Returned (3, s') ∧
    FindTextureID "glass" s' = Returned (1, s').
Proof.
  apply (CreateGLTexture_then_find "rgba.png" "glass" three_textures (mk_Image 64 64 4)).
  - reflexivity.
  - right. reflexivity.
  - simpl. lia.
  - intros [|[|[|i]]] e Hi He; [| | |simpl in Hi; lia]; inversion He; simpl; discriminate.
Defined.

(** X3. The first registration of a tag wins.  A load that succeeds leaves
    the slot of every tag that was registered before as it was, also of
    the tag it loads under; and a tag that was not registered and is not the
    one loaded stays unregistered. *)
Theorem CreateGLTexture_keeps_slots (filename tag : string) (s : State) (img : Image) :
  files s filename = Some img →
  colorChannels img = 3 ∨ colorChannels img = 4 →
  0 <= m_loadedTextures s < Z.of_nat (length (m_textureIDs s)) →
  ∃ s',
    CreateGLTexture filename tag s = Returned (true, s') ∧
    ∀ tag' slot,
      FindTextureSlot tag' s = Returned (slot, s) →
      slot ≠ -1 ∨ tag' ≠ tag →
      FindTextureSlot tag' s' = Returned (slot, s').
Proof.
  intros Hfile Hc Hroom.
  destruct (CreateGLTexture_loaded filename tag s img Hfile Hc Hroom)
    as (s' & Hrun & Ha & Hn & _).
  destruct (loaded_lookup s s' _ tag Hroom Ha Hn) as (Hold & Hentry & Hwf').
  exists s'. split; [exact Hrun|].
  intros tag' slot Hfind Hcase.
  destruct (hit_or_miss (λ e, compare (TEXTURE_INFO.tag e) tag' =? 0) (m_textureIDs s)
              (Z.to_nat (m_loadedTextures s))) as [(k & e & Hk & He & HP)|Hmiss].
  - destruct (first_position (λ e, compare (TEXTURE_INFO.tag e) tag' =? 0) _ k e He HP)
      as (i & e' & Hik & Hi & HP' & Hfirst).
    assert (Htag : TEXTURE_INFO.tag e' = tag') by (by apply compare_eq).
    destruct (FindTexture_first s tag' i e') as [Hslot _]; [lia|done|done| |].
    { intros j e'' Hj Hl. apply compare_neq. eauto. }
    assert (slot = Z.of_nat i) as -> by congruence.
    apply (FindTexture_first s' tag' i e'); [lia|by rewrite Hold by lia|done|].
    intros j e'' Hj Hl. rewrite Hold in Hl by lia. apply compare_neq. eauto.
  - assert (Hne : ∀ (i : nat) e, Z.of_nat i < m_loadedTextures s →
                    m_textureIDs s !! i = Some e → TEXTURE_INFO.tag e ≠ tag').
    { intros i e Hi He. apply compare_neq. apply (Hmiss i); [lia|done]. }
    destruct (FindTexture_none s tag') as [Hslot _]; [lia|done|].
    assert (slot = -1) as -> by congruence.
    destruct Hcase as [Hcase|Hcase]; [done|].
    apply (FindTexture_none s' tag'); [exact Hwf'|].
    intros i e Hi He.
    destruct (decide (i = Z.to_nat (m_loadedTextures s))) as [->|Hi'].
    + rewrite Hentry in He. inversion He. simpl. congruence.
    + rewrite Hold in He by lia. apply (Hne i); [lia|done].
Qed.

Lemma CreateGLTexture_keeps_slots_witness :
  ∃ s',
    CreateGLTexture "wall.jpg" "screen" three_textures = Returned (true, s') ∧
    ∀ tag' slot,
      FindTextureSlot tag' three_textures = Returned (slot, three_textures) →
      slot ≠ -1 ∨ tag' ≠ "screen" →
      FindTextureSlot tag' s' = Returned (slot, s').
Proof.
  apply (CreateGLTexture_keeps_slots "wall.jpg" "screen" three_textures (mk_Image 64 64 3)).
  - reflexivity.
  - left. reflexivity.
  - simpl. lia.
Defined.

(** Lookups see the tags and the count only. *)
Lemma FindTextureSlot_tags (s s' : State) :
  m_loadedTextures s' = m_loadedTextures s →
  0 <= m_loadedTextures s <= Z.of_nat (length (m_textureIDs s)) →
  (∀ i : nat, TEXTURE_INFO.tag <$> m_textureIDs s' !! i
              = TEXTURE_INFO.tag <$> m_textureIDs s !! i) →
  ∀ tag slot,
    FindTextureSlot tag s = Returned (slot, s) →
    FindTextureSlot tag s' = Returned (slot, s').
Proof.
  intros Hn Hwf Htags tag slot Hfind.
  assert (Hsome : ∀ (i : nat) e, m_textureIDs s !! i = Some e →
            ∃ e', m_textureIDs s' !! i = Some e' ∧ TEXTURE_INFO.tag e' = TEXTURE_INFO.tag e).
  { intros i e He. specialize (Htags i). rewrite He in Htags. simpl in Htags.
    destruct (m_textureIDs s' !! i) as [e'|]; simpl in Htags; [|discriminate].
    exists e'. split; [done|congruence]. }
  assert (Hback : ∀ (i : nat) e', m_textureIDs s' !! i = Some e' →
            ∃ e, m_textureIDs s !! i = Some e ∧ TEXTURE_INFO.tag e' = TEXTURE_INFO.tag e).
  { intros i e' He'. specialize (Htags i). rewrite He' in Htags. simpl in Htags.
    destruct (m_textureIDs s !! i) as [e|]; simpl in Htags; [|discriminate].
    exists e. split; [done|congruence]. }
  destruct (hit_or_miss (λ e, compare (TEXTURE_INFO.tag e) tag =? 0) (m_textureIDs s)
              (Z.to_nat (m_loadedTextures s))) as [(k & e & Hk & He & HP)|Hmiss].
  - destruct (first_position (λ e, compare (TEXTURE_INFO.tag e) tag =? 0) _ k e He HP)
      as (i & e0 & Hik & Hi & HP' & Hfirst).
    assert (Htag : TEXTURE_INFO.tag e0 = tag) by (by apply compare_eq).
    destruct (FindTexture_first s tag i e0) as [Hslot _]; [lia|done|done| |].
    { intros j e'' Hj Hl. apply compare_neq. eauto. }
    assert (slot = Z.of_nat i) as -> by congruence.
    destruct (Hsome i e0 Hi) as (e0' & Hi' & Htag').
    apply (FindTexture_first s' tag i e0'); [lia|done|congruence|].
    intros j e'' Hj Hl. destruct (Hback j e'' Hl) as (e1 & Hl1 & ->).
    apply compare_neq. eauto.
  - assert (Hne : ∀ (i : nat) e, Z.of_nat i < m_loadedTextures s →
                    m_textureIDs s !! i = Some e → TEXTURE_INFO.tag e ≠ tag).
    { intros i e Hi He. apply compare_neq. apply (Hmiss i); [lia|done]. }
    destruct (FindTexture_none s tag) as [Hslot _]; [lia|done|].
    assert (slot = -1) as -> by congruence.
    assert (Hlen : length (m_textureIDs s') = length (m_textureIDs s)).
    { apply Nat.le_antisymm.
      - destruct (decide (length (m_textureIDs s') ≤ length (m_textureIDs s))%nat)
          as [|Hgt]; [done|].
        destruct (lookup_lt_is_Some_2 (m_textureIDs s') (length (m_textureIDs s)))
          as [e' He']; [lia|].
        destruct (Hback _ _ He') as (e & He & _).
        apply lookup_lt_Some in He. lia.
      - destruct (decide (length (m_textureIDs s) ≤ length (m_textureIDs s'))%nat)
          as [|Hgt]; [done|].
        destruct (lookup_lt_is_Some_2 (m_textureIDs s) (length (m_textureIDs s')))
          as [e He]; [lia|].
        destruct (Hsome _ _ He) as (e' & He' & _).
        apply lookup_lt_Some in He'. lia. }
    apply (FindTexture_none s' tag); [lia|].
    intros i e' Hi He'. destruct (Hback i e' He') as (e & He & ->).
    apply (Hne i); [lia|done].
Qed.

(** ** Loading: the paths that fail *)

(** X4. A file that does not decode.  [CreateGLTexture] returns false after
    reporting the file on the console; it makes no OpenGL call, leaves both
    registries and the shader manager as they are, and every texture lookup
    gives what it gave before. *)
Theorem CreateGLTexture_undecodable (filename tag : string) (s : State) :
  files s filename = None →
  ∃ s',
    CreateGLTexture filename tag s = Returned (false, s') ∧
    cout s' = CouldNotLoad filename :: cout s ∧
    gl s' = gl s ∧
    registries s' = registries s ∧
    m_pShaderManager s' = m_pShaderManager s ∧
    ∀ tag' slot,
      FindTextureSlot tag' s = Returned (slot, s) →
      FindTextureSlot tag' s' = Returned (slot, s').
Proof.
  intros Hfile. unfold CreateGLTexture. run. rewrite Hfile.
  eexists. split; [reflexivity|].
  split_and!; [reflexivity|reflexivity|reflexivity|reflexivity|].
  intros tag' slot. apply FindTextureSlot_registries. reflexivity.
Qed.

Lemma CreateGLTexture_undecodable_witness :
  ∃ s',
    CreateGLTexture "missing.png" "wall" three_textures = Returned (false, s') ∧
    cout s' = CouldNotLoad "missing.png" :: cout three_textures ∧
    gl s' = gl three_textures ∧
    registries s' = registries three_textures ∧
    m_pShaderManager s' = m_pShaderManager three_textures ∧
    ∀ tag' slot,
      FindTextureSlot tag' three_textures = Returned (slot, three_textures) →
      FindTextureSlot tag' s' = Returned (slot, s').
Proof.
  apply (CreateGLTexture_undecodable "missing.png" "wall" three_textures).
  reflexivity.
Defined.

(** X5. An image with a channel count other than 3 and 4 leaks.  Before
    the count is looked at, the texture name is generated and bound and the
    four parameters are set; the early return then leaves that name
    allocated and bound, and the decoded image is not handed to
    [stbi_image_free]. *)
Theorem CreateGLTexture_unsupported_leaks (filename tag : string) (s : State) (img : Image) :
  files s filename = Some img →
  colorChannels img ≠ 3 →
  colorChannels img ≠ 4 →
  ∃ s',
    CreateGLTexture filename tag s = Returned (false, s') ∧
    gl s' = ([glTexParameteri GL_TEXTURE_MAG_FILTER GL_LINEAR;
              glTexParameteri GL_TEXTURE_MIN_FILTER GL_LINEAR;
              glTexParameteri GL_TEXTURE_WRAP_T GL_REPEAT;
              glTexParameteri GL_TEXTURE_WRAP_S GL_REPEAT;
              glBindTexture (driver s (generated (gl s)));
              glGenTextures (driver s (generated (gl s)))] ++ gl s)%list ∧
    allocated (gl s') = driver s (generated (gl s)) :: allocated (gl s) ∧
    stb s' = stbi_set_flip_vertically_on_load true :: stb s ∧
    cout s' = NotImplementedChannels (colorChannels img)
              :: SuccessfullyLoaded filename (width img) (height img) (colorChannels img)
              :: cout s.
Proof.
  intros Hfile H3 H4.
  unfold CreateGLTexture. run. rewrite Hfile.
  destruct (Z.eqb_spec (colorChannels img) 3) as [|_]; [done|].
  destruct (Z.eqb_spec (colorChannels img) 4) as [|_]; [done|].
  eexists. split; [reflexivity|]. done.
Qed.

Lemma CreateGLTexture_unsupported_leaks_witness :
  ∃ s',
    CreateGLTexture "grey.png" "grey" fresh = Returned (false, s') ∧
    gl s' = ([glTexParameteri GL_TEXTURE_MAG_FILTER GL_LINEAR;
              glTexParameteri GL_TEXTURE_MIN_FILTER GL_LINEAR;
              glTexParameteri GL_TEXTURE_WRAP_T GL_REPEAT;
              glTexParameteri GL_TEXTURE_WRAP_S GL_REPEAT;
              glBindTexture (driver fresh (generated (gl fresh)));
              glGenTextures (driver fresh (generated (gl fresh)))] ++ gl fresh)%list ∧
    allocated (gl s') = driver fresh (generated (gl fresh)) :: allocated (gl fresh) ∧
    stb s' = stbi_set_flip_vertically_on_load true :: stb fresh ∧
    cout s' = NotImplementedChannels 1 :: SuccessfullyLoaded "grey.png" 64 64 1 :: cout fresh.
Proof.
  apply (CreateGLTexture_unsupported_leaks "grey.png" "grey" fresh (mk_Image 64 64 1)).
  - reflexivity.
  - simpl. lia.
  - simpl. lia.
Defined.

(** ** Binding and destroying *)

Lemma BindGLTextures_calls_loop (fuel : nat) :
  ∀ (i : nat) (s : State),
    0 <= m_loadedTextures s <= Z.of_nat (length (m_textureIDs s)) →
    (Z.to_nat (m_loadedTextures s) - i ≤ fuel)%nat →
    ∃ s',
      for_loaded fuel (Z.of_nat i)
        (λ i, gl_call (glActiveTexture i);;
              s ← get;
              e ← lift (array_read (m_textureIDs s) i);
              gl_call (glBindTexture (TEXTURE_INFO.ID e))) s
      = Returned (tt, s') ∧
      gl s' = (rev (bind_calls (Z.of_nat i) (drop i (registry s))) ++ gl s)%list ∧
      registries s' = registries s ∧
      m_pShaderManager s' = m_pShaderManager s.
Proof.
  induction fuel as [|fuel IH]; intros i s Hwf Hfuel.
  - exists s. simpl.
    destruct (Z.ltb_spec (Z.of_nat i) (m_loadedTextures s)); [lia|].
    split_and!; [done| |done|done].
    unfold registry. rewrite drop_ge; [done|]. rewrite length_take. lia.
  - simpl.
    destruct (Z.ltb_spec (Z.of_nat i) (m_loadedTextures s)) as [Hlt|Hge].
    + assert (Hl : is_Some (m_textureIDs s !! i)) by (apply lookup_lt_is_Some; lia).
      destruct Hl as [e He].
      run. rewrite (array_read_Some _ _ _ He).
      replace (Z.of_nat i + 1) with (Z.of_nat (S i)) by lia.
      match goal with
      | |- context [for_loaded fuel _ _ ?s1] =>
          destruct (IH (S i) s1) as (s' & Hrun & Hgl & Hreg & Hsh)
      end.
      * simpl. lia.
      * simpl. lia.
      * exists s'. split; [exact Hrun|]. split_and!; [|exact Hreg|exact Hsh].
        rewrite Hgl. unfold registry. simpl.
        rewrite (drop_S (take (Z.to_nat (m_loadedTextures s)) (m_textureIDs s)) e i).
        -- simpl. rewrite <- !app_assoc. simpl.
           replace (Z.of_nat i + 1) with (Z.of_nat (S i)) by lia. done.
        -- rewrite lookup_take_lt by lia. done.
    + exists s. split_and!; [done| |done|done].
      unfold registry. rewrite drop_ge; [done|]. rewrite length_take. lia.
Qed.

(** X6. [BindGLTextures] binds texture unit [i] to the handle registered
    in slot [i]: on a registry within its array it returns after the calls
    [glActiveTexture(GL_TEXTURE0 + i); glBindTexture(ID of slot i)] for
    i = 0, 1, ... in this order, one pair per registered texture, and
    changes nothing in the scene manager. *)
Theorem BindGLTextures_calls (s : State) :
  0 <= m_loadedTextures s <= Z.of_nat (length (m_textureIDs s)) →
  ∃ s',
    BindGLTextures s = Returned (tt, s') ∧
    gl s' = (rev (bind_calls 0 (registry s)) ++ gl s)%list ∧
    registries s' = registries s ∧
    m_pShaderManager s' = m_pShaderManager s.
Proof.
  intros Hwf.
  destruct (BindGLTextures_calls_loop (Z.to_nat (m_loadedTextures s)) 0 s)
    as (s' & Hrun & Hgl & Hreg & Hsh); [done|lia|].
  exists s'. split_and!; [exact Hrun|exact Hgl|exact Hreg|exact Hsh].
Qed.

Lemma BindGLTextures_calls_witness :
  ∃ s',
    BindGLTextures three_textures = Returned (tt, s') ∧
    gl s' = (rev (bind_calls 0 (registry three_textures)) ++ gl three_textures)%list ∧
    registries s' = registries three_textures ∧
    m_pShaderManager s' = m_pShaderManager three_textures.
Proof.
  apply (BindGLTextures_calls three_textures).
  simpl. lia.
Defined.

Lemma DestroyGLTextures_tags_loop (fuel : nat) :
  ∀ (i : nat) (s : State),
    m_loadedTextures s <= Z.of_nat (length (m_textureIDs s)) →
    (Z.to_nat (m_loadedTextures s) - i ≤ fuel)%nat →
    ∃ s' names,
      for_loaded fuel (Z.of_nat i)
        (λ i, name ← gen_texture;
              s ← get;
              a ← lift (array_update (m_textureIDs s) i
                          (λ e, TEXTURE_INFO.mk name (TEXTURE_INFO.tag e)));
              modify (set_textureIDs (λ _, a))) s
      = Returned (tt, s') ∧
      gl s' = (map glGenTextures names ++ gl s)%list ∧
      length names = (Z.to_nat (m_loadedTextures s) - i)%nat ∧
      m_loadedTextures s' = m_loadedTextures s ∧
      m_objectMaterials s' = m_objectMaterials s ∧
      m_pShaderManager s' = m_pShaderManager s ∧
      (∀ j : nat, TEXTURE_INFO.tag <$> m_textureIDs s' !! j
                  = TEXTURE_INFO.tag <$> m_textureIDs s !! j).
Proof.
  induction fuel as [|fuel IH]; intros i s Hlen Hfuel.
  - exists s, []. simpl.
    destruct (Z.ltb_spec (Z.of_nat i) (m_loadedTextures s)); [lia|].
    split_and!; try done. simpl. lia.
  - simpl.
    destruct (Z.ltb_spec (Z.of_nat i) (m_loadedTextures s)) as [Hlt|Hge].
    + assert (Hl : is_Some (m_textureIDs s !! i)) by (apply lookup_lt_is_Some; lia).
      destruct Hl as [e He].
      unfold array_update. run.
      rewrite (array_read_Some _ _ _ He).
      replace (Z.of_nat i + 1) with (Z.of_nat (S i)) by lia.
      match goal with
      | |- context [for_loaded fuel _ _ ?s1] =>
          destruct (IH (S i) s1)
            as (s' & names & Hrun & Hgl & Hnames & Hcount & Hm & Hsh & Htags)
      end.
      * simpl. rewrite length_insert. lia.
      * simpl. lia.
      * exists s', (names ++ [driver s (generated (gl s))])%list.
        split_and!.
        -- exact Hrun.
        -- rewrite Hgl. simpl. rewrite map_app, <- app_assoc. done.
        -- rewrite length_app, Hnames. simpl. lia.
        -- rewrite Hcount. done.
        -- rewrite Hm. done.
        -- rewrite Hsh. done.
        -- intros j. rewrite Htags. simpl. rewrite Nat2Z.id.
           destruct (decide (j = i)) as [->|Hne].
           ++ rewrite list_lookup_insert_eq by (apply lookup_lt_Some in He; done).
              rewrite He. done.
           ++ rewrite list_lookup_insert_ne by done. done.
    + exists s, []. split_and!; try done. simpl. lia.
Qed.

(** X7. [DestroyGLTextures] does not empty the registry.  On a registry
    within its array it returns after one [glGenTextures] per registered
    texture and no other OpenGL call; the count and the tags stay, so every
    tag still resolves to the slot it had, and every name that was
    allocated before is allocated afterwards. *)
Theorem DestroyGLTextures_keeps_registry (s : State) :
  0 <= m_loadedTextures s <= Z.of_nat (length (m_textureIDs s)) →
  ∃ s' names,
    DestroyGLTextures s = Returned (tt, s') ∧
    gl s' = (map glGenTextures names ++ gl s)%list ∧
    length names = Z.to_nat (m_loadedTextures s) ∧
    allocated (gl s') = (names ++ allocated (gl s))%list ∧
    m_loadedTextures s' = m_loadedTextures s ∧
    (∀ tag slot,
       FindTextureSlot tag s = Returned (slot, s) →
       FindTextureSlot tag s' = Returned (slot, s')).
Proof.
  intros Hwf.
  destruct (DestroyGLTextures_tags_loop (Z.to_nat (m_loadedTextures s)) 0 s)
    as (s' & names & Hrun & Hgl & Hnames & Hcount & _ & _ & Htags); [lia|lia|].
  exists s', names.
  split_and!; [exact Hrun|exact Hgl|lia| |exact Hcount|].
  - rewrite Hgl. apply allocated_gen.
  - apply FindTextureSlot_tags; [exact Hcount|exact Hwf|exact Htags].
Qed.

Lemma DestroyGLTextures_keeps_registry_witness :
  ∃ s' names,
    DestroyGLTextures three_textures = Returned (tt, s') ∧
    gl s' = (map glGenTextures names ++ gl three_textures)%list ∧
    length names = Z.to_nat (m_loadedTextures three_textures) ∧
    allocated (gl s') = (names ++ allocated (gl three_textures))%list ∧
    m_loadedTextures s' = m_loadedTextures three_textures ∧
    (∀ tag slot,
       FindTextureSlot tag three_textures = Returned (slot, three_textures) →
       FindTextureSlot tag s' = Returned (slot, s')).
Proof.
  apply (DestroyGLTextures_keeps_registry three_textures).
  simpl. lia.
Defined.

(** ** The setters with a shader manager present *)

(** X8. A tag that is registered.  With a shader manager present,
    [SetShaderMaterial] uploads the diffuse colour, the specular colour and
    the shininess of the first record that has the tag, in this order, and
    nothing else. *)
Theorem SetShaderMaterial_matched (tag : string) (s : State) (w : ShaderManager)
    (i : nat) (e : OBJECT_MATERIAL.t) :
  m_pShaderManager s = Some w →
  m_objectMaterials s !! i = Some e →
  OBJECT_MATERIAL.tag e = tag →
  (∀ j e', (j < i)%nat → m_objectMaterials s !! j = Some e' →
           OBJECT_MATERIAL.tag e' ≠ tag) →
  SetShaderMaterial tag s =
  Returned (tt, set_shader (λ _, Some
    ([("material.shininess", UFloat (OBJECT_MATERIAL.shininess e));
      ("material.specularColor", UVec3 (OBJECT_MATERIAL.specularColor e));
      ("material.diffuseColor", UVec3 (OBJECT_MATERIAL.diffuseColor e))]
     ++ w)%list) s).
Proof.
  intros Hw He Htag Hfirst.
  assert (Hne : m_objectMaterials s ≠ []) by (intros E; rewrite E in He; done).
  destruct (SetShaderMaterial_nonempty tag s Hne) as (material & Hfind & ->).
  rewrite (FindMaterial_first s tag (indeterminate s) i e He Htag Hfirst) in Hfind.
  assert (material = copy_fields e (indeterminate s)) as -> by congruence.
  cbv [mbind M_bind].
  rewrite (shader_set_some _ _ _ _ Hw).
  erewrite shader_set_some by reflexivity.
  erewrite shader_set_some by reflexivity.
  reflexivity.
Qed.

Lemma SetShaderMaterial_matched_witness :
  SetShaderMaterial "glossy" one_material =
  Returned (tt, set_shader (λ _, Some
    ([("material.shininess", UFloat 128.0);
      ("material.specularColor", UVec3 (glm.mk_vec3 1.0 1.0 1.0));
      ("material.diffuseColor", UVec3 (glm.mk_vec3 1.0 1.0 1.0))]
     ++ [])%list) one_material).
Proof.
  apply (SetShaderMaterial_matched "glossy" one_material [] 0
           (OBJECT_MATERIAL.mk (glm.mk_vec3 1.0 1.0 1.0) (glm.mk_vec3 1.0 1.0 1.0)
              128.0 "glossy")).
  - reflexivity.
  - reflexivity.
  - reflexivity.
  - intros j e' Hj. lia.
Defined.

Lemma SetShaderColor_present (red green blue alpha : R) (s : State) (w : ShaderManager) :
  m_pShaderManager s = Some w →
  SetShaderColor red green blue alpha s =
  Returned (tt, set_shader (λ _, Some
    ([(g_ColorValueName, UVec4 (glm.mk_vec4 red green blue alpha));
      (g_UseTextureName, UInt 0)] ++ w)%list) s).
Proof.
  intros Hw. unfold SetShaderColor. cbv [mbind M_bind get]. rewrite Hw.
  cbn [is_null negb].
  rewrite (shader_set_some _ _ _ _ Hw).
  erewrite shader_set_some by reflexivity.
  reflexivity.
Qed.

Lemma SetShaderTexture_present (tag : string) (s : State) (w : ShaderManager) (slot : Z) :
  m_pShaderManager s = Some w →
  FindTextureSlot tag s = Returned (slot, s) →
  SetShaderTexture tag s =
  Returned (tt, set_shader (λ _, Some
    ([(g_TextureValueName, USampler2D slot); (g_UseTextureName, UInt 1)] ++ w)%list) s).
Proof.
  intros Hw Hslot. unfold SetShaderTexture. cbv [mbind M_bind get]. rewrite Hw.
  cbn [is_null negb].
  rewrite (shader_set_some _ _ _ _ Hw).
  match goal with
  | |- context [FindTextureSlot tag ?s1] =>
      rewrite (FindTextureSlot_registries tag s s1 slot eq_refl Hslot)
  end.
  erewrite shader_set_some by reflexivity.
  reflexivity.
Qed.

(** X9. [SetShaderTexture] with a shader manager present, on a registry
    within its array: it switches texturing on and uploads as sampler the
    slot that [FindTextureSlot] gives for the tag; for a tag that is not
    registered this is -1, uploaded like any slot. *)
Theorem SetShaderTexture_uploads (tag : string) (s : State) (w : ShaderManager) :
  m_pShaderManager s = Some w →
  0 <= m_loadedTextures s <= Z.of_nat (length (m_textureIDs s)) →
  ∃ slot,
    FindTextureSlot tag s = Returned (slot, s) ∧
    SetShaderTexture tag s =
      Returned (tt, set_shader (λ _, Some
        ([("objectTexture", USampler2D slot); ("bUseTexture", UInt 1)] ++ w)%list) s) ∧
    ((∀ (i : nat) e, Z.of_nat i < m_loadedTextures s → m_textureIDs s !! i = Some e →
                     TEXTURE_INFO.tag e ≠ tag) → slot = -1).
Proof.
  intros Hw Hwf.
  destruct (FindTextureSlot_total tag s Hwf) as (slot & Hslot).
  exists slot. split_and!; [exact Hslot| |].
  - apply SetShaderTexture_present; [exact Hw|exact Hslot].
  - intros Hnone.
    destruct (FindTexture_none s tag Hwf Hnone) as [Hminus _]. congruence.
Qed.

Lemma SetShaderTexture_uploads_witness :
  ∃ slot,
    FindTextureSlot "desk" three_textures = Returned (slot, three_textures) ∧
    SetShaderTexture "desk" three_textures =
      Returned (tt, set_shader (λ _, Some
        ([("objectTexture", USampler2D slot); ("bUseTexture", UInt 1)] ++ [])%list)
        three_textures) ∧
    ((∀ (i : nat) e, Z.of_nat i < m_loadedTextures three_textures →
                     m_textureIDs three_textures !! i = Some e →
                     TEXTURE_INFO.tag e ≠ "desk") → slot = -1).
Proof.
  apply (SetShaderTexture_uploads "desk" three_textures []).
  - reflexivity.
  - simpl. lia.
Defined.

(** X10. The last setter wins.  [SetShaderColor] followed by
    [SetShaderTexture], the order [RenderScene] uses for a textured object,
    leaves texturing switched on with the colour still set; in the other
    order texturing ends switched off, with the sampler still set. *)
Theorem last_setter_wins (red green blue alpha : R) (tag : string) (s : State)
    (w : ShaderManager) :
  m_pShaderManager s = Some w →
  0 <= m_loadedTextures s <= Z.of_nat (length (m_textureIDs s)) →
  ∃ slot s1 w1 s2 w2,
    FindTextureSlot tag s = Returned (slot, s) ∧
    (SetShaderColor red green blue alpha;; SetShaderTexture tag) s = Returned (tt, s1) ∧
    m_pShaderManager s1 = Some w1 ∧
    uniform "bUseTexture" w1 = Some (UInt 1) ∧
    uniform "objectTexture" w1 = Some (USampler2D slot) ∧
    uniform "objectColor" w1 = Some (UVec4 (glm.mk_vec4 red green blue alpha)) ∧
    (SetShaderTexture tag;; SetShaderColor red green blue alpha) s = Returned (tt, s2) ∧
    m_pShaderManager s2 = Some w2 ∧
    uniform "bUseTexture" w2 = Some (UInt 0) ∧
    uniform "objectTexture" w2 = Some (USampler2D slot) ∧
    uniform "objectColor" w2 = Some (UVec4 (glm.mk_vec4 red green blue alpha)).
Proof.
  intros Hw Hwf.
  destruct (FindTextureSlot_total tag s Hwf) as (slot & Hslot).
  exists slot.
  pose proof (SetShaderColor_present red green blue alpha s w Hw) as Hc.
  pose proof (SetShaderTexture_present tag s w slot Hw Hslot) as Ht.
  eexists. eexists. eexists. eexists.
  split; [exact Hslot|].
  split.
  { rewrite (M_bind_returned _ _ _ _ _ Hc).
    apply SetShaderTexture_present; [reflexivity|].
    apply (FindTextureSlot_registries tag s); [reflexivity|exact Hslot]. }
  split; [reflexivity|].
  split; [reflexivity|]. split; [reflexivity|]. split; [reflexivity|].
  split.
  { rewrite (M_bind_returned _ _ _ _ _ Ht).
    apply SetShaderColor_present. reflexivity. }
  split; [reflexivity|].
  split; [reflexivity|]. split; [reflexivity|]. reflexivity.
Qed.

Lemma last_setter_wins_witness :
  ∃ slot s1 w1 s2 w2,
    FindTextureSlot "metal" three_textures = Returned (slot, three_textures) ∧
    (SetShaderColor 1 1 1 1;; SetShaderTexture "metal") three_textures = Returned (tt, s1) ∧
    m_pShaderManager s1 = Some w1 ∧
    uniform "bUseTexture" w1 = Some (UInt 1) ∧
    uniform "objectTexture" w1 = Some (USampler2D slot) ∧
    uniform "objectColor" w1 = Some (UVec4 (glm.mk_vec4 1 1 1 1)) ∧
    (SetShaderTexture "metal";; SetShaderColor 1 1 1 1) three_textures = Returned (tt, s2) ∧
    m_pShaderManager s2 = Some w2 ∧
    uniform "bUseTexture" w2 = Some (UInt 0) ∧
    uniform "objectTexture" w2 = Some (USampler2D slot) ∧
    uniform "objectColor" w2 = Some (UVec4 (glm.mk_vec4 1 1 1 1)).
Proof.
  apply (last_setter_wins 1 1 1 1 "metal" three_textures []).
  - reflexivity.
  - simpl. lia.
Defined.

Section Placement.

Local Open Scope R_scope.
Import glm geometry.

Ltac to_arithmetic :=
  cbv [point scale_point translate_point rotate_x_point rotate_y_point rotate_z_point
       x y z].

(** X11. Where an object ends up.  The matrix [SetTransformations] uploads
    takes the local origin to [positionXYZ], whatever the scale and the
    angles are; and with the three angles 0 it takes every vertex to its
    componentwise product with the scale, moved by [positionXYZ]. *)
Theorem SetTransformations_places (s : State) (w : ShaderManager)
    (scaleXYZ : vec3) (rx ry rz : R) (positionXYZ : vec3) :
  m_pShaderManager s = Some w →
  ∃ modelView : mat4,
    SetTransformations scaleXYZ rx ry rz positionXYZ s
    = Returned (tt, set_shader (λ _, Some (("model", UMat4 modelView) :: w)) s) ∧
    mul_vec modelView (point (mk_vec3 0 0 0)) = point positionXYZ ∧
    (rx = 0 → ry = 0 → rz = 0 →
     ∀ p : vec3,
       mul_vec modelView (point p)
       = point (mk_vec3 (x scaleXYZ * x p + x positionXYZ)
                        (y scaleXYZ * y p + y positionXYZ)
                        (z scaleXYZ * z p + z positionXYZ))).
Proof.
  intros Hw. eexists. split_and!.
  - unfold SetTransformations. cbv [mbind M_bind get]. rewrite Hw. cbn [is_null negb].
    rewrite (shader_set_some _ _ _ _ Hw). reflexivity.
  - rewrite !mul_vec_mul, scale_point_spec, rotate_x_point_spec, rotate_y_point_spec,
      rotate_z_point_spec, translate_point_spec.
    destruct scaleXYZ, positionXYZ. to_arithmetic. f_equal; ring.
  - intros -> -> -> p.
    rewrite !mul_vec_mul, scale_point_spec, rotate_x_point_spec, rotate_y_point_spec,
      rotate_z_point_spec, translate_point_spec.
    destruct scaleXYZ, positionXYZ, p. to_arithmetic.
    rewrite radians_0, cos_0, sin_0. f_equal; ring.
Qed.

Lemma SetTransformations_places_witness :
  ∃ modelView : mat4,
    SetTransformations (mk_vec3 15.0 0.5 10.0) 0 0 0 (mk_vec3 0.0 (-0.25) 0.0) fresh
    = Returned (tt, set_shader (λ _, Some (("model", UMat4 modelView) :: [])) fresh) ∧
    mul_vec modelView (point (mk_vec3 0 0 0)) = point (mk_vec3 0.0 (-0.25) 0.0) ∧
    (0 = 0 → 0 = 0 → 0 = 0 →
     ∀ p : vec3,
       mul_vec modelView (point p)
       = point (mk_vec3 (x (mk_vec3 15.0 0.5 10.0) * x p + x (mk_vec3 0.0 (-0.25) 0.0))
                        (y (mk_vec3 15.0 0.5 10.0) * y p + y (mk_vec3 0.0 (-0.25) 0.0))
                        (z (mk_vec3 15.0 0.5 10.0) * z p + z (mk_vec3 0.0 (-0.25) 0.0)))).
Proof.
  apply (SetTransformations_places fresh []).
  reflexivity.
Defined.

End Placement.

(** ** Without a shader manager *)

Lemma register_texture_shader (textureID : Z) (tag : string) (s s' : State) (u : unit) :
  register_texture textureID tag s = Returned (u, s') →
  m_pShaderManager s' = m_pShaderManager s ∧ m_objectMaterials s' = m_objectMaterials s.
Proof.
  destruct (decide (0 <= m_loadedTextures s < Z.of_nat (length (m_textureIDs s))))
    as [Hin|Hout].
  - rewrite register_texture_in by done. intros H. inversion H. done.
  - rewrite register_texture_out by lia. discriminate.
Qed.

(** Whichever way [CreateGLTexture] returns, it leaves the shader manager
    and the materials alone. *)
Lemma CreateGLTexture_shader (filename tag : string) (s s' : State) (b : bool) :
  CreateGLTexture filename tag s = Returned (b, s') →
  m_pShaderManager s' = m_pShaderManager s ∧ m_objectMaterials s' = m_objectMaterials s.
Proof.
  destruct (files s filename) as [img|] eqn:Hfile.
  - destruct (decide (colorChannels img = 3 ∨ colorChannels img = 4)) as [Hc|Hc].
    + destruct (CreateGLTexture_decoded filename tag s img Hfile Hc)
        as (s1 & -> & _ & _ & Hsh & Hm & _).
      intros H. apply M_bind_inv in H as (u & s2 & H1 & H2).
      apply register_texture_shader in H1 as [H1 H1'].
      inversion H2; subst. split; congruence.
    + unfold CreateGLTexture. run. rewrite Hfile.
      destruct (Z.eqb_spec (colorChannels img) 3) as [|_]; [tauto|].
      destruct (Z.eqb_spec (colorChannels img) 4) as [|_]; [tauto|].
      intros H. inversion H. done.
  - unfold CreateGLTexture. run. rewrite Hfile. intros H. inversion H. done.
Qed.

Lemma BindGLTextures_shader_loop (fuel : nat) :
  ∀ (i : Z) (s s' : State),
    for_loaded fuel i
      (λ i, gl_call (glActiveTexture i);;
            s ← get;
            e ← lift (array_read (m_textureIDs s) i);
            gl_call (glBindTexture (TEXTURE_INFO.ID e))) s
    = Returned (tt, s') →
    m_pShaderManager s' = m_pShaderManager s ∧ m_objectMaterials s' = m_objectMaterials s.
Proof.
  induction fuel as [|fuel IH]; intros i s s'; simpl.
  - destruct (i <? m_loadedTextures s); [discriminate|]. intros H. inversion H. done.
  - destruct (i <? m_loadedTextures s); [|intros H; inversion H; done].
    run. destruct (array_read (m_textureIDs s) i) as [e|f]; [|discriminate].
    intros H. apply IH in H. simpl in H. exact H.
Qed.

Lemma SetupSceneLights_null (s : State) :
  m_pShaderManager s = None → SetupSceneLights s = Undefined NullDereference.
Proof.
  intros H. unfold SetupSceneLights. cbv [mbind M_bind].
  rewrite shader_set_null by done. reflexivity.
Qed.

(** [PrepareScene] after its seven mesh loads. *)
Lemma PrepareScene_after_meshes (s : State) :
  ∃ s0,
    PrepareScene s =
      (CreateGLTexture "textures/monitor.jpg" "monitor";;
       CreateGLTexture "textures/screen.jpg" "screen";;
       CreateGLTexture "textures/dark-metal-texture.jpg" "metal";;
       CreateGLTexture "textures/texture-wooden-boards.jpg" "desk";;
       BindGLTextures;; DefineObjectMaterials;; SetupSceneLights) s0 ∧
    m_pShaderManager s0 = m_pShaderManager s.
Proof.
  eexists. split.
  - unfold PrepareScene.
    do 7 (erewrite M_bind_returned; [|reflexivity]). reflexivity.
  - reflexivity.
Qed.

(** If [PrepareScene] returns, it has reached [SetupSceneLights] with the
    shader manager it started with. *)
Lemma PrepareScene_reaches_lights (s s' : State) :
  PrepareScene s = Returned (tt, s') →
  ∃ s6, SetupSceneLights s6 = Returned (tt, s') ∧
        m_pShaderManager s6 = m_pShaderManager s.
Proof.
  intros H. destruct (PrepareScene_after_meshes s) as (s0 & E & H0).
  rewrite E in H. clear E.
  apply M_bind_inv in H as (b1 & s1 & H1 & H). apply CreateGLTexture_shader in H1 as [H1 _].
  apply M_bind_inv in H as (b2 & s2 & H2 & H). apply CreateGLTexture_shader in H2 as [H2 _].
  apply M_bind_inv in H as (b3 & s3 & H3 & H). apply CreateGLTexture_shader in H3 as [H3 _].
  apply M_bind_inv in H as (b4 & s4 & H4 & H). apply CreateGLTexture_shader in H4 as [H4 _].
  apply M_bind_inv in H as ([] & s5 & H5 & H).
  unfold BindGLTextures in H5. cbv [mbind M_bind get] in H5.
  apply BindGLTextures_shader_loop in H5 as [H5 _].
  apply M_bind_inv in H as ([] & s6 & H6 & H).
  destruct DefineObjectMaterials_appends as (defined & _ & Hdef).
  destruct (Hdef s5) as (s6' & Hrun & _ & _ & _ & H6').
  assert (s6' = s6) as -> by congruence.
  exists s6. split; [exact H|]. congruence.
Qed.

(** X12. [PrepareScene] needs the shader manager.  Constructed on a null
    shader manager it never returns: whatever the files hold, the run ends
    in undefined behaviour, at the latest at the first statement of
    [SetupSceneLights], which dereferences the pointer without a test. *)
Theorem PrepareScene_null_shader (s : State) :
  m_pShaderManager s = None →
  SetupSceneLights s = Undefined NullDereference ∧
  ∀ s', PrepareScene s ≠ Returned (tt, s').
Proof.
  intros Hnull. split; [by apply SetupSceneLights_null|].
  intros s' H.
  apply PrepareScene_reaches_lights in H as (s6 & H & Hsh).
  rewrite SetupSceneLights_null in H; [discriminate|congruence].
Qed.

Lemma PrepareScene_null_shader_witness :
  SetupSceneLights fresh_null = Undefined NullDereference ∧
  ∀ s', PrepareScene fresh_null ≠ Returned (tt, s').
Proof.
  apply (PrepareScene_null_shader fresh_null).
  reflexivity.
Defined.

(** ** What rendering changes *)

Lemma set_shader_same (s : State) : s = set_shader (λ _, m_pShaderManager s) s.
Proof. destruct s. reflexivity. Qed.

Lemma shader_set_effect (name : string) (value : Uniform) (s s' : State) (u : unit) :
  shader_set name value s = Returned (u, s') →
  ∃ w, s' = set_shader (λ _, Some w) s.
Proof.
  unfold shader_set. destruct (m_pShaderManager s) as [w|]; [|discriminate].
  intros H. inversion H. eauto.
Qed.

(** A statement changes the shader manager at most, and a draw the meshes. *)
Lemma execute_effect (c : Statement) (s s' : State) :
  execute c s = Returned (tt, s') →
  ∃ o, s' = set_shader (λ _, o) (set_meshes (draws [c]) s).
Proof.
  assert (Hguard : ∀ body : M unit,
    (∀ s1 s2 u, body s1 = Returned (u, s2) → ∃ o, s2 = set_shader (λ _, o) s1) →
    (s0 ← get; if negb (is_null (m_pShaderManager s0)) then body else mret tt) s
      = Returned (tt, s') →
    ∃ o, s' = set_shader (λ _, o) (set_meshes (draws []) s)).
  { intros body Hbody. cbv [mbind M_bind get].
    destruct (m_pShaderManager s) eqn:Hw; cbn [is_null negb].
    - intros H. apply Hbody in H as [o ->]. exists o. reflexivity.
    - cbv [mret M_ret]. intros H. inversion H; subst.
      exists (m_pShaderManager s'). destruct s'. reflexivity. }
  destruct c as [scaleXYZ rx ry rz positionXYZ|red green blue alpha|textureTag
                |materialTag|u v|shape]; cbn [execute draws].
  - unfold SetTransformations. apply Hguard.
    intros s1 s2 u H. apply shader_set_effect in H as [w ->]. eauto.
  - unfold SetShaderColor. apply Hguard.
    intros s1 s2 u H.
    apply M_bind_inv in H as (u1 & s3 & H1 & H2).
    apply shader_set_effect in H1 as [w1 ->]. apply shader_set_effect in H2 as [w2 ->].
    exists (Some w2). reflexivity.
  - unfold SetShaderTexture. apply Hguard.
    intros s1 s2 u H.
    apply M_bind_inv in H as (u1 & s3 & H1 & H).
    apply M_bind_inv in H as (slot & s4 & H2 & H3).
    pose proof (FindTextureSlot_pure _ _ _ _ H2). subst s4.
    apply shader_set_effect in H1 as [w1 ->]. apply shader_set_effect in H3 as [w2 ->].
    exists (Some w2). reflexivity.
  - unfold SetShaderMaterial. cbv [mbind M_bind get].
    destruct (0 <? Z.of_nat (length (m_objectMaterials s))).
    + destruct (FindMaterial materialTag (indeterminate s) s) as [[[b out] s1]|f] eqn:F;
        [|discriminate].
      apply FindMaterial_pure in F. subst s1.
      destruct b; cbn [Bool.eqb].
      * destruct (shader_set "material.diffuseColor" _ s) as [[u1 s1]|f] eqn:E1;
          [|discriminate].
        destruct (shader_set "material.specularColor" _ s1) as [[u2 s2]|f] eqn:E2;
          [|discriminate].
        intros E3.
        apply shader_set_effect in E1 as [w1 ->]. apply shader_set_effect in E2 as [w2 ->].
        apply shader_set_effect in E3 as [w3 ->].
        exists (Some w3). reflexivity.
      * cbv [mret M_ret]. intros H. inversion H; subst.
        exists (m_pShaderManager s'). destruct s'. reflexivity.
    + cbv [mret M_ret]. intros H. inversion H; subst.
      exists (m_pShaderManager s'). destruct s'. reflexivity.
  - unfold SetTextureUVScale. apply Hguard.
    intros s1 s2 u0 H. apply shader_set_effect in H as [w ->]. eauto.
  - cbv [mesh_call modify]. intros H. inversion H.
    exists (m_pShaderManager s). destruct s. reflexivity.
Qed.

Lemma sequence_effect (l : list Statement) :
  ∀ s s', sequence l s = Returned (tt, s') →
          ∃ o, s' = set_shader (λ _, o) (set_meshes (draws l) s).
Proof.
  induction l as [|c l IH]; intros s s' H.
  - inversion H. exists (m_pShaderManager s'). destruct s'. reflexivity.
  - cbn [sequence] in H. apply M_bind_inv in H as ([] & s1 & H1 & H2).
    apply execute_effect in H1 as [o1 ->].
    apply IH in H2 as [o ->].
    exists o. destruct c; reflexivity.
Qed.

(** X13. [RenderScene] only draws and uploads.  With a shader manager
    present and the texture registry within its array it runs to its end;
    the state it returns differs from the one it started in by the writes to
    the shader manager and by the draw calls of its statements, so the
    texture registry, the materials and the OpenGL texture state are as
    before. *)
Theorem RenderScene_effect (s : State) (w : ShaderManager) :
  m_pShaderManager s = Some w →
  0 <= m_loadedTextures s <= Z.of_nat (length (m_textureIDs s)) →
  ∃ s' o,
    RenderScene s = Returned (tt, s') ∧
    s' = set_shader (λ _, o) (set_meshes (draws RenderScene_statements) s) ∧
    registries s' = registries s ∧
    gl s' = gl s ∧
    ∀ before,
      draws RenderScene_statements before =
      ([DrawMesh Torus; DrawMesh Cylinder; DrawMesh Sphere; DrawMesh Cone;
        DrawMesh Cylinder; DrawMesh Cylinder; DrawMesh Box; DrawMesh Plane;
        DrawMesh TaperedCylinder; DrawMesh Cylinder; DrawMesh Box; DrawMesh Box]
       ++ before)%list.
Proof.
  intros Hw Hwf.
  destruct (sequence_returns RenderScene_statements s) as (s' & Hrun);
    [rewrite Hw; done|exact Hwf|].
  destruct (sequence_effect _ _ _ Hrun) as [o ->].
  eexists. exists o. split_and!; [exact Hrun|reflexivity|reflexivity|reflexivity|].
  intros before. reflexivity.
Qed.

Lemma RenderScene_effect_witness :
  ∃ s' o,
    RenderScene three_textures = Returned (tt, s') ∧
    s' = set_shader (λ _, o) (set_meshes (draws RenderScene_statements) three_textures) ∧
    registries s' = registries three_textures ∧
    gl s' = gl three_textures ∧
    ∀ before,
      draws RenderScene_statements before =
      ([DrawMesh Torus; DrawMesh Cylinder; DrawMesh Sphere; DrawMesh Cone;
        DrawMesh Cylinder; DrawMesh Cylinder; DrawMesh Box; DrawMesh Plane;
        DrawMesh TaperedCylinder; DrawMesh Cylinder; DrawMesh Box; DrawMesh Box]
       ++ before)%list.
Proof.
  apply (RenderScene_effect three_textures []).
  - reflexivity.
  - simpl. lia.
Defined.

Lemma execute_null (c : Statement) (s : State) :
  m_pShaderManager s = None →
  m_objectMaterials s = [] →
  execute c s = Returned (tt, set_meshes (draws [c]) s).
Proof.
  intros Hnull Hempty.
  destruct c as [scaleXYZ rx ry rz positionXYZ|red green blue alpha|textureTag
                |materialTag|u v|shape]; cbn [execute draws].
  - unfold SetTransformations. cbv [mbind M_bind get]. rewrite Hnull.
    destruct s. reflexivity.
  - unfold SetShaderColor. cbv [mbind M_bind get]. rewrite Hnull.
    destruct s. reflexivity.
  - unfold SetShaderTexture. cbv [mbind M_bind get]. rewrite Hnull.
    destruct s. reflexivity.
  - rewrite SetShaderMaterial_empty by done. destruct s. reflexivity.
  - unfold SetTextureUVScale. cbv [mbind M_bind get]. rewrite Hnull.
    destruct s. reflexivity.
  - reflexivity.
Qed.

Lemma sequence_null (l : list Statement) :
  ∀ s, m_pShaderManager s = None → m_objectMaterials s = [] →
       sequence l s = Returned (tt, set_meshes (draws l) s).
Proof.
  induction l as [|c l IH]; intros s Hnull Hempty.
  - cbn [sequence draws]. destruct s. reflexivity.
  - cbn [sequence]. rewrite (M_bind_returned _ _ _ _ _ (execute_null c s Hnull Hempty)).
    rewrite IH by done. destruct c; reflexivity.
Qed.

Lemma SetShaderMaterial_null (tag : string) (s : State) :
  m_pShaderManager s = None → m_objectMaterials s ≠ [] →
  SetShaderMaterial tag s = Undefined NullDereference.
Proof.
  intros Hnull Hne.
  destruct (SetShaderMaterial_nonempty tag s Hne) as (material & _ & ->).
  cbv [mbind M_bind]. rewrite shader_set_null by done. reflexivity.
Qed.

(** X14. [RenderScene] without a shader manager.  When no material is
    defined it still returns: no uniform is written and the twelve meshes
    are drawn all the same.  When a material is defined, whichever, the run
    is a null dereference at its first [SetShaderMaterial]: the statements in
    front of that call hold no draw and no [SetShaderMaterial], they return
    in the state the run started in, and the call itself, made in that
    state, dereferences the null pointer. *)
Theorem RenderScene_null_shader (s : State) :
  m_pShaderManager s = None →
  (m_objectMaterials s = [] →
   RenderScene s = Returned (tt, set_meshes (draws RenderScene_statements) s)) ∧
  (m_objectMaterials s ≠ [] →
   ∃ done tag todo,
     RenderScene_statements = (done ++ Call_SetShaderMaterial tag :: todo)%list ∧
     material_tags done = [] ∧
     (∀ before, draws done before = before) ∧
     sequence done s = Returned (tt, s) ∧
     SetShaderMaterial tag s = Undefined NullDereference ∧
     RenderScene s = Undefined NullDereference).
Proof.
  intros Hnull. split.
  - intros Hempty. apply sequence_null; done.
  - intros Hne.
    assert (H1 : ∀ a b c d e, SetTransformations a b c d e s = Returned (tt, s)).
    { intros. unfold SetTransformations. cbv [mbind M_bind get]. rewrite Hnull.
      reflexivity. }
    assert (H2 : ∀ a b c d, SetShaderColor a b c d s = Returned (tt, s)).
    { intros. unfold SetShaderColor. cbv [mbind M_bind get]. rewrite Hnull. reflexivity. }
    assert (H3 : ∀ t, SetShaderTexture t s = Returned (tt, s)).
    { intros. unfold SetShaderTexture. cbv [mbind M_bind get]. rewrite Hnull.
      reflexivity. }
    exists (take 3 RenderScene_statements), "wood", (drop 4 RenderScene_statements).
    split; [reflexivity|]. split; [reflexivity|]. split; [intros before; reflexivity|].
    split.
    { cbn [take RenderScene_statements sequence execute].
      rewrite (M_bind_returned _ _ _ _ _ (H1 _ _ _ _ _)).
      rewrite (M_bind_returned _ _ _ _ _ (H2 _ _ _ _)).
      rewrite (M_bind_returned _ _ _ _ _ (H3 _)).
      reflexivity. }
    split; [by apply SetShaderMaterial_null|].
    unfold RenderScene, RenderScene_statements. cbn [sequence execute].
    rewrite (M_bind_returned _ _ _ _ _ (H1 _ _ _ _ _)).
    rewrite (M_bind_returned _ _ _ _ _ (H2 _ _ _ _)).
    rewrite (M_bind_returned _ _ _ _ _ (H3 _)).
    cbv [mbind M_bind]. rewrite SetShaderMaterial_null by done. reflexivity.
Qed.

Lemma RenderScene_null_shader_witness :
  RenderScene fresh_null
  = Returned (tt, set_meshes (draws RenderScene_statements) fresh_null) ∧
  ∃ done tag todo,
    RenderScene_statements = (done ++ Call_SetShaderMaterial tag :: todo)%list ∧
    material_tags done = [] ∧
    (∀ before, draws done before = before) ∧
    sequence done one_material_null = Returned (tt, one_material_null) ∧
    SetShaderMaterial tag one_material_null = Undefined NullDereference ∧
    RenderScene one_material_null = Undefined NullDereference.
Proof.
  split.
  - destruct (RenderScene_null_shader fresh_null) as [Hreturns _].
    + reflexivity.
    + apply Hreturns. reflexivity.
  - destruct (RenderScene_null_shader one_material_null) as [_ Hfaults].
    + reflexivity.
    + apply Hfaults. simpl. discriminate.
Defined.

(** ** Preparing the scene when the files are missing *)

Lemma CreateGLTexture_failed_load (filename tag : string) (s : State) :
  files s filename = None →
  ∃ s',
    CreateGLTexture filename tag s = Returned (false, s') ∧
    m_textureIDs s' = m_textureIDs s ∧
    m_loadedTextures s' = m_loadedTextures s ∧
    m_pShaderManager s' = m_pShaderManager s ∧
    m_objectMaterials s' = m_objectMaterials s ∧
    files s' = files s.
Proof.
  intros Hfile. unfold CreateGLTexture. run. rewrite Hfile.
  eexists. split; [reflexivity|]. done.
Qed.

(** X15. A failed load degrades silently.  When none of the four texture
    files decodes, [PrepareScene] (shader manager present, registry within
    its array) still returns: the texture registry is as it was, so every
    tag resolves as before, and from an empty registry every tag, the four
    of the scene included, resolves to -1; the materials are defined all the
    same. *)
Theorem PrepareScene_missing_files (s : State) (w : ShaderManager) :
  m_pShaderManager s = Some w →
  0 <= m_loadedTextures s <= Z.of_nat (length (m_textureIDs s)) →
  files s "textures/monitor.jpg" = None →
  files s "textures/screen.jpg" = None →
  files s "textures/dark-metal-texture.jpg" = None →
  files s "textures/texture-wooden-boards.jpg" = None →
  ∃ s' defined,
    PrepareScene s = Returned (tt, s') ∧
    m_textureIDs s' = m_textureIDs s ∧
    m_loadedTextures s' = m_loadedTextures s ∧
    m_objectMaterials s' = (m_objectMaterials s ++ defined)%list ∧
    map OBJECT_MATERIAL.tag defined
      = ["glossy"; "metal"; "wood"; "matte"; "ceramic"; "default"] ∧
    (∀ tag slot, FindTextureSlot tag s = Returned (slot, s) →
                 FindTextureSlot tag s' = Returned (slot, s')) ∧
    (m_loadedTextures s = 0 → ∀ tag, FindTextureSlot tag s' = Returned (-1, s')).
Proof.
  intros Hw Hwf Hf1 Hf2 Hf3 Hf4. unfold PrepareScene.
  do 7 (erewrite M_bind_returned; [|reflexivity]).
  match goal with |- context [mbind _ _ ?s0] => set (s0' := s0) end.
  destruct (CreateGLTexture_failed_load "textures/monitor.jpg" "monitor" s0')
    as (s1 & Hr1 & Ha1 & Hn1 & Hs1 & Hm1 & Hfs1); [done|].
  rewrite (M_bind_returned _ _ _ _ _ Hr1).
  destruct (CreateGLTexture_failed_load "textures/screen.jpg" "screen" s1)
    as (s2 & Hr2 & Ha2 & Hn2 & Hs2 & Hm2 & Hfs2); [by rewrite Hfs1|].
  rewrite (M_bind_returned _ _ _ _ _ Hr2).
  destruct (CreateGLTexture_failed_load "textures/dark-metal-texture.jpg" "metal" s2)
    as (s3 & Hr3 & Ha3 & Hn3 & Hs3 & Hm3 & Hfs3); [by rewrite Hfs2, Hfs1|].
  rewrite (M_bind_returned _ _ _ _ _ Hr3).
  destruct (CreateGLTexture_failed_load "textures/texture-wooden-boards.jpg" "desk" s3)
    as (s4 & Hr4 & Ha4 & Hn4 & Hs4 & Hm4 & Hfs4); [by rewrite Hfs3, Hfs2, Hfs1|].
  rewrite (M_bind_returned _ _ _ _ _ Hr4).
  assert (Ha : m_textureIDs s4 = m_textureIDs s) by (by rewrite Ha4, Ha3, Ha2, Ha1).
  assert (Hn : m_loadedTextures s4 = m_loadedTextures s) by (by rewrite Hn4, Hn3, Hn2, Hn1).
  destruct (BindGLTextures_returns s4) as (s5 & Hr5 & Ha5 & Hn5 & Hs5 & Hm5).
  { rewrite Ha, Hn. exact Hwf. }
  rewrite (M_bind_returned _ _ _ _ _ Hr5).
  destruct DefineObjectMaterials_appends as (defined & Htags & Hdef).
  destruct (Hdef s5) as (s6 & Hr6 & Hm6 & Ha6 & Hn6 & Hs6).
  rewrite (M_bind_returned _ _ _ _ _ Hr6).
  destruct (SetupSceneLights_returns s6 w) as (s7 & Hr7 & Hm7 & Ha7 & Hn7).
  { rewrite Hs6, Hs5, Hs4, Hs3, Hs2, Hs1. done. }
  assert (Ha' : m_textureIDs s7 = m_textureIDs s) by (by rewrite Ha7, Ha6, Ha5).
  assert (Hn' : m_loadedTextures s7 = m_loadedTextures s) by (by rewrite Hn7, Hn6, Hn5).
  assert (Hkeep : ∀ tag slot, FindTextureSlot tag s = Returned (slot, s) →
                              FindTextureSlot tag s7 = Returned (slot, s7)).
  { apply FindTextureSlot_tags; [exact Hn'|exact Hwf|]. intros i. by rewrite Ha'. }
  exists s7, defined.
  split; [exact Hr7|]. split; [exact Ha'|]. split; [exact Hn'|].
  split; [by rewrite Hm7, Hm6, Hm5, Hm4, Hm3, Hm2, Hm1|].
  split; [exact Htags|]. split; [exact Hkeep|].
  intros Hzero tag. apply Hkeep.
  apply (FindTexture_none s tag Hwf). intros i e Hi. lia.
Qed.

Lemma PrepareScene_missing_files_witness :
  ∃ s' defined,
    PrepareScene (set_files_none fresh) = Returned (tt, s') ∧
    m_textureIDs s' = m_textureIDs (set_files_none fresh) ∧
    m_loadedTextures s' = m_loadedTextures (set_files_none fresh) ∧
    m_objectMaterials s' = (m_objectMaterials (set_files_none fresh) ++ defined)%list ∧
    map OBJECT_MATERIAL.tag defined
      = ["glossy"; "metal"; "wood"; "matte"; "ceramic"; "default"] ∧
    (∀ tag slot,
       FindTextureSlot tag (set_files_none fresh) = Returned (slot, set_files_none fresh) →
       FindTextureSlot tag s' = Returned (slot, s')) ∧
    (m_loadedTextures (set_files_none fresh) = 0 →
     ∀ tag, FindTextureSlot tag s' = Returned (-1, s')).
Proof.
  apply (PrepareScene_missing_files (set_files_none fresh) []).
  - reflexivity.
  - simpl. lia.
  - reflexivity.
  - reflexivity.
  - reflexivity.
  - reflexivity.
Defined.

(** ** Defining materials, then finding them *)

Lemma FindMaterial_app (s s' : State) (extra : list OBJECT_MATERIAL.t) (tag : string)
    (out : OBJECT_MATERIAL.t) (i : nat) (e : OBJECT_MATERIAL.t) :
  m_objectMaterials s' = (m_objectMaterials s ++ extra)%list →
  m_objectMaterials s !! i = Some e →
  OBJECT_MATERIAL.tag e = tag →
  (∀ j e', (j < i)%nat → m_objectMaterials s !! j = Some e' →
           OBJECT_MATERIAL.tag e' ≠ tag) →
  FindMaterial tag out s' = Returned ((true, copy_fields e out), s').
Proof.
  intros Happ He Htag Hfirst.
  pose proof (lookup_lt_Some _ _ _ He) as Hlt.
  apply (FindMaterial_first s' tag out i e).
  - rewrite Happ. rewrite lookup_app_l by done. exact He.
  - exact Htag.
  - intros j e' Hj He'. rewrite Happ in He'. rewrite lookup_app_l in He' by lia.
    apply (Hfirst j); done.
Qed.

Lemma six_tags_NoDup :
  NoDup ["glossy"; "metal"; "wood"; "matte"; "ceramic"; "default"].
Proof.
  repeat (apply NoDup_cons; split;
          [intros H; apply list_elem_of_In in H; simpl in H;
           repeat (destruct H as [H|H]; [discriminate|]); exact H|]).
  apply NoDup_nil. done.
Qed.

(** X16. Define, then find.  After [DefineObjectMaterials] on an empty
    registry each of the six records it defines is found under its own tag:
    [FindMaterial] returns true and hands out the diffuse colour, specular
    colour and shininess of exactly that record. *)
Theorem DefineObjectMaterials_then_find (s : State) :
  m_objectMaterials s = [] →
  ∃ s',
    DefineObjectMaterials s = Returned (tt, s') ∧
    map OBJECT_MATERIAL.tag (m_objectMaterials s')
      = ["glossy"; "metal"; "wood"; "matte"; "ceramic"; "default"] ∧
    ∀ e out,
      e ∈ m_objectMaterials s' →
      FindMaterial (OBJECT_MATERIAL.tag e) out s' = Returned ((true, copy_fields e out), s').
Proof.
  intros Hempty.
  destruct DefineObjectMaterials_appends as (defined & Htags & Hdef).
  destruct (Hdef s) as (s' & Hrun & Hm & _).
  rewrite Hempty in Hm. simpl in Hm.
  exists s'. split; [exact Hrun|]. split; [by rewrite Hm|].
  intros e out He.
  apply list_elem_of_lookup in He as [i Hi].
  apply (FindMaterial_first s' (OBJECT_MATERIAL.tag e) out i e Hi eq_refl).
  intros j e' Hj He' Heq.
  assert (Hnd : NoDup (map OBJECT_MATERIAL.tag (m_objectMaterials s'))).
  { rewrite Hm, Htags. apply six_tags_NoDup. }
  assert (j = i); [|lia].
  apply (NoDup_lookup _ j i (OBJECT_MATERIAL.tag e) Hnd).
  - rewrite list_lookup_fmap, He'. simpl. by rewrite Heq.
  - rewrite list_lookup_fmap, Hi. done.
Qed.

Lemma DefineObjectMaterials_then_find_witness :
  ∃ s',
    DefineObjectMaterials fresh = Returned (tt, s') ∧
    map OBJECT_MATERIAL.tag (m_objectMaterials s')
      = ["glossy"; "metal"; "wood"; "matte"; "ceramic"; "default"] ∧
    ∀ e out,
      e ∈ m_objectMaterials s' →
      FindMaterial (OBJECT_MATERIAL.tag e) out s' = Returned ((true, copy_fields e out), s').
Proof.
  apply (DefineObjectMaterials_then_find fresh).
  reflexivity.
Defined.

(** X17. Defining the materials a second time changes no lookup.  The six
    records are appended again, after the first six, and [FindMaterial]
    stops at the first record with the tag: for every tag and every output
    record it gives after the second call what it gave after the first. *)
Theorem DefineObjectMaterials_twice (s : State) :
  ∃ s1 s2,
    DefineObjectMaterials s = Returned (tt, s1) ∧
    DefineObjectMaterials s1 = Returned (tt, s2) ∧
    length (m_objectMaterials s2) = (length (m_objectMaterials s) + 12)%nat ∧
    ∀ tag out b out',
      FindMaterial tag out s1 = Returned ((b, out'), s1) →
      FindMaterial tag out s2 = Returned ((b, out'), s2).
Proof.
  destruct DefineObjectMaterials_appends as (defined & Htags & Hdef).
  destruct (Hdef s) as (s1 & Hrun1 & Hm1 & _).
  destruct (Hdef s1) as (s2 & Hrun2 & Hm2 & _).
  assert (Hlen : length defined = 6%nat).
  { rewrite <- (length_map OBJECT_MATERIAL.tag), Htags. reflexivity. }
  exists s1, s2. split; [exact Hrun1|]. split; [exact Hrun2|].
  split; [rewrite Hm2, Hm1, !length_app, Hlen; lia|].
  assert (Hne1 : m_objectMaterials s1 ≠ []).
  { intros E. apply (f_equal length) in E. rewrite Hm1, length_app, Hlen in E.
    simpl in E. lia. }
  assert (Hne2 : m_objectMaterials s2 ≠ []).
  { intros E. apply (f_equal length) in E. rewrite Hm2, length_app, Hlen in E.
    simpl in E. lia. }
  intros tag out b out' Hfind.
  destruct (first_or_none s1 tag) as [(i & e & He & Htag & Hfirst)|Hnone].
  - rewrite (FindMaterial_first s1 tag out i e He Htag Hfirst) in Hfind.
    rewrite (FindMaterial_app s1 s2 defined tag out i e Hm2 He Htag Hfirst).
    congruence.
  - rewrite (FindMaterial_none s1 tag out Hne1 Hnone) in Hfind.
    rewrite (FindMaterial_none s2 tag out Hne2); [congruence|].
    intros e He. rewrite Hm2 in He. apply elem_of_app in He as [He|He].
    + by apply Hnone.
    + apply Hnone. rewrite Hm1. apply elem_of_app. by right.
Qed.

(** ** Slots follow the load order *)

(** X18. From an empty texture registry, with the shader manager present
    and the four files loadable, [PrepareScene] returns with four textures
    registered, in the slots of their load order: "monitor" in 0, "screen"
    in 1, "metal" in 2 and "desk" in 3. *)
Theorem PrepareScene_slots (s : State) (w : ShaderManager) :
  m_pShaderManager s = Some w →
  Z.of_nat (length (m_textureIDs s)) = MAX_TEXTURES →
  m_loadedTextures s = 0 →
  loadable s "textures/monitor.jpg" →
  loadable s "textures/screen.jpg" →
  loadable s "textures/dark-metal-texture.jpg" →
  loadable s "textures/texture-wooden-boards.jpg" →
  ∃ s',
    PrepareScene s = Returned (tt, s') ∧
    m_loadedTextures s' = 4 ∧
    FindTextureSlot "monitor" s' = Returned (0, s') ∧
    FindTextureSlot "screen" s' = Returned (1, s') ∧
    FindTextureSlot "metal" s' = Returned (2, s') ∧
    FindTextureSlot "desk" s' = Returned (3, s').
Proof.
  intros Hw Hlen Hzero L1 L2 L3 L4.
  destruct (PrepareScene_returns s w Hw Hlen) as (s' & defined & Hrun & Hcount & Hentries & _);
    [lia|unfold MAX_TEXTURES; lia|done|done|done|done|].
  rewrite Hzero in Hcount, Hentries. simpl in Hcount, Hentries.
  assert (H0 : ∃ e, m_textureIDs s' !! 0%nat = Some e ∧ TEXTURE_INFO.tag e = "monitor").
  { apply (Hentries 0%nat). apply list_elem_of_In. simpl. tauto. }
  assert (H1 : ∃ e, m_textureIDs s' !! 1%nat = Some e ∧ TEXTURE_INFO.tag e = "screen").
  { apply (Hentries 1%nat). apply list_elem_of_In. simpl. tauto. }
  assert (H2 : ∃ e, m_textureIDs s' !! 2%nat = Some e ∧ TEXTURE_INFO.tag e = "metal").
  { apply (Hentries 2%nat). apply list_elem_of_In. simpl. tauto. }
  assert (H3 : ∃ e, m_textureIDs s' !! 3%nat = Some e ∧ TEXTURE_INFO.tag e = "desk").
  { apply (Hentries 3%nat). apply list_elem_of_In. simpl. tauto. }
  destruct H0 as (e0 & He0 & Ht0), H1 as (e1 & He1 & Ht1), H2 as (e2 & He2 & Ht2),
    H3 as (e3 & He3 & Ht3).
  exists s'. split; [exact Hrun|]. split; [exact Hcount|].
  split; [|split; [|split]].
  - apply (FindTexture_first s' "monitor" 0 e0); [lia|done|done|].
    intros j e' Hj. lia.
  - apply (FindTexture_first s' "screen" 1 e1); [lia|done|done|].
    intros [|j] e' Hj He'; [|lia].
    assert (e' = e0) as -> by congruence. rewrite Ht0. discriminate.
  - apply (FindTexture_first s' "metal" 2 e2); [lia|done|done|].
    intros [|[|j]] e' Hj He'; [| |lia].
    + assert (e' = e0) as -> by congruence. rewrite Ht0. discriminate.
    + assert (e' = e1) as -> by congruence. rewrite Ht1. discriminate.
  - apply (FindTexture_first s' "desk" 3 e3); [lia|done|done|].
    intros [|[|[|j]]] e' Hj He'; [| | |lia].
    + assert (e' = e0) as -> by congruence. rewrite Ht0. discriminate.
    + assert (e' = e1) as -> by congruence. rewrite Ht1. discriminate.
    + assert (e' = e2) as -> by congruence. rewrite Ht2. discriminate.
Qed.

Lemma PrepareScene_slots_witness :
  ∃ s',
    PrepareScene fresh = Returned (tt, s') ∧
    m_loadedTextures s' = 4 ∧
    FindTextureSlot "monitor" s' = Returned (0, s') ∧
    FindTextureSlot "screen" s' = Returned (1, s') ∧
    FindTextureSlot "metal" s' = Returned (2, s') ∧
    FindTextureSlot "desk" s' = Returned (3, s').
Proof.
  apply (PrepareScene_slots fresh []).
  - reflexivity.
  - reflexivity.
  - reflexivity.
  - exists (mk_Image 64 64 3). split; [reflexivity|left; reflexivity].
  - exists (mk_Image 64 64 3). split; [reflexivity|left; reflexivity].
  - exists (mk_Image 64 64 3). split; [reflexivity|left; reflexivity].
  - exists (mk_Image 64 64 3). split; [reflexivity|left; reflexivity].
Defined.
